(** * PDF-Analyzer: content extraction and multi-modal analysis

    A shallow embedding of [backend/document_processor.py] and
    [backend/document_analyzer.py], with the pieces of [config.py] and
    [exceptions.py] they use.

    The two classes talk to collaborators the repository does not own: the
    file system, pymupdf, PIL, docTR and the dspy predictors.  Each of them is
    a field of a record of oracles ([Backend] for the processor, [LM] for the
    analyzer) that answers either with a value or with an exception.  Python
    code runs in the monad [M]: it threads the chronological list of
    observable events (calls to the collaborators, log records) and ends with
    [Return v] or [Raise e]; events emitted before an exception stay in the
    trace. *)

From Stdlib Require Import String Ascii List ZArith Bool Lia PrimFloat DecimalString.
Import ListNotations.
Open Scope string_scope.
Open Scope list_scope.
Set Warnings "-register-all".

(* ================================================================== *)
(** ** Python strings *)

Module PyStr.

(** [str.isspace] on one character, for the code points below 256: TAB, LF,
    VT, FF, CR, the four separators FS..US, SPACE, NEL and NBSP.  (The
    whitespace code points above 255 are not representable in [ascii].) *)
Definition isspace (c : ascii) : bool :=
  let n := nat_of_ascii c in
  (((9 <=? n) && (n <=? 13)) || ((28 <=? n) && (n <=? 32))
   || (n =? 133) || (n =? 160))%nat.

Definition is_empty (s : string) : bool :=
  match s with EmptyString => true | String _ _ => false end.

(** [s.lstrip()] *)
Fixpoint lstrip (s : string) : string :=
  match s with
  | EmptyString => EmptyString
  | String c s' => if isspace c then lstrip s' else s
  end.

(** [s.rstrip()] *)
Fixpoint rstrip (s : string) : string :=
  match s with
  | EmptyString => EmptyString
  | String c s' =>
      let r := rstrip s' in
      if isspace c && is_empty r then EmptyString else String c r
  end.

(** [s.strip()] *)
Definition strip (s : string) : string := rstrip (lstrip s).

(** every character of [s] is whitespace *)
Fixpoint all_space (s : string) : bool :=
  match s with
  | EmptyString => true
  | String c s' => isspace c && all_space s'
  end.

(** the last character of [s], if any *)
Fixpoint last_char (s : string) : option ascii :=
  match s with
  | EmptyString => None
  | String c EmptyString => Some c
  | String _ s' => last_char s'
  end.

(** [str(n)] for an [int] *)
Definition str_of_int (z : Z) : string := NilZero.string_of_int (Z.to_int z).

(** the one-character string ["\n"] *)
Definition newline : string := String (ascii_of_nat 10) EmptyString.

End PyStr.

(* ================================================================== *)
(** ** exceptions.py, and the foreign exceptions the code meets *)

Module Exceptions.

(** The class of an exception.  [InvalidDocumentError] and
    [ContentExtractionError] are the two subclasses of
    [DocumentProcessingError] declared in [exceptions.py];
    [FileNotFoundError] is the builtin; [FileDataError] is pymupdf's (its
    subclasses included); every other subclass of [Exception] is
    [OtherException] with its name. *)
Inductive exn_class : Type :=
| FileNotFoundError
| FileDataError
| InvalidDocumentError
| ContentExtractionError
| OtherException (name : string).

(** An exception object: its class and [str(e)]. *)
Record exn : Type := Exn { exn_class_of : exn_class; exn_msg : string }.

(** [except pymupdf.FileDataError] *)
Definition is_FileDataError (e : exn) : bool :=
  match exn_class_of e with FileDataError => true | _ => false end.

End Exceptions.
Export Exceptions.

(* ================================================================== *)
(** ** config.py *)

Module Config.

Record AppConfig : Type := {
  MAX_FILE_SIZE : Z;        (* bytes *)
  MAX_FILE_PAGE : Z;
  MIN_CONFIDENCE : float
}.

(** The values when the environment sets neither [MAX_FILE_SIZE_MB] nor
    [MAX_FILE_PAGE]. *)
Definition default_config : AppConfig := {|
  MAX_FILE_SIZE := 2 * 1024 * 1024;
  MAX_FILE_PAGE := 10;
  MIN_CONFIDENCE := 0x1.3333333333333p-1%float   (* the double written 0.6 *)
|}.

End Config.
Export Config.

(* ================================================================== *)
(** ** Values shared by the two classes *)

(** [pymupdf.Pixmap]: what [_render_page_image] reads of it. *)
Record Pixmap : Type := { pix_width : Z; pix_height : Z; pix_samples : list Z }.

(** [PIL.Image.Image] built by [Image.frombytes(mode, size, data)]. *)
Record Image : Type := { img_mode : string; img_size : Z * Z; img_data : list Z }.

(** [dspy.Image]: the encoded picture handed to a predictor. *)
Record dspy_Image : Type := { dspy_url : string }.

(** JSON-like Python values: the [dict]s built for the predictors and the
    [dict] returned by [forward].  A [dict] keeps its items in insertion
    order. *)
Inductive pyval : Type :=
| PyStr (s : string)
| PyFloat (x : float)
| PyList (xs : list pyval)
| PyDict (items : list (string * pyval)).

Definition py_strs (l : list string) : pyval := PyList (map PyStr l).

(** [list(d.keys())], [None] when [d] is not a dict *)
Definition dict_keys (d : pyval) : option (list string) :=
  match d with
  | PyDict items => Some (map fst items)
  | _ => None
  end.

Fixpoint assoc (k : string) (items : list (string * pyval)) : option pyval :=
  match items with
  | [] => None
  | (k', v) :: rest => if String.eqb k k' then Some v else assoc k rest
  end.

(** [d[k]] *)
Definition dict_get (k : string) (d : pyval) : option pyval :=
  match d with
  | PyDict items => assoc k items
  | _ => None
  end.

(* ================================================================== *)
(** ** Effects: the trace of observations, and exceptions *)

Module Effects.

Inductive level : Type := DEBUG | INFO | WARNING | ERROR.

(** An f-string as the sequence of its literal and interpolated pieces. *)
Inductive piece : Type :=
| Text (s : string)
| Num (x : float).

Inductive event : Type :=
(* document_processor.py *)
| CallOpen (path : string)                      (* pymupdf.open(pdf_path) *)
| CallGetText (page : Z)                        (* page.get_text() *)
| CallGetPixmap (page : Z) (zoom : Z)           (* page.get_pixmap(matrix=Matrix(zoom, zoom)) *)
| CallFromBytes (mode : string) (size : Z * Z)  (* Image.frombytes(mode, size, samples) *)
| CallValidContent (text : string)              (* self.validate(text=text) *)
| CallOcr (path : string)                       (* DocumentFile.from_pdf, self.ocr, render *)
(* document_analyzer.py *)
| CallAnalyzeText (text : string)
| CallFromPIL (img : Image)
| CallAnalyzeImages (images : list dspy_Image)
| CallCombine (results_from_text results_from_images : pyval)
| CallValidate (text : string) (images : list Image) (analysis_results : pyval)
(* logging *)
| Log (lvl : level) (msg : list piece).

Definition trace : Type := list event.

Inductive result (A : Type) : Type :=
| Return (a : A)
| Raise (e : exn).
Arguments Return {A} a.
Arguments Raise {A} e.

Definition M (A : Type) : Type := trace -> result A * trace.

Definition ret {A} (a : A) : M A := fun tr => (Return a, tr).

Definition bind {A B} (m : M A) (k : A -> M B) : M B :=
  fun tr =>
    match m tr with
    | (Return a, tr') => k a tr'
    | (Raise e, tr') => (Raise e, tr')
    end.

(** [raise e] *)
Definition throw {A} (e : exn) : M A := fun tr => (Raise e, tr).

(** [try: body / except Exception as e: handler(e)] *)
Definition try_except {A} (body : M A) (handler : exn -> M A) : M A :=
  fun tr =>
    match body tr with
    | (Return a, tr') => (Return a, tr')
    | (Raise e, tr') => handler e tr'
    end.

(** [try: body / except C as e: handler(e)] for the class test [catches] *)
Definition try_except_class {A} (catches : exn -> bool) (body : M A)
    (handler : exn -> M A) : M A :=
  try_except body (fun e => if catches e then handler e else throw e).

Definition emit (ev : event) : M unit := fun tr => (Return tt, tr ++ [ev]).

(** a call to a collaborator: recorded, then answered by the oracle *)
Definition call {A} (ev : event) (answer : result A) : M A :=
  fun tr => (answer, tr ++ [ev]).

Definition log (lvl : level) (msg : list piece) : M unit := emit (Log lvl msg).

(** a question to the environment that leaves no event: it is answered, or
    it raises *)
Definition ask {A} (answer : result A) : M A := fun tr => (answer, tr).

End Effects.
Export Effects.

Declare Scope py_scope.
Delimit Scope py_scope with py.
Notation "x <- m ;; k" := (bind m (fun x => k))
  (at level 61, m at next level, right associativity) : py_scope.
Notation "m ;; k" := (bind m (fun _ => k))
  (at level 61, right associativity) : py_scope.
Open Scope py_scope.
Notation "' pat <- m ;; k" :=
  (bind m (fun x => match x with pat => k end))
  (at level 61, pat pattern, m at next level, right associativity) : py_scope.

(* ================================================================== *)
(** ** document_processor.py *)

Module DocumentProcessor.
Import PyStr.

(** A page of an open [pymupdf.Document]: its number and what its two
    methods answer. *)
Record Page : Type := {
  number : Z;
  get_text : result string;            (* page.get_text() *)
  get_pixmap : Z -> result Pixmap      (* page.get_pixmap(matrix=Matrix(zoom, zoom)) *)
}.

(** An open document: [len(doc)] is its length, [for page in doc] walks it. *)
Definition Document : Type := list Page.

(** What the processor consumes from its environment.  The two questions
    to the file system answer or raise [OSError] ([Path.exists] turns only the
    errors of a missing file into [False]); the file is taken not to change
    during a run, so that a question asked twice is answered the same. *)
Record Backend : Type := {
  path_exists : string -> result bool;          (* pdf_path.exists() *)
  st_size : string -> result Z;                 (* pdf_path.stat().st_size *)
  pymupdf_open : string -> result Document;     (* pymupdf.open(pdf_path) *)
  Image_frombytes : string -> Z * Z -> list Z -> result Image;
  validate : string -> result bool;             (* dspy.Predict(ValidContent)(text=text).is_valid *)
  ocr : string -> result string                 (* self.ocr(DocumentFile.from_pdf(pdf_path)).render() *)
}.

(** [s.lstrip("/")] *)
Fixpoint lstrip_slashes (s : string) : string :=
  match s with
  | EmptyString => EmptyString
  | String c s' => if Ascii.eqb c "/" then lstrip_slashes s' else s
  end.

(** [s.split("/")] *)
Fixpoint split_slashes (s : string) : list string :=
  match s with
  | EmptyString => [EmptyString]
  | String c s' =>
      if Ascii.eqb c "/" then EmptyString :: split_slashes s'
      else match split_slashes s' with
           | [] => [String c EmptyString]
           | x :: xs => String c x :: xs
           end
  end.

(** [str(Path(path))] on POSIX.  The root is "/" when the path starts with
    slashes, "//" when it starts with exactly two; the parts are the
    components between slashes that are neither empty nor "."; the string is
    the root followed by the parts joined by "/", or "." when that is
    empty.  A path object is kept as this string. *)
Definition Path (path : string) : string :=
  let rel := lstrip_slashes path in
  let slashes := (String.length path - String.length rel)%nat in
  let root := if (slashes =? 0)%nat then "" else if (slashes =? 2)%nat then "//" else "/" in
  let parts :=
    filter (fun x => negb (is_empty x || String.eqb x ".")) (split_slashes rel) in
  let s := (root ++ String.concat "/" parts)%string in
  if is_empty s then "." else s.
Arguments Path : simpl never.

Definition _validate_file (cfg : AppConfig) (b : Backend) (pdf_path : string) : M unit :=
  found <- ask (path_exists b pdf_path) ;;
  (if negb found
   then throw (Exn FileNotFoundError ("File not found: " ++ pdf_path)%string)
   else ret tt) ;;
  size <- ask (st_size b pdf_path) ;;
  (if size >? MAX_FILE_SIZE cfg
   then
     size <- ask (st_size b pdf_path) ;;
     throw (Exn InvalidDocumentError
              ("File size " ++ str_of_int size ++ " exceeds limit "
               ++ str_of_int (MAX_FILE_SIZE cfg) ++ " bytes.")%string)
   else ret tt)%Z.

Definition _extract_page_text (page : Page) : M string :=
  try_except
    (raw <- call (CallGetText (number page)) (get_text page) ;;
     let text := strip raw in
     (if is_empty text then log DEBUG [Text "Empty page encountered."] else ret tt) ;;
     ret (text ++ newline)%string)
    (fun e =>
       log ERROR [Text ("Text extraction failed: " ++ exn_msg e)%string] ;;
       throw (Exn ContentExtractionError "Text extraction failed")).

Definition _render_page_image (b : Backend) (page : Page) : M Image :=
  try_except
    (let zoom := 2%Z in
     pix <- call (CallGetPixmap (number page) zoom) (get_pixmap page zoom) ;;
     let size := (pix_width pix, pix_height pix) in
     call (CallFromBytes "RGB" size) (Image_frombytes b "RGB" size (pix_samples pix)))
    (fun e =>
       log ERROR [Text ("Image rendering failed: " ++ exn_msg e)%string] ;;
       throw (Exn ContentExtractionError "Image rendering failed")).

Definition _ocr_fallback (b : Backend) (pdf_path : string) : M string :=
  try_except
    (call (CallOcr pdf_path) (ocr b pdf_path))
    (fun e =>
       log ERROR [Text ("OCR extraction failed: " ++ exn_msg e)%string] ;;
       throw (Exn ContentExtractionError ("OCR extraction failed: " ++ exn_msg e)%string)).

Definition _is_valid_content (b : Backend) (text : string) : M bool :=
  if String.eqb (strip text) "" then ret false
  else call (CallValidContent text) (validate b text).

(** The loop [for page in doc: text += ...; images.append(...)], with the
    two accumulators it updates. *)
Fixpoint for_page_in (b : Backend) (doc : list Page) (text : string)
    (images : list Image) : M (string * list Image) :=
  match doc with
  | [] => ret (text, images)
  | page :: rest =>
      t <- _extract_page_text page ;;
      let text := (text ++ t)%string in
      img <- _render_page_image b page ;;
      let images := images ++ [img] in
      for_page_in b rest text images
  end.

Definition process (cfg : AppConfig) (b : Backend) (path : string)
  : M (string * list Image) :=
  let pdf_path := Path path in
  _validate_file cfg b pdf_path ;;
  try_except_class is_FileDataError
    (doc <- call (CallOpen pdf_path) (pymupdf_open b pdf_path) ;;
     (if (Z.of_nat (length doc) >? MAX_FILE_PAGE cfg)%Z
      then
        log ERROR [Text ("File page count exceeds " ++ str_of_int (MAX_FILE_PAGE cfg)
                         ++ " pages limit.")%string] ;;
        throw (Exn InvalidDocumentError
                 ("File page count exceeds limit " ++ str_of_int (MAX_FILE_PAGE cfg)
                  ++ " pages.")%string)
      else ret tt) ;;
     log INFO [Text ("Extracting text and images from: " ++ pdf_path)%string] ;;
     ' (text, images) <- for_page_in b doc "" [] ;;
     valid <- _is_valid_content b text ;;
     text <- (if negb valid
              then
                log INFO [Text "Text extraction quality insufficient, attempting OCR extraction..."] ;;
                _ocr_fallback b pdf_path
              else ret text) ;;
     ret (text, images))
    (fun e => throw (Exn InvalidDocumentError ("Invalid PDF structure: " ++ exn_msg e)%string)).

End DocumentProcessor.

(* ================================================================== *)
(** ** document_analyzer.py *)

Module DocumentAnalyzer.

(** A [dspy.Prediction] carrying the three output fields that
    [DocImagesAnalysis] and [DocAnalysisCombined] declare. *)
Record Prediction : Type := {
  description : string;
  summary : string;
  notable_info : list string
}.

(** A [dspy.Prediction] of [DocTextAnalysis]: the same three fields and
    [text_quality]. *)
Record TextPrediction : Type := {
  text_quality : string;
  text_fields :> Prediction
}.

(** A [dspy.Prediction] of [AnalysisValidation]. *)
Record Validation : Type := {
  confidence_score : float;
  validation_notes : list string
}.

(** The four [dspy.ChainOfThought] predictors and [dspy.Image.from_PIL].  A
    predictor answers with a prediction that has the output fields of its
    signature at their declared types, or raises. *)
Record LM : Type := {
  analyze_text : string -> result TextPrediction;
  from_PIL : Image -> result dspy_Image;
  analyze_images : list dspy_Image -> result Prediction;
  combine : pyval -> pyval -> result Prediction;
  validate : string -> list Image -> pyval -> result Validation
}.

(** [dspy.Prediction(description="unknown", summary="Text analysis
    unavailable", notable_info=[])] *)
Definition unknown_prediction : Prediction := {|
  description := "unknown";
  summary := "Text analysis unavailable";
  notable_info := []
|}.

Definition _analyze_text (lm : LM) (text : string) : M TextPrediction :=
  try_except
    (log INFO [Text "Starting analysis from text modality..."] ;;
     result <- call (CallAnalyzeText text) (analyze_text lm text) ;;
     ret result)
    (fun e =>
       log ERROR [Text ("Text analysis failed: " ++ exn_msg e)%string] ;;
       ret {| text_quality := "unusable"; text_fields := unknown_prediction |}).

(** [[dspy.Image.from_PIL(img) for img in images]] *)
Fixpoint from_PIL_each (lm : LM) (images : list Image) : M (list dspy_Image) :=
  match images with
  | [] => ret []
  | img :: rest =>
      d <- call (CallFromPIL img) (from_PIL lm img) ;;
      ds <- from_PIL_each lm rest ;;
      ret (d :: ds)
  end.

Definition _analyze_images (lm : LM) (images : list Image) : M Prediction :=
  try_except
    (log INFO [Text "Starting analysis from image modality..."] ;;
     dspy_images <- from_PIL_each lm images ;;
     result <- call (CallAnalyzeImages dspy_images) (analyze_images lm dspy_images) ;;
     ret result)
    (fun e =>
       log ERROR [Text ("Image analysis failed: " ++ exn_msg e)%string] ;;
       ret unknown_prediction).

Definition _combine_results (lm : LM) (r_text : TextPrediction) (r_images : Prediction)
  : M Prediction :=
  try_except
    (log INFO [Text "Combining analysis results..."] ;;
     combined_results <-
       (if String.eqb (text_quality r_text) "unusable"
        then
          log WARNING [Text "Extracted text unsusable, only using visual analysis results."] ;;
          ret r_images
        else
          let results_from_text := PyDict [
            ("text_quality", PyStr (text_quality r_text));
            ("description", PyStr (description r_text));
            ("summary", PyStr (summary r_text));
            ("notable_info", py_strs (notable_info r_text)) ] in
          let results_from_images := PyDict [
            ("description", PyStr (description r_images));
            ("summary", PyStr (summary r_images));
            ("notable_info", py_strs (notable_info r_images)) ] in
          call (CallCombine results_from_text results_from_images)
               (combine lm results_from_text results_from_images)) ;;
     ret combined_results)
    (fun e =>
       (* not an f-string in the source: the braces are logged as they are *)
       log ERROR [Text "Combining analysis results failed: {e}"] ;;
       ret unknown_prediction).

Definition _validate_results (lm : LM) (text : string) (images : list Image)
    (r_combined : Prediction) : M Validation :=
  try_except
    (let results := PyDict [
       ("description", PyStr (description r_combined));
       ("summary", PyStr (summary r_combined));
       ("notable_info", py_strs (notable_info r_combined)) ] in
     validation_results <- call (CallValidate text images results)
                                (validate lm text images results) ;;
     ret validation_results)
    (fun e =>
       log WARNING [Text "Results validation failed: {e}"] ;;
       ret {| confidence_score := 0%float; validation_notes := [] |}).

Definition _format_output (r_combined : Prediction) (r_validation : Validation) : pyval :=
  PyDict [
    ("description", PyStr (description r_combined));
    ("summary", PyStr (summary r_combined));
    ("notable_info", py_strs (notable_info r_combined));
    ("confidence", PyDict [
       ("score", PyFloat (confidence_score r_validation));
       ("notes", py_strs (validation_notes r_validation)) ]) ].

Definition forward (cfg : AppConfig) (lm : LM) (text : string) (images : list Image)
  : M pyval :=
  text_results <- _analyze_text lm text ;;
  images_results <- _analyze_images lm images ;;
  combined_results <- _combine_results lm text_results images_results ;;
  validation_results <- _validate_results lm text images combined_results ;;
  (if PrimFloat.ltb (confidence_score validation_results) (MIN_CONFIDENCE cfg)
   then log WARNING [Text "Confidence score "; Num (confidence_score validation_results);
                     Text " lower than threshhold "; Num (MIN_CONFIDENCE cfg)]
   else ret tt) ;;
  ret (_format_output combined_results validation_results).

End DocumentAnalyzer.

(* ================================================================== *)
(** ** Vocabulary of the statements *)

Module Vocabulary.
Import PyStr DocumentProcessor.

(** [m] always returns a value: it never raises. *)
Definition returns {A} (m : M A) : Prop :=
  forall tr, exists a tr', m tr = (Return a, tr').

(** Every exception [m] raises satisfies [P]. *)
Definition raises_only {A} (P : exn -> Prop) (m : M A) : Prop :=
  forall tr e tr', m tr = (Raise e, tr') -> P e.

(** [m] only adds events to the trace, each of them satisfying [P]. *)
Definition emits_only {A} (P : event -> Prop) (m : M A) : Prop :=
  forall tr, exists evs, snd (m tr) = tr ++ evs /\ Forall P evs.

(** [s.endswith("\n")] *)
Definition ends_with_newline (s : string) : bool :=
  match last_char s with
  | Some c => Ascii.eqb c (ascii_of_nat 10)
  | None => false
  end.

(** ["".join(parts)] *)
Definition join (parts : list string) : string := fold_right String.append "" parts.

(** What the pages contribute to the native text, given the raw text
    [page.get_text()] returned for each of them, in page order. *)
Definition native_text (raws : list string) : string :=
  join (map (fun raw => (strip raw ++ newline)%string) raws).

(** the first character of [s], if any *)
Definition first_char (s : string) : option ascii :=
  match s with
  | EmptyString => None
  | String c _ => Some c
  end.

(** [t] is [raw] with the whitespace at its two ends taken off: [raw] is [t]
    between two runs of whitespace, and [t] neither starts nor ends with a
    whitespace character.  This says what trimming is without running
    [strip]. *)
Definition trimmed_of (raw t : string) : Prop :=
  (exists l r, raw = (l ++ t ++ r)%string /\ all_space l = true /\ all_space r = true)
  /\ (forall c, first_char t = Some c -> isspace c = false)
  /\ (forall c, last_char t = Some c -> isspace c = false).

(** The trimmed texts of the pages, each followed by one newline, one after
    the other in page order. *)
Definition page_lines (ts : list string) : string :=
  join (map (fun t => (t ++ newline)%string) ts).

(** Rendering [page] succeeds and yields [img]. *)
Definition renders (b : Backend) (page : Page) (img : Image) : Prop :=
  exists pix,
    get_pixmap page 2%Z = Return pix /\
    Image_frombytes b "RGB" (pix_width pix, pix_height pix) (pix_samples pix) = Return img.

(** The events of per-page work: text extraction and rendering. *)
Definition per_page_work (ev : event) : Prop :=
  match ev with
  | CallGetText _ | CallGetPixmap _ _ | CallFromBytes _ _ => True
  | _ => False
  end.

(** The events the page loop may emit: per-page work and log records. *)
Definition page_event (ev : event) : Prop :=
  match ev with
  | CallGetText _ | CallGetPixmap _ _ | CallFromBytes _ _ | Log _ _ => True
  | _ => False
  end.

(** A call of the readability classifier. *)
Definition classifier_call (ev : event) : Prop :=
  match ev with CallValidContent _ => True | _ => False end.

(** A call of the fusion predictor. *)
Definition fusion_call (ev : event) : Prop :=
  match ev with CallCombine _ _ => True | _ => False end.

Definition is_ContentExtractionError (e : exn) : Prop :=
  exn_class_of e = ContentExtractionError.


(** The record [forward] logs when the score is below the threshold, if it
    is. *)
Definition low_confidence_warning (cfg : AppConfig) (score : float) : list event :=
  if PrimFloat.ltb score (MIN_CONFIDENCE cfg)
  then [Log WARNING [Text "Confidence score "; Num score;
                     Text " lower than threshhold "; Num (MIN_CONFIDENCE cfg)]]
  else [].

(** [forward] with the threshold test taken out: the run against which the
    warning path is compared. *)
Definition forward_without_warning (lm : DocumentAnalyzer.LM) (text : string)
    (images : list Image) : M pyval :=
  text_results <- DocumentAnalyzer._analyze_text lm text ;;
  images_results <- DocumentAnalyzer._analyze_images lm images ;;
  combined_results <- DocumentAnalyzer._combine_results lm text_results images_results ;;
  validation_results <- DocumentAnalyzer._validate_results lm text images combined_results ;;
  ret (DocumentAnalyzer._format_output combined_results validation_results).

(** The text stage of [lm] on [text] ends unusable: the predictor fails, or
    answers with the quality tier "unusable". *)
Definition text_stage_unusable (lm : DocumentAnalyzer.LM) (text : string) : Prop :=
  match DocumentAnalyzer.analyze_text lm text with
  | Return r => DocumentAnalyzer.text_quality r = "unusable"
  | Raise _ => True
  end.

End Vocabulary.
Export Vocabulary.

(* ================================================================== *)
(** ** Vocabulary of the further properties *)

Module Runs.
Import PyStr DocumentProcessor.

(** The result and the events of [m] run from the empty trace. *)
Definition outcome {A} (m : M A) : result A := fst (m []).
Definition events {A} (m : M A) : list event := snd (m []).

(** [m] does not read the trace: from any trace it ends as it does from the
    empty one, and adds the same events. *)
Definition framed {A} (m : M A) : Prop :=
  forall tr, m tr = (outcome m, tr ++ events m).

Definition is_CallValidContent (ev : event) : bool :=
  match ev with CallValidContent _ => true | _ => false end.

Definition is_CallOcr (ev : event) : bool :=
  match ev with CallOcr _ => true | _ => false end.

Definition is_CallAnalyzeText (ev : event) : bool :=
  match ev with CallAnalyzeText _ => true | _ => false end.

Definition is_CallAnalyzeImages (ev : event) : bool :=
  match ev with CallAnalyzeImages _ => true | _ => false end.

Definition is_CallCombine (ev : event) : bool :=
  match ev with CallCombine _ _ => true | _ => false end.

Definition is_CallValidate (ev : event) : bool :=
  match ev with CallValidate _ _ _ => true | _ => false end.

(** A call of one of the five dspy predictors. *)
Definition is_predictor_call (ev : event) : bool :=
  is_CallValidContent ev || is_CallAnalyzeText ev || is_CallAnalyzeImages ev
  || is_CallCombine ev || is_CallValidate ev.

(** How many events of [evs] pass the test [p]. *)
Definition count (p : event -> bool) (evs : list event) : nat := length (filter p evs).

(** Rendering [page] fails with [e]: in [get_pixmap], or in
    [Image.frombytes] on the pixmap obtained. *)
Definition render_fails (b : Backend) (page : Page) (e : exn) : Prop :=
  get_pixmap page 2%Z = Raise e \/
  exists pix,
    get_pixmap page 2%Z = Return pix /\
    Image_frombytes b "RGB" (pix_width pix, pix_height pix) (pix_samples pix) = Raise e.

(** The dict of the three analysis fields of a prediction, as
    [_validate_results] and [_format_output] build it. *)
Definition analysis_dict (r : DocumentAnalyzer.Prediction) : pyval :=
  PyDict [
    ("description", PyStr (DocumentAnalyzer.description r));
    ("summary", PyStr (DocumentAnalyzer.summary r));
    ("notable_info", py_strs (DocumentAnalyzer.notable_info r)) ].

(** [dspy.Prediction(confidence_score=0.0, validation_notes=[])] *)
Definition no_validation : DocumentAnalyzer.Validation :=
  {| DocumentAnalyzer.confidence_score := 0%float;
     DocumentAnalyzer.validation_notes := [] |}.

(** What [process] does once the page loop has returned [text] and [images]
    with the trace [tr0]: the quality gate, then the OCR fallback when the
    gate rejects, inside the handler of [pymupdf.FileDataError]. *)
Definition after_pages (b : Backend) (path : string) (text : string)
    (images : list Image) (tr0 : trace) : result (string * list Image) * trace :=
  let ocr_outcome (tr1 : trace) :=
    let tr2 := tr1 ++ [Log INFO [Text "Text extraction quality insufficient, attempting OCR extraction..."];
                       CallOcr path] in
    match ocr b path with
    | Return t => (Return (t, images), tr2)
    | Raise e =>
        (Raise (Exn ContentExtractionError ("OCR extraction failed: " ++ exn_msg e)%string),
         tr2 ++ [Log ERROR [Text ("OCR extraction failed: " ++ exn_msg e)%string]])
    end in
  if String.eqb (strip text) "" then ocr_outcome tr0
  else
    match validate b text with
    | Return true => (Return (text, images), tr0 ++ [CallValidContent text])
    | Return false => ocr_outcome (tr0 ++ [CallValidContent text])
    | Raise e =>
        (Raise (if is_FileDataError e
                then Exn InvalidDocumentError ("Invalid PDF structure: " ++ exn_msg e)%string
                else e),
         tr0 ++ [CallValidContent text])
    end.

End Runs.
Export Runs.

(* ================================================================== *)
(** ** The callers: config.py at import, main.py and app.py

    The callers run the processor and the analyzer among effects of their
    own: the environment, the file system, standard output, [sys.exit] and
    FastAPI's [HTTPException].  Their code runs in [IO], a second monad of the
    same shape as [M] whose trace holds the callers' events around those of
    the core, and whose failures tell apart what [except Exception] catches
    from [SystemExit]. *)

Module Callers.

(** What [print] is given. *)
Inductive printed : Type :=
| Line (s : string)                       (* print(s) *)
| JsonDump (v : pyval) (indent : Z).      (* print(json.dumps(v, indent=indent)) *)

Inductive io : Type :=
| Core (ev : event)                       (* an event of the core, or a log record *)
| Mkdir (path : string)                   (* Path.mkdir(exist_ok=True, parents=True) *)
| Makedirs (path : string)                (* os.makedirs(path, exist_ok=True) *)
| OpenWb (path : string)                  (* open(path, "wb") *)
| ReadUpload                              (* await file.read() *)
| Write (path : string) (data : list Z)   (* f.write(data) *)
| Remove (path : string)                  (* os.remove(path) *)
| SetEnviron (name value : string)        (* os.environ[name] = value *)
| NewLM (model : string)                  (* dspy.LM(model) *)
| ConfigureLM                             (* dspy.settings.configure(lm=lm) *)
| NewDocumentProcessor                    (* DocumentProcessor() *)
| NewDocumentAnalyzer                     (* DocumentAnalyzer() *)
| Print (p : printed).

(** What a caller can raise. *)
Inductive failure : Type :=
| Exc (e : exn)                                       (* an exception of the core's kinds *)
| HTTPException (status_code : Z) (detail : string)   (* fastapi.HTTPException *)
| SystemExit (code : Z).                              (* sys.exit(code) *)

(** [isinstance(f, Exception)]: [SystemExit] derives from [BaseException]
    only. *)
Definition is_Exception (f : failure) : bool :=
  match f with SystemExit _ => false | _ => true end.

(** [str(f)] *)
Definition str_of (f : failure) : string :=
  match f with
  | Exc e => exn_msg e
  | HTTPException status_code detail =>
      (PyStr.str_of_int status_code ++ ": " ++ detail)%string
  | SystemExit code => PyStr.str_of_int code
  end.

Inductive answer (A : Type) : Type :=
| Done (a : A)
| Failed (f : failure).
Arguments Done {A} a.
Arguments Failed {A} f.

Definition IO (A : Type) : Type := list io -> answer A * list io.

Definition ret {A} (a : A) : IO A := fun tr => (Done a, tr).

Definition bind {A B} (m : IO A) (k : A -> IO B) : IO B :=
  fun tr =>
    match m tr with
    | (Done a, tr') => k a tr'
    | (Failed f, tr') => (Failed f, tr')
    end.

Definition throw {A} (f : failure) : IO A := fun tr => (Failed f, tr).

(** [try: body / except Exception as e: handler(e)] *)
Definition try_except {A} (body : IO A) (handler : failure -> IO A) : IO A :=
  fun tr =>
    match body tr with
    | (Done a, tr') => (Done a, tr')
    | (Failed f, tr') => if is_Exception f then handler f tr' else (Failed f, tr')
    end.

Definition emit (ev : io) : IO unit := fun tr => (Done tt, tr ++ [ev]).

(** a call to a collaborator of the callers *)
Definition call {A} (ev : io) (outcome : result A) : IO A :=
  fun tr =>
    (match outcome with Return a => Done a | Raise e => Failed (Exc e) end, tr ++ [ev]).

Definition log (lvl : level) (msg : string) : IO unit := emit (Core (Log lvl [Text msg])).

(** Code of the core run by a caller: its events join the caller's trace. *)
Definition lift {A} (m : M A) : IO A :=
  fun tr =>
    match m [] with
    | (Return a, evs) => (Done a, tr ++ map Core evs)
    | (Raise e, evs) => (Failed (Exc e), tr ++ map Core evs)
    end.

Declare Scope io_scope.
Delimit Scope io_scope with io.
Notation "x <- m ;; k" := (bind m (fun x => k))
  (at level 61, m at next level, right associativity) : io_scope.
Notation "m ;; k" := (bind m (fun _ => k))
  (at level 61, right associativity) : io_scope.
Notation "' pat <- m ;; k" :=
  (bind m (fun x => match x with pat => k end))
  (at level 61, pat pattern, m at next level, right associativity) : io_scope.
Local Open Scope io_scope.

(** *** Python helpers *)

(** [s.endswith(suffix)] *)
Fixpoint endswith (s suffix : string) : bool :=
  String.eqb s suffix
  || match s with
     | EmptyString => false
     | String _ s' => endswith s' suffix
     end.

(** [s.startswith(prefix)] *)
Definition startswith (s prefix : string) : bool := String.prefix prefix s.

(** [os.path.join(a, b)] of [posixpath] *)
Definition os_path_join (a b : string) : string :=
  if startswith b "/" then b
  else if PyStr.is_empty a || endswith a "/" then (a ++ b)%string
  else (a ++ "/" ++ b)%string.

(** Truth value of an optional string: [None] and [""] are false. *)
Definition truthy (s : option string) : bool :=
  match s with
  | None => false
  | Some s => negb (PyStr.is_empty s)
  end.

Definition ValueError (msg : string) : exn := Exn (OtherException "ValueError") msg.
Definition RuntimeError (msg : string) : exn := Exn (OtherException "RuntimeError") msg.

(** [except ValueError] *)
Definition is_ValueError (f : failure) : bool :=
  match f with
  | Exc (Exn (OtherException name) _) => String.eqb name "ValueError"
  | _ => false
  end.

(** *** config.py *)

(** What the module reads from its host when it is imported: the environment
    (after [load_dotenv()]), the builtin [int] on a string, and the creation
    of the temporary directory. *)
Record Host : Type := {
  getenv : string -> option string;       (* os.getenv(name) *)
  int_of_str : string -> result Z;        (* int(s) *)
  path_mkdir : string -> result unit      (* Path(s).mkdir(exist_ok=True, parents=True) *)
}.

(** The class attributes of [AppConfig]; the three the core reads are kept
    in [limits]. *)
Record Settings : Type := {
  API_KEY : option string;
  MODEL_NAME : string;
  TEMP_DIR : string;
  limits : AppConfig;
  LOG_LEVEL : string;
  LOG_FILE : string
}.

(** [os.getenv(name, default)] for a string default *)
Definition getenv_or (h : Host) (name default : string) : string :=
  match getenv h name with Some v => v | None => default end.

(** [int(os.getenv(name, default))] for an [int] default *)
Definition getenv_int (h : Host) (name : string) (default : Z) : IO Z :=
  match getenv h name with
  | Some v =>
      fun tr => (match int_of_str h v with Return n => Done n | Raise e => Failed (Exc e) end, tr)
  | None => ret default
  end.

(** [AppConfig.validate()] *)
Definition AppConfig_validate (h : Host) (cls : Settings) : IO unit :=
  (if negb (truthy (API_KEY cls))
   then throw (Exc (ValueError "OPENAI_API_KEY environment variable must be set"))
   else ret tt) ;;
  call (Mkdir (TEMP_DIR cls)) (path_mkdir h (TEMP_DIR cls)).

(** [import config]: the class body, then the validation at the end of the
    module. *)
Definition import_config (h : Host) : IO Settings :=
  let api_key := getenv h "OPENAI_API_KEY" in
  let model_name := getenv_or h "DSPY_MODEL" "openai/gpt-4o-mini" in
  let temp_dir := DocumentProcessor.Path (getenv_or h "TEMP_DIR" "temp") in
  mb <- getenv_int h "MAX_FILE_SIZE_MB" 2 ;;
  let max_file_size := (mb * 1024 * 1024)%Z in
  max_file_page <- getenv_int h "MAX_FILE_PAGE" 10 ;;
  let log_level := getenv_or h "LOG_LEVEL" "INFO" in
  let log_file := getenv_or h "LOG_FILE" "app.log" in
  let cls := {|
    API_KEY := api_key;
    MODEL_NAME := model_name;
    TEMP_DIR := temp_dir;
    limits := {| MAX_FILE_SIZE := max_file_size;
                 MAX_FILE_PAGE := max_file_page;
                 MIN_CONFIDENCE := 0x1.3333333333333p-1%float |};
    LOG_LEVEL := log_level;
    LOG_FILE := log_file |} in
  try_except
    (AppConfig_validate h cls)
    (fun f =>
       if is_ValueError f
       then throw (Exc (RuntimeError ("Invalid configuration: " ++ str_of f)%string))
       else throw f) ;;
  ret cls.

(** What [configure_dspy] and the constructors need of dspy and docTR. *)
Record Dspy : Type := {
  new_LM : string -> result unit;            (* dspy.LM(model) *)
  settings_configure : result unit;          (* dspy.settings.configure(lm=lm) *)
  new_DocumentProcessor : result unit;       (* dspy.Predict(...), ocr_predictor(pretrained=True) *)
  new_DocumentAnalyzer : result unit         (* four dspy.ChainOfThought(...) *)
}.

Definition configure_dspy (cls : Settings) (d : Dspy) : IO unit :=
  (if negb (truthy (API_KEY cls))
   then throw (Exc (RuntimeError "OpenAI API key not configured"))
   else ret tt) ;;
  emit (SetEnviron "OPENAI_API_KEY"
          (match API_KEY cls with Some k => k | None => "" end)) ;;
  call (NewLM (MODEL_NAME cls)) (new_LM d (MODEL_NAME cls)) ;;
  call ConfigureLM (settings_configure d).

(** *** main.py *)

Definition main (cls : Settings) (d : Dspy) (b : DocumentProcessor.Backend)
    (lm : DocumentAnalyzer.LM) (argv : list string) : IO unit :=
  (if (length argv <? 2)%nat
   then log ERROR "Usage: python c_main.py <document_path>" ;; throw (SystemExit 1)
   else ret tt) ;;
  let doc_path := nth 1 argv "" in
  ' (text, images) <-
    try_except
      (log INFO ("Loading document: " ++ doc_path)%string ;;
       call NewDocumentProcessor (new_DocumentProcessor d) ;;
       lift (DocumentProcessor.process (limits cls) b doc_path))
      (fun f =>
         log ERROR ("Failed to process document '" ++ doc_path ++ "': " ++ str_of f)%string ;;
         throw (SystemExit 1)) ;;
  result <-
    try_except
      (log INFO "Analyzing document content with LLM..." ;;
       configure_dspy cls d ;;
       call NewDocumentAnalyzer (new_DocumentAnalyzer d) ;;
       lift (DocumentAnalyzer.forward (limits cls) lm text images))
      (fun f =>
         log ERROR ("Document analysis failed: " ++ str_of f)%string ;;
         throw (SystemExit 1)) ;;
  emit (Print (Line (PyStr.newline ++ "---------- Results ----------" ++ PyStr.newline)%string)) ;;
  emit (Print (JsonDump result 2)).

(** *** app.py *)

(** [fastapi.UploadFile]: the name the client gave and what reading it
    yields. *)
Record UploadFile : Type := {
  filename : string;
  read : result (list Z)
}.

(** The file system calls of the endpoint. *)
Record OS : Type := {
  makedirs : string -> result unit;               (* os.makedirs(path, exist_ok=True) *)
  open_wb : string -> result unit;                (* open(path, "wb") *)
  write : string -> list Z -> result unit;        (* f.write(data) *)
  remove : string -> result unit                  (* os.remove(path) *)
}.

(** The handler function of [POST /analyze-document/]: what a call of it
    raises or returns.  What FastAPI then makes of the returned dict, or of
    the exception, when it writes the HTTP response is not part of it. *)
Definition analyze_document (cls : Settings) (os : OS) (b : DocumentProcessor.Backend)
    (lm : DocumentAnalyzer.LM) (file : UploadFile) : IO pyval :=
  (if negb (endswith (filename file) ".pdf")
   then throw (HTTPException 400 "Only PDF files are accepted.")
   else ret tt) ;;
  let temp_dir := TEMP_DIR cls in
  call (Makedirs temp_dir) (makedirs os temp_dir) ;;
  let temp_file_path := os_path_join temp_dir (filename file) in
  try_except
    (call (OpenWb temp_file_path) (open_wb os temp_file_path) ;;
     data <- call ReadUpload (read file) ;;
     call (Write temp_file_path data) (write os temp_file_path data))
    (fun f => throw (HTTPException 500 "Failed to save file.")) ;;
  ' (text, images) <-
    try_except
      (log INFO ("Loading document: " ++ filename file)%string ;;
       lift (DocumentProcessor.process (limits cls) b temp_file_path))
      (fun f => throw (HTTPException 500 ("Text extraction error: " ++ str_of f)%string)) ;;
  result <-
    try_except
      (log INFO "Analyzing document content with LLM..." ;;
       lift (DocumentAnalyzer.forward (limits cls) lm text images))
      (fun f => throw (HTTPException 500 ("Analysis error: " ++ str_of f)%string)) ;;
  try_except
    (call (Remove temp_file_path) (remove os temp_file_path))
    (fun f => log WARNING ("Could not remove temporary file: " ++ str_of f)%string) ;;
  emit (Print (Line (PyStr.newline ++ "---------- Results ----------" ++ PyStr.newline)%string)) ;;
  emit (Print (JsonDump result 2)) ;;
  ret result.

End Callers.

(* ================================================================== *)
(** ** Concrete collaborators, for the examples *)

Module Fixtures.
Import DocumentProcessor.

Definition white_pixel : Pixmap :=
  {| pix_width := 1; pix_height := 1; pix_samples := [255; 255; 255]%Z |}.

Definition white_image : Image :=
  {| img_mode := "RGB"; img_size := (1, 1)%Z; img_data := [255; 255; 255]%Z |}.

Definition frombytes (mode : string) (size : Z * Z) (data : list Z) : result Image :=
  Return {| img_mode := mode; img_size := size; img_data := data |}.

(** a page that extracts [raw] and renders to one white pixel *)
Definition page_of (n : Z) (raw : string) : Page :=
  {| number := n; get_text := Return raw; get_pixmap := fun _ => Return white_pixel |}.

(** a 1 KiB file that opens as [doc] *)
Definition backend_of (doc : Document) (classifier : string -> result bool)
    (ocr_answer : result string) : Backend := {|
  path_exists := fun _ => Return true;
  st_size := fun _ => Return 1024%Z;
  pymupdf_open := fun _ => Return doc;
  Image_frombytes := frombytes;
  validate := classifier;
  ocr := fun _ => ocr_answer
|}.

(** no file at any path *)
Definition backend_missing : Backend := {|
  path_exists := fun _ => Return false;
  st_size := fun _ => Return 0%Z;
  pymupdf_open := fun _ => Raise (Exn FileNotFoundError "no such file");
  Image_frombytes := frombytes;
  validate := fun _ => Return true;
  ocr := fun _ => Return ""
|}.

(** a path the file system refuses to look up: [exists] raises the [OSError]
    of [stat] *)
Definition backend_long_name : Backend := {|
  path_exists := fun p =>
    Raise (Exn (OtherException "OSError")
               ("[Errno 36] File name too long: '" ++ p ++ "'")%string);
  st_size := fun p =>
    Raise (Exn (OtherException "OSError")
               ("[Errno 36] File name too long: '" ++ p ++ "'")%string);
  pymupdf_open := fun _ => Raise (Exn FileNotFoundError "no such file");
  Image_frombytes := frombytes;
  validate := fun _ => Return true;
  ocr := fun _ => Return ""
|}.


(** a file that exists and that pymupdf cannot read *)
Definition backend_unreadable : Backend := {|
  path_exists := fun _ => Return true;
  st_size := fun _ => Return 1024%Z;
  pymupdf_open := fun _ => Raise (Exn (OtherException "PermissionError") "permission denied");
  Image_frombytes := frombytes;
  validate := fun _ => Return true;
  ocr := fun _ => Return ""
|}.


Definition readable : string -> result bool := fun _ => Return true.
Definition unreadable : string -> result bool := fun _ => Return false.
Definition classifier_down : string -> result bool :=
  fun _ => Raise (Exn (OtherException "RuntimeError") "connection refused").

(** [n] pages, each with the text "page" *)
Definition pages (n : nat) : Document :=
  map (fun i => page_of (Z.of_nat i) "page") (seq 0 n).

End Fixtures.

Module AnalyzerFixtures.
Import DocumentAnalyzer.

Definition invoice : Prediction := {|
  description := "An invoice.";
  summary := "Invoice 42 for services.";
  notable_info := ["Number: 42"]
|}.

Definition garbled : TextPrediction := {|
  text_quality := "poor";
  text_fields := {| description := "Unclear."; summary := "Mostly noise."; notable_info := [] |}
|}.

Definition down {A} : result A := Raise (Exn (OtherException "RuntimeError") "connection refused").

(** predictors that answer the same whatever they are asked *)
Definition lm_of (text_answer : result TextPrediction) (images_answer : result Prediction)
    (combine_answer : result Prediction) (validate_answer : result Validation) : LM := {|
  analyze_text := fun _ => text_answer;
  from_PIL := fun _ => Return {| dspy_url := "data:image/png;base64," |};
  analyze_images := fun _ => images_answer;
  combine := fun _ _ => combine_answer;
  validate := fun _ _ _ => validate_answer
|}.

End AnalyzerFixtures.

Module MoreFixtures.
Import DocumentProcessor Fixtures.

(** a file of [size] bytes that opens as [doc] *)
Definition backend_sized (size : Z) (doc : Document) : Backend := {|
  path_exists := fun _ => Return true;
  st_size := fun _ => Return size;
  pymupdf_open := fun _ => Return doc;
  Image_frombytes := frombytes;
  validate := readable;
  ocr := fun _ => Return ""
|}.

(** a file that is not a PDF *)
Definition backend_malformed : Backend := {|
  path_exists := fun _ => Return true;
  st_size := fun _ => Return 1024%Z;
  pymupdf_open := fun _ => Raise (Exn FileDataError "Failed to open file 'notes.pdf'.");
  Image_frombytes := frombytes;
  validate := readable;
  ocr := fun _ => Return ""
|}.

Definition boom : exn := Exn (OtherException "RuntimeError") "boom".

(** a page whose text cannot be extracted *)
Definition page_without_text (n : Z) : Page :=
  {| number := n; get_text := Raise boom; get_pixmap := fun _ => Return white_pixel |}.

(** a page that extracts [raw] and cannot be rendered *)
Definition page_without_pixmap (n : Z) (raw : string) : Page :=
  {| number := n; get_text := Return raw; get_pixmap := fun _ => Raise boom |}.

End MoreFixtures.

Module MoreAnalyzerFixtures.
Import DocumentAnalyzer AnalyzerFixtures.

Definition encoded : dspy_Image := {| dspy_url := "data:image/png;base64," |}.

(** predictors as in [lm_of], with an image conversion that fails on every
    image *)
Definition lm_without_conversion (images_answer : result Prediction) : LM := {|
  analyze_text := fun _ => Return garbled;
  from_PIL := fun _ => down;
  analyze_images := fun _ => images_answer;
  combine := fun _ _ => Return invoice;
  validate := fun _ _ _ => down
|}.

Definition letter : TextPrediction := {|
  text_quality := "good";
  text_fields := {| description := "A letter."; summary := "A short letter."; notable_info := [] |}
|}.

Definition fused : Prediction := {|
  description := "An invoice with a cover letter.";
  summary := "Invoice 42, sent with a short letter.";
  notable_info := ["Number: 42"]
|}.

(** a validation whose score is outside the unit interval *)
Definition overconfident : Validation :=
  {| confidence_score := 1.5%float; validation_notes := ["none"] |}.

End MoreAnalyzerFixtures.

Module CallerFixtures.
Import Callers Fixtures AnalyzerFixtures MoreAnalyzerFixtures.

(** [int] on the strings the examples use *)
Definition int_examples (s : string) : result Z :=
  if String.eqb s "5" then Return 5%Z
  else if String.eqb s "25" then Return 25%Z
  else Raise (ValueError ("invalid literal for int() with base 10: '" ++ s ++ "'")%string).

(** an environment given as an association list *)
Fixpoint lookup (name : string) (vars : list (string * string)) : option string :=
  match vars with
  | [] => None
  | (n, v) :: rest => if String.eqb name n then Some v else lookup name rest
  end.

Definition host_of (vars : list (string * string)) : Host := {|
  getenv := fun name => lookup name vars;
  int_of_str := int_examples;
  path_mkdir := fun _ => Return tt
|}.

Definition dspy_up : Dspy := {|
  new_LM := fun _ => Return tt;
  settings_configure := Return tt;
  new_DocumentProcessor := Return tt;
  new_DocumentAnalyzer := Return tt
|}.

(** the settings of an import with only the key set *)
Definition settings_default : Settings := {|
  API_KEY := Some "sk-test";
  MODEL_NAME := "openai/gpt-4o-mini";
  TEMP_DIR := "temp";
  limits := default_config;
  LOG_LEVEL := "INFO";
  LOG_FILE := "app.log"
|}.

Definition os_up : OS := {|
  makedirs := fun _ => Return tt;
  open_wb := fun _ => Return tt;
  write := fun _ _ => Return tt;
  remove := fun _ => Return tt
|}.

(** a file system where nothing can be removed *)
Definition os_sticky : OS := {|
  makedirs := fun _ => Return tt;
  open_wb := fun _ => Return tt;
  write := fun _ _ => Return tt;
  remove := fun _ => Raise (Exn (OtherException "PermissionError") "permission denied")
|}.

Definition upload (name : string) : UploadFile :=
  {| filename := name; read := Return [37; 80; 68; 70]%Z |}.

Definition lm_up : DocumentAnalyzer.LM :=
  lm_of (Return letter) (Return invoice) (Return fused) (Return overconfident).

End CallerFixtures.

Module CallerVocabulary.
Import Callers.

Definition is_Print (ev : io) : bool :=
  match ev with Print _ => true | _ => false end.

Definition is_Remove (ev : io) : bool :=
  match ev with Remove _ => true | _ => false end.

(** How many events of [evs] pass the test [p]. *)
Definition count_io (p : io -> bool) (evs : list io) : nat := length (filter p evs).

(** The upload is saved at [path]: the file opens for writing, the upload
    reads and the data is written. *)
Definition saves (os : OS) (file : UploadFile) (path : string) : Prop :=
  exists data,
    open_wb os path = Return tt /\ read file = Return data /\ write os path data = Return tt.

End CallerVocabulary.
Export CallerVocabulary.

(* ================================================================== *)
(** * Properties *)

(** ** Strings *)

Section StringFacts.
Import PyStr.

Lemma append_empty_r (s : string) : (s ++ "")%string = s.
Proof. induction s; simpl; congruence. Qed.

Lemma append_assoc (a b c : string) : ((a ++ b) ++ c)%string = (a ++ (b ++ c))%string.
Proof. induction a; simpl; congruence. Qed.

Lemma append_nonempty_r (a b : string) : b <> "" -> (a ++ b)%string <> "".
Proof. destruct a; simpl; [tauto | discriminate]. Qed.

Lemma all_space_app (a b : string) :
  all_space (a ++ b) = all_space a && all_space b.
Proof.
  induction a as [|c a IH]; simpl; [reflexivity|].
  rewrite IH. apply andb_assoc.
Qed.

Lemma lstrip_all_space (s : string) : all_space (lstrip s) = all_space s.
Proof.
  induction s as [|c s IH]; simpl; [reflexivity|].
  destruct (isspace c) eqn:Hc; simpl; [exact IH | now rewrite Hc].
Qed.

Lemma rstrip_empty_iff (s : string) : rstrip s = "" <-> all_space s = true.
Proof.
  induction s as [|c s IH]; simpl; [tauto|].
  destruct (isspace c); simpl.
  - destruct (rstrip s) eqn:Hr; simpl.
    + split; [intros _; now apply IH | reflexivity].
    + split; [discriminate|]. intros H. apply IH in H. discriminate.
  - split; discriminate.
Qed.

(** [s.strip()] is empty exactly when [s] holds whitespace only. *)
Lemma strip_empty_iff (s : string) : strip s = "" <-> all_space s = true.
Proof. unfold strip. rewrite rstrip_empty_iff. now rewrite lstrip_all_space. Qed.

Lemma rstrip_last (s : string) (c : ascii) :
  last_char (rstrip s) = Some c -> isspace c = false.
Proof.
  revert c. induction s as [|a s IH]; simpl; intros c; [discriminate|].
  destruct (rstrip s) as [|b r] eqn:Hr; simpl.
  - rewrite andb_true_r. destruct (isspace a) eqn:Ha; simpl; [discriminate|].
    intros H. now inversion H; subst.
  - rewrite andb_false_r. simpl. intros H. apply IH. exact H.
Qed.

(** The text left by [strip] does not end in whitespace. *)
Lemma strip_last (s : string) (c : ascii) :
  last_char (strip s) = Some c -> isspace c = false.
Proof. apply rstrip_last. Qed.

Lemma lstrip_first (s : string) (c : ascii) (r : string) :
  lstrip s = String c r -> isspace c = false.
Proof.
  induction s as [|a s IH]; simpl; [discriminate|].
  destruct (isspace a) eqn:Ha; [exact IH|].
  intros H. now inversion H; subst.
Qed.

Lemma last_char_app_newline (s : string) :
  last_char (s ++ newline) = Some (ascii_of_nat 10).
Proof.
  induction s as [|a s IH]; [reflexivity|].
  change (String a s ++ newline)%string with (String a (s ++ newline)%string).
  simpl. destruct (s ++ newline)%string eqn:E; [|exact IH].
  destruct s; discriminate.
Qed.

(** A stripped text that is not empty stays not empty when a newline is
    appended and the whole is stripped again: this is what the quality gate
    tests on a one-page document. *)
Lemma strip_contribution (raw : string) :
  strip raw <> "" -> strip (strip raw ++ newline) <> "".
Proof.
  intros H Hs. apply strip_empty_iff in Hs.
  rewrite all_space_app in Hs. apply andb_prop in Hs as [Hs _].
  apply H. unfold strip in *.
  destruct (rstrip (lstrip raw)) as [|c r] eqn:E; [reflexivity|].
  exfalso.
  assert (Hl : exists c' r', lstrip raw = String c' r').
  { destruct (lstrip raw) as [|c' r']; [discriminate|eauto]. }
  destruct Hl as (c' & r' & Hl).
  pose proof (lstrip_first _ _ _ Hl) as Hc'.
  rewrite Hl in E. simpl in E. rewrite Hc' in E. simpl in E.
  inversion E; subst. simpl in Hs. rewrite Hc' in Hs. discriminate.
Qed.

(** *** [strip] against the description of trimming *)

Lemma lstrip_app_space (l x : string) :
  all_space l = true -> lstrip (l ++ x) = lstrip x.
Proof.
  induction l as [|c l IH]; simpl; [reflexivity|].
  intros H. apply andb_prop in H as [Hc Hl]. rewrite Hc. now apply IH.
Qed.

Lemma lstrip_no_leading_space (s : string) :
  (forall c, first_char s = Some c -> isspace c = false) -> lstrip s = s.
Proof.
  destruct s as [|c s]; simpl; [reflexivity|].
  intros H. now rewrite (H c eq_refl).
Qed.

Lemma rstrip_app_space (t r : string) :
  all_space r = true -> rstrip (t ++ r) = rstrip t.
Proof.
  intros H. induction t as [|c t IH]; simpl.
  - now apply rstrip_empty_iff.
  - now rewrite IH.
Qed.

Lemma rstrip_no_trailing_space (t : string) :
  (forall c, last_char t = Some c -> isspace c = false) -> rstrip t = t.
Proof.
  induction t as [|a t IH]; simpl; [reflexivity|].
  intros H. destruct t as [|a' t'].
  - simpl. now rewrite (H a eq_refl).
  - rewrite IH; [|exact H]. simpl. now rewrite andb_false_r.
Qed.

Lemma lstrip_decompose (s : string) :
  exists l, s = (l ++ lstrip s)%string /\ all_space l = true.
Proof.
  induction s as [|c s (l & E & H)]; simpl.
  - now exists "".
  - destruct (isspace c) eqn:Hc.
    + exists (String c l). simpl. rewrite Hc, H. split; [now rewrite <- E | reflexivity].
    + now exists "".
Qed.

Lemma rstrip_decompose (s : string) :
  exists r, s = (rstrip s ++ r)%string /\ all_space r = true.
Proof.
  induction s as [|c s (r & E & H)]; simpl.
  - now exists "".
  - destruct (isspace c) eqn:Hc; simpl.
    + destruct (rstrip s) as [|a t] eqn:Hr; simpl in *.
      * exists (String c r). split; [now rewrite <- E | simpl; now rewrite Hc].
      * exists r. split; [|exact H]. now rewrite <- E.
    + exists r. split; [|exact H]. now rewrite <- E.
Qed.

Lemma rstrip_first (s : string) (c : ascii) :
  (forall a, first_char s = Some a -> isspace a = false) ->
  first_char (rstrip s) = Some c -> isspace c = false.
Proof.
  destruct s as [|a s]; simpl; [discriminate|].
  intros H. rewrite (H a eq_refl). simpl. intros E. inversion E; subst. now apply H.
Qed.

(** [strip] does what trimming is said to do: [strip raw] is [raw] trimmed,
    and nothing else is. *)
Lemma strip_trimmed_of (raw : string) : trimmed_of raw (strip raw).
Proof.
  unfold trimmed_of, strip. split; [|split].
  - destruct (lstrip_decompose raw) as (l & El & Hl).
    destruct (rstrip_decompose (lstrip raw)) as (r & Er & Hr).
    exists l, r. split; [|now split]. now rewrite <- Er.
  - intros c. apply rstrip_first. intros a Ha.
    destruct (lstrip raw) as [|a' s'] eqn:E; [discriminate|].
    inversion Ha; subst. exact (lstrip_first _ _ _ E).
  - apply rstrip_last.
Qed.

Lemma trimmed_of_strip (raw t : string) : trimmed_of raw t -> strip raw = t.
Proof.
  intros ((l & r & -> & Hl & Hr) & Hfirst & Hlast). unfold strip.
  rewrite (lstrip_app_space l _ Hl).
  destruct t as [|c t].
  - simpl. apply rstrip_empty_iff. now rewrite lstrip_all_space.
  - rewrite lstrip_no_leading_space.
    + rewrite (rstrip_app_space _ r Hr). now apply rstrip_no_trailing_space.
    + simpl. exact Hfirst.
Qed.

Lemma trimmed_of_blank (raw t : string) :
  trimmed_of raw t -> all_space raw = true -> t = "".
Proof.
  intros H Hb. rewrite <- (trimmed_of_strip raw t H). now apply strip_empty_iff.
Qed.

Lemma trimmed_texts (raws ts : list string) :
  Forall2 trimmed_of raws ts -> ts = map strip raws.
Proof.
  induction 1 as [|raw t raws ts H _ IH]; [reflexivity|].
  simpl. now rewrite (trimmed_of_strip raw t H), IH.
Qed.

Lemma page_lines_strip (raws : list string) :
  page_lines (map strip raws) = native_text raws.
Proof. unfold page_lines, native_text. now rewrite map_map. Qed.

Lemma page_lines_app (ts1 ts2 : list string) :
  page_lines (ts1 ++ ts2) = (page_lines ts1 ++ page_lines ts2)%string.
Proof.
  unfold page_lines. induction ts1 as [|t ts1 IH]; simpl; [reflexivity|].
  unfold join in *. simpl. rewrite IH. now rewrite !append_assoc.
Qed.

End StringFacts.

(** ** Running code in [M] *)

Ltac run := unfold try_except_class, try_except, bind, call, log, emit, throw, ret.

(** the file size is answered and within the limit *)
Ltac size_ok := eexists; split; [reflexivity | vm_compute; discriminate].

Lemma bind_Return {A B} (m : M A) (k : A -> M B) tr a tr' :
  m tr = (Return a, tr') -> bind m k tr = k a tr'.
Proof. unfold bind. now intros ->. Qed.

Section EffectRules.
Context {A B : Type}.

Lemma returns_ret (a : A) : returns (ret a).
Proof. intros tr. now exists a, tr. Qed.

Lemma returns_bind (m : M A) (k : A -> M B) :
  returns m -> (forall a, returns (k a)) -> returns (bind m k).
Proof.
  intros Hm Hk tr. destruct (Hm tr) as (a & tr1 & E).
  destruct (Hk a tr1) as (b & tr2 & E2).
  exists b, tr2. now rewrite (bind_Return _ _ _ _ _ E).
Qed.

Lemma returns_try (body : M A) (h : exn -> M A) :
  (forall e, returns (h e)) -> returns (try_except body h).
Proof.
  intros Hh tr. unfold try_except.
  destruct (body tr) as [[a|e] tr1]; [now exists a, tr1 | apply Hh].
Qed.


Lemma raises_only_throw P (e : exn) : P e -> raises_only P (@throw A e).
Proof. intros H tr e' tr' E. inversion E; now subst. Qed.

Lemma raises_only_bind P (m : M A) (k : A -> M B) :
  raises_only P m -> (forall a, raises_only P (k a)) -> raises_only P (bind m k).
Proof.
  intros Hm Hk tr e tr'. unfold bind.
  destruct (m tr) as [[a|e1] tr1] eqn:E.
  - apply Hk.
  - intros E'. inversion E'; subst. eapply Hm; eauto.
Qed.

Lemma raises_only_try P (body : M A) (h : exn -> M A) :
  (forall e, raises_only P (h e)) -> raises_only P (try_except body h).
Proof.
  intros Hh tr e tr'. unfold try_except.
  destruct (body tr) as [[a|e1] tr1]; [discriminate | apply Hh].
Qed.

Lemma raises_only_call P ev (answer : result A) :
  (forall e, answer = Raise e -> P e) -> raises_only P (call ev answer).
Proof. intros H tr e tr' E. inversion E; subst. now apply H. Qed.

Lemma emits_only_ret P (a : A) : emits_only P (ret a).
Proof. intros tr. exists []. simpl. now rewrite app_nil_r. Qed.

Lemma emits_only_throw P (e : exn) : emits_only P (@throw A e).
Proof. intros tr. exists []. simpl. now rewrite app_nil_r. Qed.

Lemma emits_only_call (P : event -> Prop) ev (answer : result A) :
  P ev -> emits_only P (call ev answer).
Proof. intros H tr. exists [ev]. simpl. split; [reflexivity | now constructor]. Qed.

Lemma emits_only_bind P (m : M A) (k : A -> M B) :
  emits_only P m -> (forall a, emits_only P (k a)) -> emits_only P (bind m k).
Proof.
  intros Hm Hk tr. unfold bind.
  destruct (Hm tr) as (evs & E & F).
  destruct (m tr) as [[a|e] tr1]; simpl in E; subst tr1.
  - destruct (Hk a (tr ++ evs)) as (evs' & E' & F').
    exists (evs ++ evs'). rewrite E', app_assoc. split; [reflexivity|].
    apply Forall_app. now split.
  - now exists evs.
Qed.

Lemma emits_only_try P (body : M A) (h : exn -> M A) :
  emits_only P body -> (forall e, emits_only P (h e)) -> emits_only P (try_except body h).
Proof.
  intros Hm Hh tr. unfold try_except.
  destruct (Hm tr) as (evs & E & F).
  destruct (body tr) as [[a|e] tr1]; simpl in E; subst tr1.
  - now exists evs.
  - destruct (Hh e (tr ++ evs)) as (evs' & E' & F').
    exists (evs ++ evs'). rewrite E', app_assoc. split; [reflexivity|].
    apply Forall_app. now split.
Qed.

End EffectRules.

Lemma returns_log lvl msg : returns (log lvl msg).
Proof. intros tr. now exists tt, (tr ++ [Log lvl msg]). Qed.

Lemma raises_only_log P lvl msg : raises_only P (log lvl msg).
Proof. intros tr e tr'. discriminate. Qed.

Lemma emits_only_log (P : event -> Prop) lvl msg :
  P (Log lvl msg) -> emits_only P (log lvl msg).
Proof. intros H tr. exists [Log lvl msg]. split; [reflexivity | now constructor]. Qed.

Lemma emits_only_run {A} (P : event -> Prop) (m : M A) tr r tr' :
  emits_only P m -> m tr = (r, tr') -> exists evs, tr' = tr ++ evs /\ Forall P evs.
Proof. intros H E. destruct (H tr) as (evs & E' & F). rewrite E in E'. now exists evs. Qed.

(** ** Paths *)

(** [str(Path(p))] on some paths: "." components and repeated or trailing
    slashes go, ".." stays, two leading slashes stay and three become one. *)
Example Path_normalises :
  DocumentProcessor.Path "./missing.pdf" = "missing.pdf"
  /\ DocumentProcessor.Path "reports//2024.pdf" = "reports/2024.pdf"
  /\ DocumentProcessor.Path "temp/./x.pdf/" = "temp/x.pdf"
  /\ DocumentProcessor.Path "a/../b.pdf" = "a/../b.pdf"
  /\ DocumentProcessor.Path "/tmp/x.pdf" = "/tmp/x.pdf"
  /\ DocumentProcessor.Path "//host/x.pdf" = "//host/x.pdf"
  /\ DocumentProcessor.Path "///tmp/x.pdf" = "/tmp/x.pdf"
  /\ DocumentProcessor.Path "" = ".".
Proof. repeat split. Qed.

(** ** The content extractor *)

Section ProcessorFacts.
Import PyStr DocumentProcessor.

Variable cfg : AppConfig.
Variable b : Backend.

(** *** Pages that extract and render *)

Lemma _extract_page_text_ok (page : Page) (raw : string) tr :
  get_text page = Return raw ->
  exists tr', _extract_page_text page tr = (Return (strip raw ++ newline)%string, tr').
Proof.
  intros H. unfold _extract_page_text. run. rewrite H.
  destruct (is_empty (strip raw)); eexists; reflexivity.
Qed.

Lemma _render_page_image_ok (page : Page) (img : Image) tr :
  renders b page img ->
  exists tr', _render_page_image b page tr = (Return img, tr').
Proof.
  intros (pix & Hp & Hi). unfold _render_page_image. run.
  rewrite Hp, Hi. eexists; reflexivity.
Qed.

(** The loop over pages that all extract and render returns the accumulated
    text followed by the pages' contributions, and the accumulated images
    followed by the pages' images, in page order. *)
Lemma for_page_in_ok (doc : list Page) :
  forall raws imgs,
    Forall2 (fun p raw => get_text p = Return raw) doc raws ->
    Forall2 (renders b) doc imgs ->
    forall text images tr,
    exists tr',
      for_page_in b doc text images tr
      = (Return ((text ++ native_text raws)%string, images ++ imgs), tr').
Proof.
  induction doc as [|page doc IH]; intros raws imgs Ht Hi text images tr.
  - inversion Ht; inversion Hi; subst. simpl. exists tr.
    unfold ret, native_text. simpl. now rewrite append_empty_r, app_nil_r.
  - inversion Ht as [|? raw ? raws' Hraw Ht']; inversion Hi as [|? img ? imgs' Himg Hi']; subst.
    destruct (_extract_page_text_ok page raw tr Hraw) as (tr1 & E1).
    destruct (_render_page_image_ok page img tr1 Himg) as (tr2 & E2).
    destruct (IH raws' imgs' Ht' Hi' (text ++ (strip raw ++ newline))%string
                 (images ++ [img]) tr2) as (tr3 & E3).
    exists tr3. simpl.
    rewrite (bind_Return _ _ _ _ _ E1), (bind_Return _ _ _ _ _ E2), E3.
    unfold native_text. simpl. now rewrite append_assoc, <- app_assoc.
Qed.

(** *** What the page loop emits and raises, whatever the pages answer *)

Lemma _extract_page_text_emits (page : Page) :
  emits_only page_event (_extract_page_text page).
Proof.
  unfold _extract_page_text. apply emits_only_try.
  - apply emits_only_bind; [now apply emits_only_call|]. intros raw.
    apply emits_only_bind; [|intros; apply emits_only_ret].
    destruct (is_empty (strip raw)); [now apply emits_only_log | apply emits_only_ret].
  - intros e. apply emits_only_bind; [now apply emits_only_log|].
    intros; apply emits_only_throw.
Qed.

Lemma _render_page_image_emits (page : Page) :
  emits_only page_event (_render_page_image b page).
Proof.
  unfold _render_page_image. apply emits_only_try.
  - apply emits_only_bind; [now apply emits_only_call|]. intros pix.
    now apply emits_only_call.
  - intros e. apply emits_only_bind; [now apply emits_only_log|].
    intros; apply emits_only_throw.
Qed.

Lemma for_page_in_emits (doc : list Page) :
  forall text images, emits_only page_event (for_page_in b doc text images).
Proof.
  induction doc as [|page doc IH]; intros text images; simpl.
  - apply emits_only_ret.
  - apply emits_only_bind; [apply _extract_page_text_emits|]. intros t.
    apply emits_only_bind; [apply _render_page_image_emits|]. intros img.
    apply IH.
Qed.



Lemma _ocr_fallback_raises (pdf_path : string) :
  raises_only is_ContentExtractionError (_ocr_fallback b pdf_path).
Proof.
  unfold _ocr_fallback. apply raises_only_try. intros e.
  apply raises_only_bind; [apply raises_only_log|].
  intros _. now apply raises_only_throw.
Qed.


End ProcessorFacts.

Section ProcessRuns.
Import PyStr DocumentProcessor.

Variable cfg : AppConfig.
Variable b : Backend.

Local Arguments String.append : simpl never.

Lemma gtb_false_of_le (x y : Z) : (x <= y)%Z -> (x >? y)%Z = false.
Proof. intros H. rewrite Z.gtb_ltb. apply Z.ltb_ge. exact H. Qed.

(** [_validate_file] asks the file system twice, and a third time for the
    message when the file is too large; an [OSError] of [exists] or of [stat]
    passes through. *)
Lemma _validate_file_run (pdf_path : string) tr :
  _validate_file cfg b pdf_path tr
  = (match path_exists b pdf_path with
     | Raise e => Raise e
     | Return false => Raise (Exn FileNotFoundError ("File not found: " ++ pdf_path)%string)
     | Return true =>
         match st_size b pdf_path with
         | Raise e => Raise e
         | Return size =>
             if (size >? MAX_FILE_SIZE cfg)%Z
             then Raise (Exn InvalidDocumentError
                           ("File size " ++ str_of_int size ++ " exceeds limit "
                            ++ str_of_int (MAX_FILE_SIZE cfg) ++ " bytes.")%string)
             else Return tt
         end
     end,
     tr).
Proof.
  unfold _validate_file, ask. run.
  destruct (path_exists b pdf_path) as [[|]|e]; simpl; try reflexivity.
  destruct (st_size b pdf_path) as [size|e]; simpl; [|reflexivity].
  now destruct (size >? MAX_FILE_SIZE cfg)%Z.
Qed.

Lemma _validate_file_ok (pdf_path : string) tr :
  path_exists b pdf_path = Return true ->
  (exists size, st_size b pdf_path = Return size /\ (size <= MAX_FILE_SIZE cfg)%Z) ->
  _validate_file cfg b pdf_path tr = (Return tt, tr).
Proof.
  intros Hex (size & Hs & Hle).
  now rewrite _validate_file_run, Hex, Hs, (gtb_false_of_le _ _ Hle).
Qed.

(** [process] on a file that passes validation, opens, stays within the
    page ceiling and whose pages all extract and render: the page loop ends
    with the native text and the rendered images, and what follows is decided
    by the quality gate and, when it rejects, by the OCR backend. *)
Lemma process_after_pages (path : string) (doc : Document)
    (raws : list string) (imgs : list Image) tr :
  path_exists b (Path path) = Return true ->
  (exists size, st_size b (Path path) = Return size /\ (size <= MAX_FILE_SIZE cfg)%Z) ->
  pymupdf_open b (Path path) = Return doc ->
  (Z.of_nat (length doc) <= MAX_FILE_PAGE cfg)%Z ->
  Forall2 (fun p raw => get_text p = Return raw) doc raws ->
  Forall2 (renders b) doc imgs ->
  let text := native_text raws in
  let ocr_outcome (tr0 : trace) : result (string * list Image) * trace :=
    let tr1 := tr0 ++ [Log INFO [Text "Text extraction quality insufficient, attempting OCR extraction..."];
                       CallOcr (Path path)] in
    match ocr b (Path path) with
    | Return t => (Return (t, imgs), tr1)
    | Raise e =>
        (Raise (Exn ContentExtractionError ("OCR extraction failed: " ++ exn_msg e)%string),
         tr1 ++ [Log ERROR [Text ("OCR extraction failed: " ++ exn_msg e)%string]])
    end in
  exists evs,
    Forall page_event evs /\
    let tr0 := tr ++ [CallOpen (Path path);
                      Log INFO [Text ("Extracting text and images from: " ++ Path path)%string]]
                  ++ evs in
    process cfg b path tr =
      if String.eqb (strip text) "" then ocr_outcome tr0
      else
        match validate b text with
        | Return true => (Return (text, imgs), tr0 ++ [CallValidContent text])
        | Return false => ocr_outcome (tr0 ++ [CallValidContent text])
        | Raise e =>
            (Raise (if is_FileDataError e
                    then Exn InvalidDocumentError ("Invalid PDF structure: " ++ exn_msg e)%string
                    else e),
             tr0 ++ [CallValidContent text])
        end.
Proof.
  intros Hex Hsz Hop Hlen Ht Hi text ocr_outcome.
  destruct (for_page_in_ok b doc raws imgs Ht Hi "" []
              ((tr ++ [CallOpen (Path path)])
                 ++ [Log INFO [Text ("Extracting text and images from: " ++ Path path)%string]]))
    as (tr1 & E).
  destruct (emits_only_run _ _ _ _ _ (for_page_in_emits b doc "" []) E) as (evs & -> & F).
  exists evs. split; [exact F|].
  unfold process, _is_valid_content, _ocr_fallback; cbv zeta.
  unfold bind at 1. rewrite (_validate_file_ok _ _ Hex Hsz). run.
  rewrite Hop, (gtb_false_of_le _ _ Hlen). simpl.
  rewrite E. change ("" ++ native_text raws)%string with text. simpl.
  destruct (String.eqb (strip text) "") eqn:Hempty; simpl.
  - unfold ocr_outcome.
    destruct (ocr b (Path path)) as [t|e]; simpl;
      rewrite <- ?app_assoc; simpl; rewrite <- ?app_assoc; reflexivity.
  - destruct (validate b text) as [[|]|e]; simpl.
    + now rewrite <- !app_assoc.
    + unfold ocr_outcome.
      destruct (ocr b (Path path)) as [t|e]; simpl;
        rewrite <- ?app_assoc; simpl; rewrite <- ?app_assoc; reflexivity.
    + destruct (is_FileDataError e); simpl; now rewrite <- !app_assoc.
Qed.

End ProcessRuns.

(** ** Failures of [process] *)

Section ProcessFailures.
Import PyStr DocumentProcessor Fixtures.
Local Arguments String.append : simpl never.

(** C3, as the code has it: when [Path(path).exists()] answers [False],
    [process] fails with the builtin [FileNotFoundError] whose message is
    "File not found: " followed by [str(Path(path))], the normalised path;
    when [exists] itself raises (an [OSError] that does not mean "missing",
    such as a name that is too long), that exception reaches the caller as it
    is.  Both happen in [_validate_file], before anything is opened or
    logged. *)
Theorem process_missing_file (cfg : AppConfig) (b : Backend) (path : string) tr :
  (path_exists b (Path path) = Return false ->
   process cfg b path tr
   = (Raise (Exn FileNotFoundError ("File not found: " ++ Path path)%string), tr))
  /\
  (forall e, path_exists b (Path path) = Raise e ->
             process cfg b path tr = (Raise e, tr)).
Proof.
  split; [intros H | intros e H];
    unfold process; cbv zeta; unfold bind at 1;
    now rewrite _validate_file_run, H.
Qed.

Lemma process_missing_file_witness :
  process default_config backend_missing "./missing.pdf" []
  = (Raise (Exn FileNotFoundError "File not found: missing.pdf"), [])
  /\
  process default_config backend_long_name "reports//2024.pdf" []
  = (Raise (Exn (OtherException "OSError") "[Errno 36] File name too long: 'reports/2024.pdf'"),
     []).
Proof.
  split.
  - exact (proj1 (process_missing_file default_config backend_missing "./missing.pdf" [])
             eq_refl).
  - exact (proj2 (process_missing_file default_config backend_long_name "reports//2024.pdf" [])
             _ eq_refl).
Defined.

(** C3, as the claim states it, fails: a missing file does not make
    [process] fail with [InvalidDocumentError]. *)
Lemma missing_file_not_InvalidDocument :
  ~ (forall (cfg : AppConfig) (b : Backend) (path : string) tr,
        path_exists b (Path path) = Return false ->
        exists msg tr',
          process cfg b path tr = (Raise (Exn InvalidDocumentError msg), tr')).
Proof.
  intros H.
  destruct (H default_config backend_missing "missing.pdf" [] eq_refl) as (msg & tr' & E).
  vm_compute in E. discriminate.
Qed.

End ProcessFailures.

(** ** The quality gate and the OCR fallback *)

Section QualityGate.
Import PyStr DocumentProcessor Fixtures.
Local Arguments String.append : simpl never.

Lemma page_event_not_classifier (evs : list event) :
  Forall page_event evs -> Forall (fun ev => ~ classifier_call ev) evs.
Proof.
  apply Forall_impl. intros ev H C. destruct ev; simpl in *; tauto.
Qed.

(** C5: when the quality gate rejects the native text (it is empty once
    trimmed, or the readability classifier answers that it is not mostly
    readable) and OCR yields [ocr_text], [process] returns exactly [ocr_text],
    whatever its length and with nothing of the native text in it, together
    with exactly the images rendered in the page loop, in page order. *)
Theorem ocr_replaces_native_text (cfg : AppConfig) (b : Backend) (path : string)
    (doc : Document) (raws : list string) (imgs : list Image) (ocr_text : string) tr :
  path_exists b (Path path) = Return true ->
  (exists size, st_size b (Path path) = Return size /\ (size <= MAX_FILE_SIZE cfg)%Z) ->
  pymupdf_open b (Path path) = Return doc ->
  (Z.of_nat (length doc) <= MAX_FILE_PAGE cfg)%Z ->
  Forall2 (fun p raw => get_text p = Return raw) doc raws ->
  Forall2 (renders b) doc imgs ->
  strip (native_text raws) = "" \/ validate b (native_text raws) = Return false ->
  ocr b (Path path) = Return ocr_text ->
  exists tr', process cfg b path tr = (Return (ocr_text, imgs), tr').
Proof.
  intros Hex Hsz Hop Hlen Ht Hi Hgate Hocr.
  destruct (process_after_pages cfg b path doc raws imgs tr Hex Hsz Hop Hlen Ht Hi)
    as (evs & _ & E).
  cbv zeta in E. rewrite E, Hocr.
  destruct (String.eqb (strip (native_text raws)) "") eqn:Hempty.
  - eexists; reflexivity.
  - destruct Hgate as [Hs|Hv].
    + rewrite Hs in Hempty. discriminate.
    + rewrite Hv. eexists; reflexivity.
Qed.

Lemma ocr_replaces_native_text_witness :
  exists tr',
    process default_config
      (backend_of [page_of 0 "%PDF garbled glyph soup, much longer than the OCR text"]
                  unreadable (Return "Invoice 42"))
      "scan.pdf" []
    = (Return ("Invoice 42", [white_image]), tr').
Proof.
  apply (ocr_replaces_native_text default_config
           (backend_of [page_of 0 "%PDF garbled glyph soup, much longer than the OCR text"]
                       unreadable (Return "Invoice 42"))
           "scan.pdf"
           [page_of 0 "%PDF garbled glyph soup, much longer than the OCR text"]
           ["%PDF garbled glyph soup, much longer than the OCR text"]
           [white_image] "Invoice 42" []).
  - reflexivity.
  - size_ok.
  - reflexivity.
  - vm_compute. discriminate.
  - repeat constructor.
  - repeat constructor. exists white_pixel. split; reflexivity.
  - right. reflexivity.
  - reflexivity.
Defined.

(** C6: for every document whose concatenated extracted text is empty once
    trimmed, [process] adds no call of the readability classifier to the
    trace and does call the OCR backend; its outcome is the OCR text with the
    rendered images, or [ContentExtractionError] when OCR fails. *)
Theorem empty_text_goes_to_ocr (cfg : AppConfig) (b : Backend) (path : string)
    (doc : Document) (raws : list string) (imgs : list Image) tr :
  path_exists b (Path path) = Return true ->
  (exists size, st_size b (Path path) = Return size /\ (size <= MAX_FILE_SIZE cfg)%Z) ->
  pymupdf_open b (Path path) = Return doc ->
  (Z.of_nat (length doc) <= MAX_FILE_PAGE cfg)%Z ->
  Forall2 (fun p raw => get_text p = Return raw) doc raws ->
  Forall2 (renders b) doc imgs ->
  strip (native_text raws) = "" ->
  exists evs,
    snd (process cfg b path tr) = tr ++ evs /\
    Forall (fun ev => ~ classifier_call ev) evs /\
    In (CallOcr (Path path)) evs /\
    fst (process cfg b path tr)
    = match ocr b (Path path) with
      | Return t => Return (t, imgs)
      | Raise e =>
          Raise (Exn ContentExtractionError ("OCR extraction failed: " ++ exn_msg e)%string)
      end.
Proof.
  intros Hex Hsz Hop Hlen Ht Hi Hempty.
  destruct (process_after_pages cfg b path doc raws imgs tr Hex Hsz Hop Hlen Ht Hi)
    as (evs & F & E).
  cbv zeta in E. rewrite E, Hempty. simpl String.eqb. cbv iota.
  apply page_event_not_classifier in F.
  destruct (ocr b (Path path)) as [t|e]; simpl fst; simpl snd.
  - eexists. split; [rewrite <- !app_assoc; reflexivity|]. split; [|split].
    + repeat (apply Forall_app; split); try exact F; repeat constructor; simpl; tauto.
    + rewrite !in_app_iff. simpl. intuition auto.
    + reflexivity.
  - eexists. split; [rewrite <- !app_assoc; reflexivity|]. split; [|split].
    + repeat (apply Forall_app; split); try exact F; repeat constructor; simpl; tauto.
    + rewrite !in_app_iff. simpl. intuition auto.
    + reflexivity.
Qed.

Lemma empty_text_goes_to_ocr_witness :
  exists evs,
    snd (process default_config
           (backend_of [page_of 0 "  "; page_of 1 ""] classifier_down (Return "Scanned letter"))
           "scan.pdf" []) = [] ++ evs /\
    Forall (fun ev => ~ classifier_call ev) evs /\
    In (CallOcr "scan.pdf") evs /\
    fst (process default_config
           (backend_of [page_of 0 "  "; page_of 1 ""] classifier_down (Return "Scanned letter"))
           "scan.pdf" [])
    = Return ("Scanned letter", [white_image; white_image]).
Proof.
  apply (empty_text_goes_to_ocr default_config
           (backend_of [page_of 0 "  "; page_of 1 ""] classifier_down (Return "Scanned letter"))
           "scan.pdf" [page_of 0 "  "; page_of 1 ""] ["  "; ""]
           [white_image; white_image] []).
  - reflexivity.
  - size_ok.
  - reflexivity.
  - vm_compute. discriminate.
  - repeat constructor.
  - repeat constructor; exists white_pixel; split; reflexivity.
  - reflexivity.
Defined.

End QualityGate.

(** ** The page ceiling *)

Section PageCeiling.
Import PyStr DocumentProcessor Fixtures.
Local Arguments String.append : simpl never.

Lemma emits_only_weaken {A} (P Q : event -> Prop) (m : M A) :
  (forall ev, P ev -> Q ev) -> emits_only P m -> emits_only Q m.
Proof.
  intros H Hm tr. destruct (Hm tr) as (evs & E & F).
  exists evs. split; [exact E|]. revert F. now apply Forall_impl.
Qed.

Lemma _is_valid_content_emits (b : Backend) (text : string) :
  emits_only (fun _ => True) (_is_valid_content b text).
Proof.
  unfold _is_valid_content. destruct (String.eqb (strip text) "").
  - apply emits_only_ret.
  - now apply emits_only_call.
Qed.

Lemma _ocr_fallback_emits (b : Backend) (pdf_path : string) :
  emits_only (fun _ => True) (_ocr_fallback b pdf_path).
Proof.
  unfold _ocr_fallback. apply emits_only_try.
  - now apply emits_only_call.
  - intros e. apply emits_only_bind; [now apply emits_only_log|].
    intros; apply emits_only_throw.
Qed.

(** A prefix of what [m] emits is a prefix of what [m] followed by [k]
    emits. *)
Lemma bind_trace_prefix {A B} (m : M A) (k : A -> M B) tr (pre : list event) :
  (exists evs, snd (m tr) = tr ++ pre ++ evs) ->
  (forall a, emits_only (fun _ => True) (k a)) ->
  exists evs, snd (bind m k tr) = tr ++ pre ++ evs.
Proof.
  intros (evs & E) Hk. unfold bind.
  destruct (m tr) as [[a|e] tr1]; simpl in E; subst tr1.
  - destruct (Hk a (tr ++ pre ++ evs)) as (evs' & E' & _).
    exists (evs ++ evs'). rewrite E'. now rewrite <- !app_assoc.
  - now exists evs.
Qed.

(** The first thing the page loop does on a document with a page is to ask
    that page for its text. *)
Lemma for_page_in_first (b : Backend) (page : Page) (rest : list Page) text images tr :
  exists evs,
    snd (for_page_in b (page :: rest) text images tr)
    = tr ++ CallGetText (number page) :: evs.
Proof.
  simpl for_page_in. unfold bind at 1. unfold _extract_page_text at 1.
  unfold try_except, bind at 1, call at 1.
  destruct (get_text page) as [raw|e].
  - match goal with
    | |- context [bind ?m ?k (tr ++ [?ev])] =>
        assert (Hm : emits_only (fun _ => True) (bind m k))
    end.
    { apply emits_only_bind; [|intros; apply emits_only_ret].
      destruct (is_empty (strip raw)); [now apply emits_only_log | apply emits_only_ret]. }
    match goal with
    | |- context [bind ?m ?k (tr ++ [?ev])] =>
        destruct (Hm (tr ++ [ev])) as (evs1 & E1 & _);
        destruct (bind m k (tr ++ [ev])) as [[t|e] tr1]; simpl in E1; subst tr1
    end.
    + match goal with
      | |- context [bind ?m ?k ?tr0] =>
          assert (Hk : emits_only (fun _ => True) (bind m k))
      end.
      { apply emits_only_bind.
        - eapply emits_only_weaken; [|apply _render_page_image_emits]. tauto.
        - intros img. eapply emits_only_weaken; [|apply for_page_in_emits]. tauto. }
      match goal with
      | |- context [bind ?m ?k ?tr0] => destruct (Hk tr0) as (evs2 & E2 & _)
      end.
      rewrite E2. exists (evs1 ++ evs2). now rewrite <- !app_assoc.
    + unfold log, emit, throw. simpl. exists (evs1 ++ [Log ERROR
        [Text ("Text extraction failed: " ++ exn_msg e)%string]]).
      now rewrite <- !app_assoc.
  - unfold log, emit, throw. simpl.
    exists [Log ERROR [Text ("Text extraction failed: " ++ exn_msg e)%string]].
    now rewrite <- !app_assoc.
Qed.

(** C7: a document with more pages than [MAX_FILE_PAGE] makes [process] fail
    with [InvalidDocumentError] after the document was opened and one error
    was logged, with no text extraction, rendering or image construction of
    any page in the trace; a document with exactly [MAX_FILE_PAGE] pages
    passes the check: the run goes on to log the start of extraction and, when
    the document has a page, to extract the text of its first page. *)
Theorem page_ceiling (cfg : AppConfig) (b : Backend) (path : string)
    (doc : Document) tr :
  path_exists b (Path path) = Return true ->
  (exists size, st_size b (Path path) = Return size /\ (size <= MAX_FILE_SIZE cfg)%Z) ->
  pymupdf_open b (Path path) = Return doc ->
  ((Z.of_nat (length doc) > MAX_FILE_PAGE cfg)%Z ->
   exists evs,
     process cfg b path tr
     = (Raise (Exn InvalidDocumentError
                 ("File page count exceeds limit " ++ str_of_int (MAX_FILE_PAGE cfg)
                  ++ " pages.")%string),
        tr ++ evs)
     /\ Forall (fun ev => ~ per_page_work ev) evs)
  /\
  (Z.of_nat (length doc) = MAX_FILE_PAGE cfg ->
   exists r evs,
     process cfg b path tr
     = (r, tr ++ [CallOpen (Path path);
                  Log INFO [Text ("Extracting text and images from: " ++ Path path)%string]]
              ++ evs)
     /\ forall page rest, doc = page :: rest ->
                          exists evs', evs = CallGetText (number page) :: evs').
Proof.
  intros Hex Hsz Hop.
  assert (Hv : _validate_file cfg b (Path path) tr = (Return tt, tr)).
  { now apply _validate_file_ok. }
  split; intros Hlen.
  - exists [CallOpen (Path path);
            Log ERROR [Text ("File page count exceeds " ++ str_of_int (MAX_FILE_PAGE cfg)
                             ++ " pages limit.")%string]].
    split.
    + unfold process; cbv zeta. rewrite (bind_Return _ _ _ _ _ Hv). run.
      rewrite Hop. apply Z.gt_lt, Z.gtb_lt in Hlen. rewrite Hlen. simpl.
      now rewrite <- app_assoc.
    + repeat constructor; simpl; tauto.
  - set (tr0 := (tr ++ [CallOpen (Path path)])
                  ++ [Log INFO [Text ("Extracting text and images from: " ++ Path path)%string]]).
    set (pre := match doc with
                | [] => []
                | page :: _ => [CallGetText (number page)]
                end).
    assert (Hloop : exists evs, snd (for_page_in b doc "" [] tr0) = tr0 ++ pre ++ evs).
    { subst pre. destruct doc as [|page rest].
      - exists []. simpl. now rewrite app_nil_r.
      - apply for_page_in_first. }
    unfold process; cbv zeta. rewrite (bind_Return _ _ _ _ _ Hv).
    unfold try_except_class, try_except.
    unfold bind at 1, call at 1. rewrite Hop.
    rewrite (gtb_false_of_le (Z.of_nat (length doc)) (MAX_FILE_PAGE cfg))
      by (rewrite Hlen; apply Z.le_refl).
    unfold bind at 1, ret at 1. unfold bind at 1, log at 1, emit at 1.
    fold tr0.
    match goal with
    | |- context [bind (for_page_in b doc "" []) ?k tr0] =>
        destruct (bind_trace_prefix (for_page_in b doc "" []) k tr0 pre Hloop) as (evs & E)
    end.
    { intros [text images]. apply emits_only_bind; [apply _is_valid_content_emits|].
      intros valid. apply emits_only_bind; [|intros; apply emits_only_ret].
      destruct (negb valid); [|apply emits_only_ret].
      apply emits_only_bind; [now apply emits_only_log|].
      intros _. apply _ocr_fallback_emits. }
    assert (Hpre : forall page rest, doc = page :: rest ->
                     exists evs', pre ++ evs = CallGetText (number page) :: evs').
    { intros page rest ->. now exists evs. }
    assert (Htr : tr0 ++ pre ++ evs
                  = tr ++ [CallOpen (Path path);
                           Log INFO [Text ("Extracting text and images from: " ++ Path path)%string]]
                       ++ pre ++ evs).
    { subst tr0. now rewrite <- !app_assoc. }
    match goal with
    | |- context [bind (for_page_in b doc "" []) ?k tr0] =>
        destruct (bind (for_page_in b doc "" []) k tr0) as [[a|e] tr1]
    end; simpl in E; subst tr1; rewrite Htr.
    + eexists _, (pre ++ evs). split; [reflexivity | exact Hpre].
    + destruct (is_FileDataError e); unfold throw;
        (eexists _, (pre ++ evs); split; [reflexivity | exact Hpre]).
Qed.

Lemma page_ceiling_witness :
  (exists evs,
      process default_config (backend_of (pages 11) readable (Return "")) "long.pdf" []
      = (Raise (Exn InvalidDocumentError "File page count exceeds limit 10 pages."), [] ++ evs)
      /\ Forall (fun ev => ~ per_page_work ev) evs)
  /\
  (exists r evs,
      process default_config (backend_of (pages 10) readable (Return "")) "ten.pdf" []
      = (r, [] ++ [CallOpen "ten.pdf";
                   Log INFO [Text "Extracting text and images from: ten.pdf"]] ++ evs)
      /\ forall page rest, pages 10 = page :: rest ->
                           exists evs', evs = CallGetText (number page) :: evs').
Proof.
  split.
  - apply (page_ceiling default_config (backend_of (pages 11) readable (Return ""))
             "long.pdf" (pages 11) []); try reflexivity.
    size_ok.
  - apply (page_ceiling default_config (backend_of (pages 10) readable (Return ""))
             "ten.pdf" (pages 10) []); try reflexivity.
    size_ok.
Defined.

End PageCeiling.

(** ** The native text *)

Section NativeText.
Import PyStr DocumentProcessor Fixtures.
Local Arguments String.append : simpl never.

Lemma ends_with_newline_strip (raw : string) : ends_with_newline (strip raw) = false.
Proof.
  unfold ends_with_newline.
  destruct (last_char (strip raw)) as [c|] eqn:E; [|reflexivity].
  apply strip_last in E. destruct (Ascii.eqb c (ascii_of_nat 10)) eqn:Hc; [|reflexivity].
  apply Ascii.eqb_eq in Hc. subst c. discriminate.
Qed.

Lemma ends_with_newline_app (s : string) : ends_with_newline (s ++ newline) = true.
Proof. unfold ends_with_newline. now rewrite last_char_app_newline. Qed.

(** One page or more: the native text is not the empty string. *)
Lemma native_text_nonempty (raws : list string) : raws <> [] -> native_text raws <> "".
Proof.
  destruct raws as [|raw raws]; [congruence|]. intros _.
  unfold native_text. simpl. rewrite append_assoc.
  apply append_nonempty_r. discriminate.
Qed.

(** C9: for a valid PDF of one page whose text is not blank and is accepted
    by the quality gate, [process] returns the trimmed page text followed by
    one newline and a list of exactly one image.  The trimmed text [t] is
    given by its description: the page text is [t] between two runs of
    whitespace, and [t] neither starts nor ends with whitespace; it does not
    end in a newline, so the returned text ends in exactly one. *)
Theorem process_single_page (cfg : AppConfig) (b : Backend) (path : string)
    (page : Page) (raw t : string) (img : Image) tr :
  path_exists b (Path path) = Return true ->
  (exists size, st_size b (Path path) = Return size /\ (size <= MAX_FILE_SIZE cfg)%Z) ->
  (1 <= MAX_FILE_PAGE cfg)%Z ->
  pymupdf_open b (Path path) = Return [page] ->
  get_text page = Return raw ->
  trimmed_of raw t ->
  t <> "" ->
  renders b page img ->
  validate b (t ++ newline)%string = Return true ->
  exists text images tr',
    process cfg b path tr = (Return (text, images), tr') /\
    text = (t ++ newline)%string /\
    ends_with_newline text = true /\
    ends_with_newline t = false /\
    images = [img] /\
    length images = 1.
Proof.
  intros Hex Hsz Hmax Hop Hraw Htrim Hne Himg Hvalid.
  pose proof (trimmed_of_strip raw t Htrim) as Hs.
  destruct (process_after_pages cfg b path [page] [raw] [img] tr Hex Hsz Hop)
    as (evs & _ & E); [exact Hmax | now repeat constructor | now repeat constructor |].
  cbv zeta in E.
  assert (Hn : native_text [raw] = (t ++ newline)%string).
  { unfold native_text. simpl. now rewrite append_assoc, append_empty_r, Hs. }
  rewrite Hn in E. rewrite Hvalid in E.
  assert (Hgate : strip (t ++ newline) <> "").
  { rewrite <- Hs. apply strip_contribution. now rewrite Hs. }
  destruct (String.eqb (strip (t ++ newline)) "") eqn:Hempty.
  { apply String.eqb_eq in Hempty. contradiction. }
  eexists _, _, _. split; [exact E|].
  repeat split.
  - apply ends_with_newline_app.
  - rewrite <- Hs. apply ends_with_newline_strip.
Qed.

Lemma process_single_page_witness :
  exists text images tr',
    process default_config (backend_of [page_of 0 "  Invoice 42  "] readable (Return ""))
      "invoice.pdf" [] = (Return (text, images), tr') /\
    text = ("Invoice 42" ++ newline)%string /\
    ends_with_newline text = true /\
    ends_with_newline "Invoice 42" = false /\
    images = [white_image] /\
    length images = 1.
Proof.
  apply (process_single_page default_config
           (backend_of [page_of 0 "  Invoice 42  "] readable (Return ""))
           "invoice.pdf" (page_of 0 "  Invoice 42  ") "  Invoice 42  " "Invoice 42"
           white_image []).
  - reflexivity.
  - size_ok.
  - vm_compute. discriminate.
  - reflexivity.
  - reflexivity.
  - split; [exists "  ", "  "; repeat split; reflexivity|].
    split; intros c H; inversion H; reflexivity.
  - discriminate.
  - exists white_pixel. split; reflexivity.
  - reflexivity.
Defined.

(** C10: on the native path (the text of the pages is not all whitespace and
    the classifier accepts it), for a document of one page or more, [process]
    returns the trimmed texts of the pages, each followed by one newline, one
    after the other in page order, the trimmed texts being given by their
    description and not by [strip]; this text is not the empty string; and a
    page whose text is blank stands in it as exactly one newline, between what
    the pages before it and the pages after it contribute. *)
Theorem process_native_text (cfg : AppConfig) (b : Backend) (path : string)
    (doc : Document) (raws ts : list string) (imgs : list Image) tr :
  path_exists b (Path path) = Return true ->
  (exists size, st_size b (Path path) = Return size /\ (size <= MAX_FILE_SIZE cfg)%Z) ->
  pymupdf_open b (Path path) = Return doc ->
  doc <> [] ->
  (Z.of_nat (length doc) <= MAX_FILE_PAGE cfg)%Z ->
  Forall2 (fun p raw => get_text p = Return raw) doc raws ->
  Forall2 (renders b) doc imgs ->
  Forall2 trimmed_of raws ts ->
  all_space (page_lines ts) = false ->
  validate b (page_lines ts) = Return true ->
  exists tr',
    process cfg b path tr = (Return (page_lines ts, imgs), tr') /\
    page_lines ts <> "" /\
    (forall raws1 raw raws2 ts1 ts2,
        raws = raws1 ++ raw :: raws2 ->
        all_space raw = true ->
        Forall2 trimmed_of raws1 ts1 ->
        Forall2 trimmed_of raws2 ts2 ->
        process cfg b path tr
        = (Return ((page_lines ts1 ++ newline ++ page_lines ts2)%string, imgs), tr')).
Proof.
  intros Hex Hsz Hop Hdoc Hlen Ht Hi Htrim Hgate Hvalid.
  pose proof (trimmed_texts raws ts Htrim) as Hts.
  assert (Hn : page_lines ts = native_text raws).
  { rewrite Hts. apply page_lines_strip. }
  destruct (process_after_pages cfg b path doc raws imgs tr Hex Hsz Hop Hlen Ht Hi)
    as (evs & _ & E).
  cbv zeta in E. rewrite <- Hn in E. rewrite Hvalid in E.
  destruct (String.eqb (strip (page_lines ts)) "") eqn:Hempty.
  { apply String.eqb_eq, strip_empty_iff in Hempty. congruence. }
  eexists. split; [exact E|]. split.
  - rewrite Hn. apply native_text_nonempty. intros ->. inversion Ht. subst. congruence.
  - intros raws1 raw raws2 ts1 ts2 Hsplit Hblank H1 H2.
    rewrite E. do 2 f_equal. f_equal.
    rewrite Hts, Hsplit, map_app. simpl map.
    rewrite (trimmed_texts raws1 ts1 H1), (trimmed_texts raws2 ts2 H2).
    change (strip raw :: map strip raws2) with ([strip raw] ++ map strip raws2).
    rewrite !page_lines_app. f_equal. f_equal.
    apply strip_empty_iff in Hblank. rewrite Hblank.
    unfold page_lines, join. simpl. now rewrite append_empty_r.
Qed.

Lemma process_native_text_witness :
  exists tr',
    process default_config
      (backend_of [page_of 0 " Dear Sir, "; page_of 1 "   "; page_of 2 "Yours"] readable (Return ""))
      "letter.pdf" []
    = (Return (page_lines ["Dear Sir,"; ""; "Yours"],
               [white_image; white_image; white_image]), tr') /\
    page_lines ["Dear Sir,"; ""; "Yours"] <> "" /\
    process default_config
      (backend_of [page_of 0 " Dear Sir, "; page_of 1 "   "; page_of 2 "Yours"] readable (Return ""))
      "letter.pdf" []
    = (Return ((page_lines ["Dear Sir,"] ++ newline ++ page_lines ["Yours"])%string,
               [white_image; white_image; white_image]), tr').
Proof.
  assert (T1 : trimmed_of " Dear Sir, " "Dear Sir,").
  { split; [exists " ", " "; repeat split; reflexivity|].
    split; intros c H; inversion H; reflexivity. }
  assert (T2 : trimmed_of "   " "").
  { split; [exists "   ", ""; repeat split; reflexivity|].
    split; intros c H; inversion H. }
  assert (T3 : trimmed_of "Yours" "Yours").
  { split; [exists "", ""; repeat split; reflexivity|].
    split; intros c H; inversion H; reflexivity. }
  destruct (process_native_text default_config
              (backend_of [page_of 0 " Dear Sir, "; page_of 1 "   "; page_of 2 "Yours"]
                          readable (Return ""))
              "letter.pdf" [page_of 0 " Dear Sir, "; page_of 1 "   "; page_of 2 "Yours"]
              [" Dear Sir, "; "   "; "Yours"] ["Dear Sir,"; ""; "Yours"]
              [white_image; white_image; white_image] [])
    as (tr' & E & N & B).
  - reflexivity.
  - size_ok.
  - reflexivity.
  - discriminate.
  - vm_compute. discriminate.
  - repeat constructor.
  - repeat constructor; exists white_pixel; split; reflexivity.
  - repeat (apply Forall2_cons; [assumption|]); apply Forall2_nil.
  - reflexivity.
  - reflexivity.
  - exists tr'. split; [exact E|]. split; [exact N|].
    apply (B [" Dear Sir, "] "   " ["Yours"] ["Dear Sir,"] ["Yours"]).
    + reflexivity.
    + reflexivity.
    + repeat (apply Forall2_cons; [assumption|]); apply Forall2_nil.
    + repeat (apply Forall2_cons; [assumption|]); apply Forall2_nil.
Defined.

End NativeText.

(** ** The analysis pipeline *)

Section AnalyzerFacts.
Import DocumentAnalyzer AnalyzerFixtures.
Local Arguments String.append : simpl never.

Variable lm : LM.

Lemma _analyze_text_returns (text : string) : returns (_analyze_text lm text).
Proof.
  apply returns_try. intros e.
  apply returns_bind; [apply returns_log | intros; apply returns_ret].
Qed.

Lemma _analyze_images_returns (images : list Image) : returns (_analyze_images lm images).
Proof.
  apply returns_try. intros e.
  apply returns_bind; [apply returns_log | intros; apply returns_ret].
Qed.

Lemma _combine_results_returns (r_text : TextPrediction) (r_images : Prediction) :
  returns (_combine_results lm r_text r_images).
Proof.
  apply returns_try. intros e.
  apply returns_bind; [apply returns_log | intros; apply returns_ret].
Qed.

Lemma _validate_results_returns (text : string) (images : list Image) (r : Prediction) :
  returns (_validate_results lm text images r).
Proof.
  apply returns_try. intros e.
  apply returns_bind; [apply returns_log | intros; apply returns_ret].
Qed.

(** The four stages always run to the end: they hand a fused result and a
    validation result to whatever follows. *)
Lemma stages_run (text : string) (images : list Image) tr :
  exists c v tr1,
    forall (X : Type) (K : Prediction -> Validation -> M X),
      (text_results <- _analyze_text lm text ;;
       images_results <- _analyze_images lm images ;;
       combined_results <- _combine_results lm text_results images_results ;;
       validation_results <- _validate_results lm text images combined_results ;;
       K combined_results validation_results) tr
      = K c v tr1.
Proof.
  destruct (_analyze_text_returns text tr) as (t & tr1 & E1).
  destruct (_analyze_images_returns images tr1) as (i & tr2 & E2).
  destruct (_combine_results_returns t i tr2) as (c & tr3 & E3).
  destruct (_validate_results_returns text images c tr3) as (v & tr4 & E4).
  exists c, v, tr4. intros X K.
  now rewrite (bind_Return _ _ _ _ _ E1), (bind_Return _ _ _ _ _ E2),
    (bind_Return _ _ _ _ _ E3), (bind_Return _ _ _ _ _ E4).
Qed.

Lemma forward_shape (text : string) (images : list Image) tr :
  exists c v tr1,
    forward_without_warning lm text images tr = (Return (_format_output c v), tr1) /\
    forall cfg,
      forward cfg lm text images tr
      = (Return (_format_output c v), tr1 ++ low_confidence_warning cfg (confidence_score v)).
Proof.
  destruct (stages_run text images tr) as (c & v & tr1 & H).
  exists c, v, tr1. split.
  - unfold forward_without_warning. etransitivity; [apply H|]. reflexivity.
  - intros cfg. unfold forward. etransitivity; [apply H|].
    unfold low_confidence_warning, bind.
    destruct (PrimFloat.ltb (confidence_score v) (MIN_CONFIDENCE cfg)).
    + reflexivity.
    + unfold ret. now rewrite app_nil_r.
Qed.

End AnalyzerFacts.

Section AnalyzerClaims.
Import DocumentAnalyzer AnalyzerFixtures.
Local Arguments String.append : simpl never.

(** C1: for every text, every image sequence and every answer or failure of
    the four predictors (and of the image conversion), [forward] returns a
    dict and raises nothing; the keys of the dict are exactly description,
    summary, notable_info and confidence, and confidence is a dict whose keys
    are exactly score and notes. *)
Theorem forward_always_returns (cfg : AppConfig) (lm : LM) (text : string)
    (images : list Image) tr :
  exists out tr',
    forward cfg lm text images tr = (Return out, tr') /\
    dict_keys out = Some ["description"; "summary"; "notable_info"; "confidence"] /\
    exists confidence,
      dict_get "confidence" out = Some confidence /\
      dict_keys confidence = Some ["score"; "notes"].
Proof.
  destruct (forward_shape lm text images tr) as (c & v & tr1 & _ & H).
  eexists _, _. split; [apply H|]. split; [reflexivity|].
  eexists. split; reflexivity.
Qed.

(** C8: the dict [forward] returns is the dict returned by the same run
    without the threshold test; the traces of the two runs differ by exactly
    one WARNING record at the end when the score in the dict is below
    [MIN_CONFIDENCE], and not at all otherwise. *)
Theorem low_confidence_only_warns (cfg : AppConfig) (lm : LM) (text : string)
    (images : list Image) tr :
  exists out tr0 confidence score,
    forward_without_warning lm text images tr = (Return out, tr0) /\
    dict_get "confidence" out = Some confidence /\
    dict_get "score" confidence = Some (PyFloat score) /\
    forward cfg lm text images tr
    = (Return out,
       tr0 ++ (if PrimFloat.ltb score (MIN_CONFIDENCE cfg)
               then [Log WARNING [Text "Confidence score "; Num score;
                                  Text " lower than threshhold "; Num (MIN_CONFIDENCE cfg)]]
               else [])).
Proof.
  destruct (forward_shape lm text images tr) as (c & v & tr1 & H0 & H).
  exists (_format_output c v), tr1,
    (PyDict [("score", PyFloat (confidence_score v));
             ("notes", py_strs (validation_notes v))]),
    (confidence_score v).
  split; [exact H0|]. split; [reflexivity|]. split; [reflexivity|].
  apply H.
Qed.

(** With the threshold 0.6 of [config.py]: a score of 0.5 is logged, and so
    is the 0.0 substituted when validation fails; a score of 0.7 is not. *)
Example low_confidence_warning_default :
  low_confidence_warning default_config 0.5%float
  = [Log WARNING [Text "Confidence score "; Num 0.5%float;
                  Text " lower than threshhold "; Num (MIN_CONFIDENCE default_config)]]
  /\ low_confidence_warning default_config 0%float <> []
  /\ low_confidence_warning default_config 0x1.6666666666666p-1%float = [].
Proof. repeat split. vm_compute. discriminate. Qed.

(** C2: when the text stage ends unusable (its predictor fails, so that the
    placeholder is substituted, or it answers with the tier "unusable"),
    [_analyze_text] returns a result of tier "unusable", and for that result
    [_combine_results] returns the image result itself: description, summary
    and notable_info are those of the image result, and no call of the fusion
    predictor is added to the trace. *)
Theorem unusable_text_uses_images_only (lm : LM) (text : string)
    (r_images : Prediction) tr :
  text_stage_unusable lm text ->
  exists r_text tr1,
    _analyze_text lm text tr = (Return r_text, tr1) /\
    text_quality r_text = "unusable" /\
    forall tr2,
    exists combined evs,
      _combine_results lm r_text r_images tr2 = (Return combined, tr2 ++ evs) /\
      combined = r_images /\
      description combined = description r_images /\
      summary combined = summary r_images /\
      notable_info combined = notable_info r_images /\
      Forall (fun ev => ~ fusion_call ev) evs.
Proof.
  unfold text_stage_unusable. intros H.
  assert (Hcombine : forall r_text, text_quality r_text = "unusable" ->
            forall tr2, exists combined evs,
              _combine_results lm r_text r_images tr2 = (Return combined, tr2 ++ evs) /\
              combined = r_images /\
              description combined = description r_images /\
              summary combined = summary r_images /\
              notable_info combined = notable_info r_images /\
              Forall (fun ev => ~ fusion_call ev) evs).
  { intros r_text Hq tr2.
    exists r_images,
      [Log INFO [Text "Combining analysis results..."];
       Log WARNING [Text "Extracted text unsusable, only using visual analysis results."]].
    split.
    - unfold _combine_results. run. rewrite Hq. simpl. now rewrite <- app_assoc.
    - repeat split; repeat constructor; simpl; tauto. }
  unfold _analyze_text. run.
  destruct (analyze_text lm text) as [r|e].
  - eexists _, _. split; [reflexivity|]. split; [exact H|]. now apply Hcombine.
  - eexists _, _. split; [reflexivity|]. split; [reflexivity|]. now apply Hcombine.
Qed.

Lemma unusable_text_uses_images_only_witness :
  text_stage_unusable (lm_of down (Return invoice) down down) "garbled" /\
  exists r_text tr1,
    _analyze_text (lm_of down (Return invoice) down down) "garbled" [] = (Return r_text, tr1) /\
    text_quality r_text = "unusable" /\
    forall tr2,
    exists combined evs,
      _combine_results (lm_of down (Return invoice) down down) r_text invoice tr2
      = (Return combined, tr2 ++ evs) /\
      combined = invoice /\
      description combined = description invoice /\
      summary combined = summary invoice /\
      notable_info combined = notable_info invoice /\
      Forall (fun ev => ~ fusion_call ev) evs.
Proof.
  split; [exact I|].
  exact (unusable_text_uses_images_only (lm_of down (Return invoice) down down)
           "garbled" invoice [] I).
Defined.

(** When the text stage answers with another tier, here "poor", the fusion
    predictor is called with both results and its answer is the fused
    result. *)
Example poor_text_is_fused :
  _combine_results (lm_of (Return garbled) (Return invoice) (Return invoice) down)
    garbled invoice []
  = (Return invoice,
     [Log INFO [Text "Combining analysis results..."];
      CallCombine
        (PyDict [("text_quality", PyStr "poor"); ("description", PyStr "Unclear.");
                 ("summary", PyStr "Mostly noise."); ("notable_info", PyList [])])
        (PyDict [("description", PyStr "An invoice.");
                 ("summary", PyStr "Invoice 42 for services.");
                 ("notable_info", PyList [PyStr "Number: 42"])])]).
Proof. reflexivity. Qed.

(** A whole run on the fixture: text analysis, fusion and validation are
    down, image analysis answers.  The dict carries the image result and the
    score 0.0. *)
Example forward_degraded_run :
  fst (forward default_config (lm_of down (Return invoice) down down) "garbled"
         [Fixtures.white_image] [])
  = Return (PyDict [("description", PyStr "An invoice.");
                    ("summary", PyStr "Invoice 42 for services.");
                    ("notable_info", PyList [PyStr "Number: 42"]);
                    ("confidence", PyDict [("score", PyFloat 0%float);
                                           ("notes", PyList [])])]).
Proof. vm_compute. reflexivity. Qed.

End AnalyzerClaims.

(* ================================================================== *)
(** * Further properties *)

(** ** Results and events together *)

Section RunRules.
Context {A B : Type}.

Lemma framed_ret (a : A) : framed (ret a).
Proof. intros tr. unfold ret, outcome, events. simpl. now rewrite app_nil_r. Qed.

Lemma framed_throw (e : exn) : framed (@throw A e).
Proof. intros tr. unfold throw, outcome, events. simpl. now rewrite app_nil_r. Qed.

Lemma framed_call (ev : event) (answer : result A) : framed (call ev answer).
Proof. intros tr. reflexivity. Qed.

Lemma framed_eq (m : M A) : framed m -> m [] = (outcome m, events m).
Proof. intros H. unfold outcome, events. now destruct (m []). Qed.

Lemma framed_bind (m : M A) (k : A -> M B) :
  framed m -> (forall a, framed (k a)) -> framed (bind m k).
Proof.
  intros Hm Hk tr. unfold outcome, events, bind.
  rewrite (Hm tr), (framed_eq m Hm).
  destruct (outcome m) as [a|e].
  - rewrite (Hk a (tr ++ events m)), (Hk a (events m)). simpl. now rewrite app_assoc.
  - reflexivity.
Qed.

Lemma framed_try (body : M A) (h : exn -> M A) :
  framed body -> (forall e, framed (h e)) -> framed (try_except body h).
Proof.
  intros Hm Hh tr. unfold outcome, events, try_except.
  rewrite (Hm tr), (framed_eq body Hm).
  destruct (outcome body) as [a|e].
  - reflexivity.
  - rewrite (Hh e (tr ++ events body)), (Hh e (events body)). simpl. now rewrite app_assoc.
Qed.

End RunRules.

Lemma framed_log lvl msg : framed (log lvl msg).
Proof. intros tr. reflexivity. Qed.

Lemma count_app (p : event -> bool) (l1 l2 : list event) :
  count p (l1 ++ l2) = count p l1 + count p l2.
Proof. unfold count. now rewrite filter_app, length_app. Qed.

Lemma count_cons (p : event -> bool) (ev : event) (l : list event) :
  count p (ev :: l) = (if p ev then 1 else 0) + count p l.
Proof. unfold count. simpl. now destruct (p ev). Qed.

Lemma count_none (p : event -> bool) (P : event -> Prop) (evs : list event) :
  (forall ev, P ev -> p ev = false) -> Forall P evs -> count p evs = 0.
Proof.
  intros H F. unfold count. induction F as [|ev evs Hev _ IH]; [reflexivity|].
  simpl. now rewrite (H ev Hev).
Qed.

(** ** The content extractor, step by step *)

Section ProcessorSteps.
Import PyStr DocumentProcessor.
Local Arguments String.append : simpl never.

Variable cfg : AppConfig.
Variable b : Backend.

Lemma _extract_page_text_run (page : Page) tr :
  _extract_page_text page tr
  = match get_text page with
    | Return raw =>
        (Return (strip raw ++ newline)%string,
         tr ++ CallGetText (number page)
            :: (if is_empty (strip raw) then [Log DEBUG [Text "Empty page encountered."]] else []))
    | Raise e =>
        (Raise (Exn ContentExtractionError "Text extraction failed"),
         tr ++ [CallGetText (number page);
                Log ERROR [Text ("Text extraction failed: " ++ exn_msg e)%string]])
    end.
Proof.
  unfold _extract_page_text. run.
  destruct (get_text page) as [raw|e].
  - destruct (is_empty (strip raw)); now rewrite <- ?app_assoc.
  - now rewrite <- app_assoc.
Qed.

Lemma _render_page_image_run (page : Page) tr :
  _render_page_image b page tr
  = match get_pixmap page 2%Z with
    | Return pix =>
        let size := (pix_width pix, pix_height pix) in
        match Image_frombytes b "RGB" size (pix_samples pix) with
        | Return img =>
            (Return img, tr ++ [CallGetPixmap (number page) 2%Z; CallFromBytes "RGB" size])
        | Raise e =>
            (Raise (Exn ContentExtractionError "Image rendering failed"),
             tr ++ [CallGetPixmap (number page) 2%Z; CallFromBytes "RGB" size;
                    Log ERROR [Text ("Image rendering failed: " ++ exn_msg e)%string]])
        end
    | Raise e =>
        (Raise (Exn ContentExtractionError "Image rendering failed"),
         tr ++ [CallGetPixmap (number page) 2%Z;
                Log ERROR [Text ("Image rendering failed: " ++ exn_msg e)%string]])
    end.
Proof.
  unfold _render_page_image. run.
  destruct (get_pixmap page 2%Z) as [pix|e]; cbv zeta.
  - destruct (Image_frombytes b "RGB" (pix_width pix, pix_height pix) (pix_samples pix));
      now rewrite <- !app_assoc.
  - now rewrite <- app_assoc.
Qed.

Lemma _ocr_fallback_run (pdf_path : string) tr :
  _ocr_fallback b pdf_path tr
  = match ocr b pdf_path with
    | Return t => (Return t, tr ++ [CallOcr pdf_path])
    | Raise e =>
        (Raise (Exn ContentExtractionError ("OCR extraction failed: " ++ exn_msg e)%string),
         tr ++ [CallOcr pdf_path;
                Log ERROR [Text ("OCR extraction failed: " ++ exn_msg e)%string]])
    end.
Proof.
  unfold _ocr_fallback. run.
  destruct (ocr b pdf_path); [reflexivity | now rewrite <- app_assoc].
Qed.

Lemma _is_valid_content_run (text : string) tr :
  _is_valid_content b text tr
  = if String.eqb (strip text) "" then (Return false, tr)
    else (validate b text, tr ++ [CallValidContent text]).
Proof. unfold _is_valid_content. now destruct (String.eqb (strip text) ""). Qed.

Lemma _extract_page_text_framed (page : Page) : framed (_extract_page_text page).
Proof.
  intros tr. unfold outcome, events. rewrite !_extract_page_text_run.
  now destruct (get_text page).
Qed.

Lemma _render_page_image_framed (page : Page) : framed (_render_page_image b page).
Proof.
  intros tr. unfold outcome, events. rewrite !_render_page_image_run.
  destruct (get_pixmap page 2%Z) as [pix|e]; cbv zeta; [|reflexivity].
  now destruct (Image_frombytes b "RGB" (pix_width pix, pix_height pix) (pix_samples pix)).
Qed.

Lemma for_page_in_framed (doc : list Page) :
  forall text images, framed (for_page_in b doc text images).
Proof.
  induction doc as [|page doc IH]; intros text images; simpl.
  - apply framed_ret.
  - apply framed_bind; [apply _extract_page_text_framed|]. intros t.
    apply framed_bind; [apply _render_page_image_framed|]. intros img.
    apply IH.
Qed.

(** The loop over [pre ++ rest] is the loop over [pre] followed, when it
    returns, by the loop over [rest] from the text and images reached. *)
Lemma for_page_in_app (pre rest : list Page) :
  forall text images tr,
    for_page_in b (pre ++ rest) text images tr
    = match for_page_in b pre text images tr with
      | (Return (t, imgs), tr') => for_page_in b rest t imgs tr'
      | (Raise e, tr') => (Raise e, tr')
      end.
Proof.
  induction pre as [|page pre IH]; intros text images tr; [reflexivity|].
  change ((page :: pre) ++ rest) with (page :: (pre ++ rest)).
  cbn [for_page_in]. unfold bind.
  destruct (_extract_page_text page tr) as [[t|e] tr1]; [|reflexivity].
  destruct (_render_page_image b page tr1) as [[img|e] tr2]; [|reflexivity].
  apply IH.
Qed.

(** What a run of the page loop tells about the pages: when it returns,
    every page gave its text and rendered, and the text and images returned
    are the accumulated ones followed by the pages' contributions in page
    order; when it raises, the pages before some page did so, and that page
    failed to give its text or to render. *)
Lemma for_page_in_inv (doc : list Page) :
  forall text images tr r tr',
    for_page_in b doc text images tr = (r, tr') ->
    match r with
    | Return (t, imgs) =>
        exists raws new,
          Forall2 (fun p raw => get_text p = Return raw) doc raws /\
          Forall2 (renders b) doc new /\
          t = (text ++ native_text raws)%string /\ imgs = images ++ new
    | Raise e =>
        exists pre page post raws new,
          doc = pre ++ page :: post /\
          Forall2 (fun p raw => get_text p = Return raw) pre raws /\
          Forall2 (renders b) pre new /\
          ((e = Exn ContentExtractionError "Text extraction failed"
            /\ exists e0, get_text page = Raise e0)
           \/ (e = Exn ContentExtractionError "Image rendering failed"
               /\ (exists raw, get_text page = Return raw)
               /\ exists e0, render_fails b page e0))
    end.
Proof.
  induction doc as [|page doc IH]; intros text images tr r tr' E.
  - simpl in E. unfold ret in E. inversion E; subst.
    exists [], []. repeat split; try constructor.
    + unfold native_text. simpl. now rewrite append_empty_r.
    + now rewrite app_nil_r.
  - simpl in E. unfold bind at 1 in E. rewrite _extract_page_text_run in E.
    destruct (get_text page) as [raw|e0] eqn:Hraw.
    + unfold bind at 1 in E. rewrite _render_page_image_run in E.
      destruct (get_pixmap page 2%Z) as [pix|e1] eqn:Hpix; cbv zeta in E.
      * destruct (Image_frombytes b "RGB" (pix_width pix, pix_height pix) (pix_samples pix))
          as [img|e2] eqn:Himg.
        -- apply IH in E. destruct r as [[t imgs]|e].
           ++ destruct E as (raws & new & Ht & Hi & -> & ->).
              exists (raw :: raws), (img :: new). repeat split.
              ** now constructor.
              ** constructor; [|exact Hi]. now exists pix.
              ** unfold native_text. simpl. now rewrite !append_assoc.
              ** now rewrite <- app_assoc.
           ++ destruct E as (pre & pg & post & raws & new & -> & Ht & Hi & Hcase).
              exists (page :: pre), pg, post, (raw :: raws), (img :: new).
              repeat split; [now constructor | | exact Hcase].
              constructor; [|exact Hi]. now exists pix.
        -- inversion E; subst.
           exists [], page, doc, [], [].
           split; [reflexivity|]. split; [constructor|]. split; [constructor|].
           right. split; [reflexivity|]. split; [now exists raw|].
           exists e2. right. now exists pix.
      * inversion E; subst.
        exists [], page, doc, [], [].
           split; [reflexivity|]. split; [constructor|]. split; [constructor|].
        right. split; [reflexivity|]. split; [now exists raw|].
        exists e1. now left.
    + inversion E; subst.
      exists [], page, doc, [], [].
           split; [reflexivity|]. split; [constructor|]. split; [constructor|].
      left. split; [reflexivity | now exists e0].
Qed.

(** [process] on a file that passes validation, opens and stays within the
    page ceiling is the page loop, followed by [after_pages] when the loop
    returns; an exception of the loop passes through the handler of
    [FileDataError]. *)
Lemma process_from_loop (path : string) (doc : Document) tr :
  path_exists b (Path path) = Return true ->
  (exists size, st_size b (Path path) = Return size /\ (size <= MAX_FILE_SIZE cfg)%Z) ->
  pymupdf_open b (Path path) = Return doc ->
  (Z.of_nat (length doc) <= MAX_FILE_PAGE cfg)%Z ->
  process cfg b path tr
  = match for_page_in b doc "" []
            (tr ++ [CallOpen (Path path);
                    Log INFO [Text ("Extracting text and images from: " ++ Path path)%string]]) with
    | (Return (text, images), tr0) => after_pages b (Path path) text images tr0
    | (Raise e, tr0) =>
        (Raise (if is_FileDataError e
                then Exn InvalidDocumentError ("Invalid PDF structure: " ++ exn_msg e)%string
                else e),
         tr0)
    end.
Proof.
  intros Hex Hsz Hop Hlen.
  unfold process; cbv zeta. unfold bind at 1.
  rewrite (_validate_file_ok _ _ _ tr Hex Hsz). cbv iota.
  unfold try_except_class, try_except.
  unfold bind at 1, call at 1. rewrite Hop.
  rewrite (gtb_false_of_le _ _ Hlen).
  unfold bind at 1, ret at 1. unfold bind at 1, log at 1, emit at 1.
  rewrite <- app_assoc. simpl app.
  unfold bind at 1.
  destruct (for_page_in b doc "" [] _) as [[[text images]|e] tr0].
  - unfold bind at 1. rewrite _is_valid_content_run. unfold after_pages.
    destruct (String.eqb (strip text) "").
    + simpl negb. cbv iota. unfold bind at 1. unfold bind at 1, log at 1, emit at 1.
      rewrite _ocr_fallback_run.
      destruct (ocr b (Path path)); unfold ret, throw; simpl;
        rewrite <- ?app_assoc; simpl; reflexivity.
    + destruct (validate b text) as [[|]|e].
      * reflexivity.
      * simpl negb. cbv iota. unfold bind at 1. unfold bind at 1, log at 1, emit at 1.
        rewrite _ocr_fallback_run.
        destruct (ocr b (Path path)); unfold ret, throw; simpl;
          rewrite <- ?app_assoc; simpl; reflexivity.
      * unfold throw. now destruct (is_FileDataError e).
  - unfold throw. now destruct (is_FileDataError e).
Qed.

(** [process], step by step: the two questions of [_validate_file], the
    opening of the document, the page ceiling, the page loop and what follows
    it. *)
Lemma process_run (path : string) tr :
  process cfg b path tr
  = match path_exists b (Path path) with
    | Raise e => (Raise e, tr)
    | Return false =>
        (Raise (Exn FileNotFoundError ("File not found: " ++ Path path)%string), tr)
    | Return true =>
        match st_size b (Path path) with
        | Raise e => (Raise e, tr)
        | Return size =>
            if (size >? MAX_FILE_SIZE cfg)%Z
            then (Raise (Exn InvalidDocumentError
                           ("File size " ++ str_of_int size ++ " exceeds limit "
                            ++ str_of_int (MAX_FILE_SIZE cfg) ++ " bytes.")%string),
                  tr)
            else
              match pymupdf_open b (Path path) with
              | Raise e =>
                  (Raise (if is_FileDataError e
                          then Exn InvalidDocumentError
                                 ("Invalid PDF structure: " ++ exn_msg e)%string
                          else e),
                   tr ++ [CallOpen (Path path)])
              | Return doc =>
                  if (Z.of_nat (length doc) >? MAX_FILE_PAGE cfg)%Z
                  then (Raise (Exn InvalidDocumentError
                                 ("File page count exceeds limit "
                                  ++ str_of_int (MAX_FILE_PAGE cfg) ++ " pages.")%string),
                        tr ++ [CallOpen (Path path);
                               Log ERROR [Text ("File page count exceeds "
                                                ++ str_of_int (MAX_FILE_PAGE cfg)
                                                ++ " pages limit.")%string]])
                  else
                    match for_page_in b doc "" []
                            (tr ++ [CallOpen (Path path);
                                    Log INFO [Text ("Extracting text and images from: "
                                                    ++ Path path)%string]]) with
                    | (Return (text, images), tr0) =>
                        after_pages b (Path path) text images tr0
                    | (Raise e, tr0) =>
                        (Raise (if is_FileDataError e
                                then Exn InvalidDocumentError
                                       ("Invalid PDF structure: " ++ exn_msg e)%string
                                else e),
                         tr0)
                    end
              end
        end
    end.
Proof.
  destruct (path_exists b (Path path)) as [[|]|e0] eqn:Hex.
  2,3: unfold process; cbv zeta; unfold bind at 1; now rewrite _validate_file_run, Hex.
  destruct (st_size b (Path path)) as [size|e0] eqn:Hs.
  2: unfold process; cbv zeta; unfold bind at 1; now rewrite _validate_file_run, Hex, Hs.
  destruct (size >? MAX_FILE_SIZE cfg)%Z eqn:Hsz.
  { unfold process; cbv zeta; unfold bind at 1.
    now rewrite _validate_file_run, Hex, Hs, Hsz. }
  assert (Hsz' : exists size, st_size b (Path path) = Return size
                              /\ (size <= MAX_FILE_SIZE cfg)%Z).
  { exists size. split; [exact Hs|]. rewrite Z.gtb_ltb in Hsz. now apply Z.ltb_ge. }
  destruct (pymupdf_open b (Path path)) as [doc|e] eqn:Hop.
  2:{ unfold process; cbv zeta. unfold bind at 1.
      rewrite (_validate_file_ok _ _ _ tr Hex Hsz'). cbv iota.
      unfold try_except_class, try_except, bind, call, throw. rewrite Hop.
      now destruct (is_FileDataError e). }
  destruct (Z.of_nat (length doc) >? MAX_FILE_PAGE cfg)%Z eqn:Hlen.
  { unfold process; cbv zeta. unfold bind at 1.
    rewrite (_validate_file_ok _ _ _ tr Hex Hsz'). cbv iota.
    unfold try_except_class, try_except.
    unfold bind at 1, call at 1. rewrite Hop, Hlen.
    unfold bind, log, emit, throw. simpl. now rewrite <- app_assoc. }
  apply process_from_loop; try assumption.
  rewrite Z.gtb_ltb in Hlen. now apply Z.ltb_ge.
Qed.

End ProcessorSteps.

(** ** The kinds of failure of [process] *)

Section ProcessFailureKinds.
Import PyStr DocumentProcessor Fixtures.
Local Arguments String.append : simpl never.




End ProcessFailureKinds.

(** ** Input validation and opening *)

Section ProcessInput.
Import PyStr DocumentProcessor Fixtures MoreFixtures.
Local Arguments String.append : simpl never.

(** Once the file has passed validation, the first thing [process] does is
    to open it. *)
Lemma process_opens (cfg : AppConfig) (b : Backend) (path : string) tr :
  path_exists b (Path path) = Return true ->
  (exists size, st_size b (Path path) = Return size /\ (size <= MAX_FILE_SIZE cfg)%Z) ->
  exists r evs, process cfg b path tr = (r, tr ++ CallOpen (Path path) :: evs).
Proof.
  intros Hex Hsz.
  destruct (pymupdf_open b (Path path)) as [doc|e] eqn:Hop.
  - destruct (Z.of_nat (length doc) >? MAX_FILE_PAGE cfg)%Z eqn:Hlen.
    + apply Z.gtb_lt, Z.lt_gt in Hlen.
      unfold process; cbv zeta. unfold bind at 1.
      rewrite (_validate_file_ok _ _ _ tr Hex Hsz). run. rewrite Hop. simpl.
      apply Z.gt_lt, Z.gtb_lt in Hlen. rewrite Hlen.
      eexists _, _. rewrite <- app_assoc. reflexivity.
    + assert (Hle : (Z.of_nat (length doc) <= MAX_FILE_PAGE cfg)%Z).
      { rewrite Z.gtb_ltb in Hlen. now apply Z.ltb_ge. }
      rewrite (process_from_loop cfg b path doc tr Hex Hsz Hop Hle).
      rewrite (for_page_in_framed b doc "" []).
      destruct (outcome (for_page_in b doc "" [])) as [[text images]|e].
      * unfold after_pages.
        destruct (String.eqb (strip text) "");
          [|destruct (validate b text) as [[|]|e]];
          try destruct (ocr b (Path path));
          eexists _, _; rewrite <- ?app_assoc; simpl; reflexivity.
      * eexists _, _. rewrite <- ?app_assoc. simpl. reflexivity.
  - unfold process; cbv zeta. unfold bind at 1.
    rewrite (_validate_file_ok _ _ _ tr Hex Hsz). run. rewrite Hop. simpl.
    destruct (is_FileDataError e); now eexists _, [].
Qed.

(** X1: a source larger than [MAX_FILE_SIZE] bytes makes [process] fail with
    [InvalidDocumentError], the message giving the size and the limit, before
    the file is opened (nothing is added to the trace); a source of exactly
    [MAX_FILE_SIZE] bytes passes: the run goes on to open it. *)
Theorem process_size_ceiling (cfg : AppConfig) (b : Backend) (path : string)
    (size : Z) tr :
  path_exists b (Path path) = Return true ->
  st_size b (Path path) = Return size ->
  ((size > MAX_FILE_SIZE cfg)%Z ->
   process cfg b path tr
   = (Raise (Exn InvalidDocumentError
               ("File size " ++ str_of_int size ++ " exceeds limit "
                ++ str_of_int (MAX_FILE_SIZE cfg) ++ " bytes.")%string),
      tr))
  /\
  (size = MAX_FILE_SIZE cfg ->
   exists r evs, process cfg b path tr = (r, tr ++ CallOpen (Path path) :: evs)).
Proof.
  intros Hex Hs. split; intros Hsz.
  - unfold process; cbv zeta. unfold bind at 1. rewrite _validate_file_run, Hex, Hs.
    apply Z.gt_lt, Z.gtb_lt in Hsz. now rewrite Hsz.
  - apply process_opens; [exact Hex|]. exists size. split; [exact Hs|].
    rewrite Hsz. apply Z.le_refl.
Qed.

Lemma process_size_ceiling_witness :
  process default_config (backend_sized 2097153 (pages 1)) "big.pdf" []
  = (Raise (Exn InvalidDocumentError "File size 2097153 exceeds limit 2097152 bytes."), [])
  /\
  exists r evs,
    process default_config (backend_sized 2097152 (pages 1)) "full.pdf" []
    = (r, [] ++ CallOpen "full.pdf" :: evs).
Proof.
  split.
  - apply (process_size_ceiling default_config (backend_sized 2097153 (pages 1)) "big.pdf"
             2097153 [] eq_refl eq_refl).
    reflexivity.
  - apply (process_size_ceiling default_config (backend_sized 2097152 (pages 1)) "full.pdf"
             2097152 [] eq_refl eq_refl).
    reflexivity.
Defined.

(** X2: when [pymupdf.open] raises, nothing else is attempted: the trace
    holds the call of [open] only.  A [FileDataError] is turned into
    [InvalidDocumentError] with the message "Invalid PDF structure: " followed
    by the message of the cause; any other exception reaches the caller as it
    is. *)
Theorem process_open_failure (cfg : AppConfig) (b : Backend) (path : string) (e : exn) tr :
  path_exists b (Path path) = Return true ->
  (exists size, st_size b (Path path) = Return size /\ (size <= MAX_FILE_SIZE cfg)%Z) ->
  pymupdf_open b (Path path) = Raise e ->
  process cfg b path tr
  = (Raise (if is_FileDataError e
            then Exn InvalidDocumentError ("Invalid PDF structure: " ++ exn_msg e)%string
            else e),
     tr ++ [CallOpen (Path path)]).
Proof.
  intros Hex Hsz Hop.
  unfold process; cbv zeta. unfold bind at 1.
  rewrite (_validate_file_ok _ _ _ tr Hex Hsz). cbv iota.
  unfold try_except_class, try_except, bind, call, throw. rewrite Hop.
  now destruct (is_FileDataError e).
Qed.

Lemma process_open_failure_witness :
  process default_config backend_malformed "notes.pdf" []
  = (Raise (Exn InvalidDocumentError
              "Invalid PDF structure: Failed to open file 'notes.pdf'."),
     [CallOpen "notes.pdf"])
  /\
  process default_config backend_unreadable "locked.pdf" []
  = (Raise (Exn (OtherException "PermissionError") "permission denied"),
     [CallOpen "locked.pdf"]).
Proof.
  split.
  - apply (process_open_failure default_config backend_malformed "notes.pdf"
             (Exn FileDataError "Failed to open file 'notes.pdf'.") []);
      [reflexivity | size_ok | reflexivity].
  - apply (process_open_failure default_config backend_unreadable "locked.pdf"
             (Exn (OtherException "PermissionError") "permission denied") []);
      [reflexivity | size_ok | reflexivity].
Defined.

End ProcessInput.

(** ** Failures inside the page loop and in the fallback *)

Section ProcessPageFailures.
Import PyStr DocumentProcessor Fixtures MoreFixtures.
Local Arguments String.append : simpl never.

Lemma ContentExtractionError_not_FileDataError (msg : string) :
  is_FileDataError (Exn ContentExtractionError msg) = false.
Proof. reflexivity. Qed.

(** The loop over pages that all extract and render, from any trace. *)
Lemma for_page_in_ok_framed (b : Backend) (doc : list Page) raws imgs text images tr :
  Forall2 (fun p raw => get_text p = Return raw) doc raws ->
  Forall2 (renders b) doc imgs ->
  for_page_in b doc text images tr
  = (Return ((text ++ native_text raws)%string, images ++ imgs),
     tr ++ events (for_page_in b doc text images)).
Proof.
  intros Ht Hi.
  destruct (for_page_in_ok b doc raws imgs Ht Hi text images tr) as (tr' & E).
  rewrite (for_page_in_framed b doc text images tr) in E |- *.
  inversion E as [[Ho Htr]]. now rewrite Ho.
Qed.

(** X3: text extraction failing on a page is fatal and stops the run there.
    When the pages before it extracted and rendered, [process] raises
    [ContentExtractionError] "Text extraction failed" (the cause's message goes
    to the log only), and the trace ends with the failed [get_text] and the
    error record: the page is not rendered, the pages after it are not
    touched, neither the classifier nor OCR is called, and nothing of the
    pages already processed is returned. *)
Theorem text_extraction_failure_stops (cfg : AppConfig) (b : Backend) (path : string)
    (pre : list Page) (page : Page) (post : list Page)
    (raws : list string) (imgs : list Image) (e : exn) tr :
  path_exists b (Path path) = Return true ->
  (exists size, st_size b (Path path) = Return size /\ (size <= MAX_FILE_SIZE cfg)%Z) ->
  pymupdf_open b (Path path) = Return (pre ++ page :: post) ->
  (Z.of_nat (length (pre ++ page :: post)) <= MAX_FILE_PAGE cfg)%Z ->
  Forall2 (fun p raw => get_text p = Return raw) pre raws ->
  Forall2 (renders b) pre imgs ->
  get_text page = Raise e ->
  process cfg b path tr
  = (Raise (Exn ContentExtractionError "Text extraction failed"),
     tr ++ [CallOpen (Path path);
            Log INFO [Text ("Extracting text and images from: " ++ Path path)%string]]
        ++ events (for_page_in b pre "" [])
        ++ [CallGetText (number page);
            Log ERROR [Text ("Text extraction failed: " ++ exn_msg e)%string]]).
Proof.
  intros Hex Hsz Hop Hlen Ht Hi Hfail.
  rewrite (process_from_loop cfg b path _ tr Hex Hsz Hop Hlen).
  rewrite for_page_in_app, (for_page_in_ok_framed b pre raws imgs "" [] _ Ht Hi).
  cbn [for_page_in]. unfold bind at 1. rewrite _extract_page_text_run, Hfail.
  rewrite ContentExtractionError_not_FileDataError.
  now rewrite <- !app_assoc.
Qed.

Lemma text_extraction_failure_stops_witness :
  process default_config
    (backend_of [page_of 0 "Cover"; page_without_text 1; page_of 2 "Appendix"]
                classifier_down (Raise boom))
    "report.pdf" []
  = (Raise (Exn ContentExtractionError "Text extraction failed"),
     [] ++ [CallOpen "report.pdf";
            Log INFO [Text "Extracting text and images from: report.pdf"]]
        ++ [CallGetText 0; CallGetPixmap 0 2; CallFromBytes "RGB" (1, 1)%Z]
        ++ [CallGetText 1; Log ERROR [Text "Text extraction failed: boom"]]).
Proof.
  apply (text_extraction_failure_stops default_config
           (backend_of [page_of 0 "Cover"; page_without_text 1; page_of 2 "Appendix"]
                       classifier_down (Raise boom))
           "report.pdf" [page_of 0 "Cover"] (page_without_text 1) [page_of 2 "Appendix"]
           ["Cover"] [white_image] boom []).
  - reflexivity.
  - size_ok.
  - reflexivity.
  - vm_compute. discriminate.
  - repeat constructor.
  - repeat constructor. exists white_pixel. split; reflexivity.
  - reflexivity.
Defined.

(** X4: rendering failing on a page, in [get_pixmap] or in
    [Image.frombytes], is fatal as well: when the pages before it extracted
    and rendered and the page gave its text, [process] raises
    [ContentExtractionError] "Image rendering failed"; the events added after
    the page's [get_text] hold no call of the classifier, of OCR or on any
    later page, and they end with the error record carrying the cause. *)
Theorem rendering_failure_stops (cfg : AppConfig) (b : Backend) (path : string)
    (pre : list Page) (page : Page) (post : list Page)
    (raws : list string) (imgs : list Image) (raw : string) (e : exn) tr :
  path_exists b (Path path) = Return true ->
  (exists size, st_size b (Path path) = Return size /\ (size <= MAX_FILE_SIZE cfg)%Z) ->
  pymupdf_open b (Path path) = Return (pre ++ page :: post) ->
  (Z.of_nat (length (pre ++ page :: post)) <= MAX_FILE_PAGE cfg)%Z ->
  Forall2 (fun p raw => get_text p = Return raw) pre raws ->
  Forall2 (renders b) pre imgs ->
  get_text page = Return raw ->
  render_fails b page e ->
  exists evs,
    process cfg b path tr
    = (Raise (Exn ContentExtractionError "Image rendering failed"),
       tr ++ [CallOpen (Path path);
              Log INFO [Text ("Extracting text and images from: " ++ Path path)%string]]
          ++ events (for_page_in b pre "" [])
          ++ events (_extract_page_text page)
          ++ CallGetPixmap (number page) 2 :: evs
          ++ [Log ERROR [Text ("Image rendering failed: " ++ exn_msg e)%string]])
    /\ (evs = [] \/ exists size, evs = [CallFromBytes "RGB" size]).
Proof.
  intros Hex Hsz Hop Hlen Ht Hi Hraw Hfail.
  rewrite (process_from_loop cfg b path _ tr Hex Hsz Hop Hlen).
  rewrite for_page_in_app, (for_page_in_ok_framed b pre raws imgs "" [] _ Ht Hi).
  cbn [for_page_in]. unfold bind at 1.
  rewrite (_extract_page_text_framed page).
  assert (Ho : outcome (_extract_page_text page) = Return (strip raw ++ newline)%string).
  { unfold outcome. rewrite _extract_page_text_run, Hraw. reflexivity. }
  rewrite Ho. unfold bind at 1. rewrite _render_page_image_run.
  destruct Hfail as [Hpix | (pix & Hpix & Himg)].
  - rewrite Hpix, ContentExtractionError_not_FileDataError.
    exists []. split; [|now left]. rewrite <- !app_assoc. reflexivity.
  - rewrite Hpix. cbv zeta. rewrite Himg, ContentExtractionError_not_FileDataError.
    exists [CallFromBytes "RGB" (pix_width pix, pix_height pix)].
    split; [|right; now eexists]. rewrite <- !app_assoc. reflexivity.
Qed.

Lemma rendering_failure_stops_witness :
  exists evs,
    process default_config
      (backend_of [page_without_pixmap 0 "Cover"; page_of 1 "Body"] classifier_down (Raise boom))
      "report.pdf" []
    = (Raise (Exn ContentExtractionError "Image rendering failed"),
       [] ++ [CallOpen "report.pdf";
              Log INFO [Text "Extracting text and images from: report.pdf"]]
          ++ events (for_page_in
                       (backend_of [page_without_pixmap 0 "Cover"; page_of 1 "Body"]
                                   classifier_down (Raise boom)) [] "" [])
          ++ events (_extract_page_text (page_without_pixmap 0 "Cover"))
          ++ CallGetPixmap 0 2 :: evs
          ++ [Log ERROR [Text "Image rendering failed: boom"]])
    /\ (evs = [] \/ exists size, evs = [CallFromBytes "RGB" size]).
Proof.
  apply (rendering_failure_stops default_config
           (backend_of [page_without_pixmap 0 "Cover"; page_of 1 "Body"]
                       classifier_down (Raise boom))
           "report.pdf" [] (page_without_pixmap 0 "Cover") [page_of 1 "Body"]
           [] [] "Cover" boom []).
  - reflexivity.
  - size_ok.
  - reflexivity.
  - vm_compute. discriminate.
  - constructor.
  - constructor.
  - reflexivity.
  - left. reflexivity.
Defined.

(** X5: when the quality gate rejects the native text and OCR fails with
    [e], [process] raises [ContentExtractionError] whose message is "OCR
    extraction failed: " followed by the message of [e]; the rendered images
    are not returned. *)
Theorem ocr_failure_is_fatal (cfg : AppConfig) (b : Backend) (path : string)
    (doc : Document) (raws : list string) (imgs : list Image) (e : exn) tr :
  path_exists b (Path path) = Return true ->
  (exists size, st_size b (Path path) = Return size /\ (size <= MAX_FILE_SIZE cfg)%Z) ->
  pymupdf_open b (Path path) = Return doc ->
  (Z.of_nat (length doc) <= MAX_FILE_PAGE cfg)%Z ->
  Forall2 (fun p raw => get_text p = Return raw) doc raws ->
  Forall2 (renders b) doc imgs ->
  strip (native_text raws) = "" \/ validate b (native_text raws) = Return false ->
  ocr b (Path path) = Raise e ->
  fst (process cfg b path tr)
  = Raise (Exn ContentExtractionError ("OCR extraction failed: " ++ exn_msg e)%string).
Proof.
  intros Hex Hsz Hop Hlen Ht Hi Hgate Hocr.
  rewrite (process_from_loop cfg b path doc tr Hex Hsz Hop Hlen).
  rewrite (for_page_in_ok_framed b doc raws imgs "" [] _ Ht Hi).
  change ("" ++ native_text raws)%string with (native_text raws).
  unfold after_pages. rewrite Hocr.
  destruct (String.eqb (strip (native_text raws)) "") eqn:Hempty; [reflexivity|].
  destruct Hgate as [Hs|Hv].
  - rewrite Hs in Hempty. discriminate.
  - now rewrite Hv.
Qed.

Lemma ocr_failure_is_fatal_witness :
  fst (process default_config (backend_of [page_of 0 "#### ~~~~"] unreadable (Raise boom))
         "scan.pdf" [])
  = Raise (Exn ContentExtractionError "OCR extraction failed: boom").
Proof.
  apply (ocr_failure_is_fatal default_config
           (backend_of [page_of 0 "#### ~~~~"] unreadable (Raise boom))
           "scan.pdf" [page_of 0 "#### ~~~~"] ["#### ~~~~"] [white_image] boom []).
  - reflexivity.
  - size_ok.
  - reflexivity.
  - vm_compute. discriminate.
  - repeat constructor.
  - repeat constructor. exists white_pixel. split; reflexivity.
  - right. reflexivity.
  - reflexivity.
Defined.

End ProcessPageFailures.

(** ** What a returned result tells *)

Section ProcessReturns.
Import PyStr DocumentProcessor Fixtures MoreFixtures.
Local Arguments String.append : simpl never.

(** A run of [process] that returns has passed the two checks of
    [_validate_file], opened the document, passed the page ceiling and
    completed the page loop; what it returns is what [after_pages] makes of
    the native text and the rendered images. *)
Lemma process_returns_inv (cfg : AppConfig) (b : Backend) (path : string)
    tr text images tr' :
  process cfg b path tr = (Return (text, images), tr') ->
  path_exists b (Path path) = Return true /\
  (exists size, st_size b (Path path) = Return size /\ (size <= MAX_FILE_SIZE cfg)%Z) /\
  exists doc raws imgs evs,
    pymupdf_open b (Path path) = Return doc /\
    (Z.of_nat (length doc) <= MAX_FILE_PAGE cfg)%Z /\
    Forall2 (fun p raw => get_text p = Return raw) doc raws /\
    Forall2 (renders b) doc imgs /\
    Forall page_event evs /\
    after_pages b (Path path) (native_text raws) imgs
      (tr ++ [CallOpen (Path path);
              Log INFO [Text ("Extracting text and images from: " ++ Path path)%string]] ++ evs)
    = (Return (text, images), tr').
Proof.
  intros H. rewrite process_run in H.
  destruct (path_exists b (Path path)) as [[|]|e0]; try discriminate H.
  destruct (st_size b (Path path)) as [size|e0]; try discriminate H.
  destruct (size >? MAX_FILE_SIZE cfg)%Z eqn:Hsz; try discriminate H.
  split; [reflexivity|]. split.
  { exists size. split; [reflexivity|]. rewrite Z.gtb_ltb in Hsz. now apply Z.ltb_ge. }
  destruct (pymupdf_open b (Path path)) as [doc|e].
  2:{ destruct (is_FileDataError e); discriminate. }
  destruct (Z.of_nat (length doc) >? MAX_FILE_PAGE cfg)%Z eqn:Hlen; try discriminate H.
  assert (Hlen' : (Z.of_nat (length doc) <= MAX_FILE_PAGE cfg)%Z).
  { rewrite Z.gtb_ltb in Hlen. now apply Z.ltb_ge. }
  destruct (for_page_in b doc "" [] _) as [[[t i]|e] tr0] eqn:El.
  2:{ destruct (is_FileDataError e); discriminate. }
  pose proof (emits_only_run _ _ _ _ _ (for_page_in_emits b doc "" []) El) as (evs & -> & F).
  apply for_page_in_inv in El. destruct El as (raws & new & Ht & Hi & -> & ->).
  exists doc, raws, new, evs. repeat split; try assumption.
  rewrite <- H. now rewrite <- !app_assoc.
Qed.

(** X6: [process] returns only for a source that exists, is within the size
    ceiling and opens as a document within the page ceiling, all of whose
    pages rendered; the images returned are these renderings, one per page in
    page order, so that there are as many images as pages, also when the text
    came from OCR. *)
Theorem process_returns_one_image_per_page (cfg : AppConfig) (b : Backend)
    (path : string) tr text images tr' :
  process cfg b path tr = (Return (text, images), tr') ->
  path_exists b (Path path) = Return true /\
  (exists size, st_size b (Path path) = Return size /\ (size <= MAX_FILE_SIZE cfg)%Z) /\
  exists doc,
    pymupdf_open b (Path path) = Return doc /\
    (Z.of_nat (length doc) <= MAX_FILE_PAGE cfg)%Z /\
    Forall2 (renders b) doc images /\
    length images = length doc.
Proof.
  intros H. apply process_returns_inv in H.
  destruct H as (Hex & Hsz & doc & raws & imgs & evs & Hop & Hlen & Ht & Hi & _ & H).
  split; [exact Hex|]. split; [exact Hsz|]. exists doc.
  assert (images = imgs) as ->.
  { unfold after_pages in H.
    destruct (String.eqb (strip (native_text raws)) "");
      [|destruct (validate b (native_text raws)) as [[|]|e]];
      try destruct (ocr b (Path path)); inversion H; reflexivity. }
  repeat split; try assumption.
  symmetry. eapply Forall2_length; eauto.
Qed.

Lemma process_returns_one_image_per_page_witness :
  path_exists (backend_of (pages 3) readable (Return "")) "three.pdf" = Return true /\
  (exists size,
      st_size (backend_of (pages 3) readable (Return "")) "three.pdf" = Return size
      /\ (size <= MAX_FILE_SIZE default_config)%Z) /\
  exists doc,
    pymupdf_open (backend_of (pages 3) readable (Return "")) "three.pdf" = Return doc /\
    (Z.of_nat (length doc) <= MAX_FILE_PAGE default_config)%Z /\
    Forall2 (renders (backend_of (pages 3) readable (Return ""))) doc
            [white_image; white_image; white_image] /\
    length [white_image; white_image; white_image] = length doc.
Proof.
  apply (process_returns_one_image_per_page default_config
           (backend_of (pages 3) readable (Return "")) "three.pdf" []
           (native_text ["page"; "page"; "page"]) [white_image; white_image; white_image]
           (snd (process default_config (backend_of (pages 3) readable (Return ""))
                   "three.pdf" []))).
  vm_compute. reflexivity.
Defined.

(** X7: the text [process] returns is of one of two kinds.  Either it is the
    native text, the concatenation of the pages' contributions, which is then
    not blank and was judged readable by the classifier; or it is the text OCR
    gave, after the native text was found blank or judged unreadable.  A blank
    native text, or one the classifier rejected, is never returned. *)
Theorem process_returned_text (cfg : AppConfig) (b : Backend)
    (path : string) tr text images tr' :
  process cfg b path tr = (Return (text, images), tr') ->
  exists doc raws,
    pymupdf_open b (Path path) = Return doc /\
    Forall2 (fun p raw => get_text p = Return raw) doc raws /\
    ((text = native_text raws /\ strip text <> "" /\ validate b text = Return true)
     \/
     (ocr b (Path path) = Return text /\
      (strip (native_text raws) = "" \/ validate b (native_text raws) = Return false))).
Proof.
  intros H. apply process_returns_inv in H.
  destruct H as (Hex & Hsz & doc & raws & imgs & evs & Hop & Hlen & Ht & Hi & _ & H).
  exists doc, raws. split; [exact Hop|]. split; [exact Ht|].
  unfold after_pages in H.
  destruct (String.eqb (strip (native_text raws)) "") eqn:Hempty.
  - apply String.eqb_eq in Hempty.
    destruct (ocr b (Path path)) as [t|e]; inversion H; subst. right. split; [reflexivity | now left].
  - apply String.eqb_neq in Hempty.
    destruct (validate b (native_text raws)) as [[|]|e] eqn:Hv.
    + inversion H; subst. left. now repeat split.
    + destruct (ocr b (Path path)) as [t|e]; inversion H; subst.
      right. split; [reflexivity | now right].
    + discriminate.
Qed.

Lemma process_returned_text_witness :
  exists doc raws,
    pymupdf_open (backend_of [page_of 0 "#### ~~~~"] unreadable (Return "Invoice 42"))
      "scan.pdf" = Return doc /\
    Forall2 (fun p raw => get_text p = Return raw) doc raws /\
    (("Invoice 42" = native_text raws /\ strip "Invoice 42" <> "" /\
      validate (backend_of [page_of 0 "#### ~~~~"] unreadable (Return "Invoice 42"))
        "Invoice 42" = Return true)
     \/
     (ocr (backend_of [page_of 0 "#### ~~~~"] unreadable (Return "Invoice 42")) "scan.pdf"
      = Return "Invoice 42" /\
      (strip (native_text raws) = "" \/
       validate (backend_of [page_of 0 "#### ~~~~"] unreadable (Return "Invoice 42"))
         (native_text raws) = Return false))).
Proof.
  apply (process_returned_text default_config
           (backend_of [page_of 0 "#### ~~~~"] unreadable (Return "Invoice 42"))
           "scan.pdf" [] "Invoice 42" [white_image]
           (snd (process default_config
                   (backend_of [page_of 0 "#### ~~~~"] unreadable (Return "Invoice 42"))
                   "scan.pdf" []))).
  vm_compute. reflexivity.
Defined.

End ProcessReturns.

(** ** How often the collaborators are called *)

Section ProcessCalls.
Import PyStr DocumentProcessor Fixtures MoreFixtures.
Local Arguments String.append : simpl never.

Lemma all_space_strip (raw : string) : all_space (strip raw) = all_space raw.
Proof.
  destruct (all_space raw) eqn:Hs.
  - apply strip_empty_iff in Hs. now rewrite Hs.
  - unfold strip. pose proof (lstrip_all_space raw) as Hl. rewrite Hs in Hl.
    destruct (lstrip raw) as [|c r] eqn:E; [discriminate|].
    pose proof (lstrip_first _ _ _ E) as Hc.
    simpl. rewrite Hc. simpl. now rewrite Hc.
Qed.

Lemma all_space_native_text (raws : list string) :
  all_space (native_text raws) = forallb all_space raws.
Proof.
  unfold native_text. induction raws as [|raw raws IH]; [reflexivity|].
  simpl. rewrite !all_space_app, all_space_strip, IH. simpl.
  now rewrite andb_true_r.
Qed.

(** The native text is blank exactly when the text of every page is. *)
Lemma native_text_blank_iff (raws : list string) :
  strip (native_text raws) = "" <-> Forall (fun raw => all_space raw = true) raws.
Proof.
  rewrite strip_empty_iff, all_space_native_text, forallb_forall, Forall_forall.
  reflexivity.
Qed.

Lemma page_events_no_call (p : event -> bool) (evs : list event) :
  (forall ev, page_event ev -> p ev = false) -> Forall page_event evs -> count p evs = 0.
Proof. apply count_none. Qed.

Lemma for_page_in_events (b : Backend) (doc : list Page) text images :
  Forall page_event (events (for_page_in b doc text images)).
Proof.
  destruct (for_page_in_emits b doc text images []) as (evs & E & F).
  unfold events. now rewrite E.
Qed.

(** X8: in every run of [process], whatever the collaborators answer,
    [pymupdf.open] is called at most once, the readability classifier at most
    once and OCR at most once. *)
Theorem process_calls_at_most_once (cfg : AppConfig) (b : Backend) (path : string) tr :
  exists r evs,
    process cfg b path tr = (r, tr ++ evs) /\
    count (fun ev => match ev with CallOpen _ => true | _ => false end) evs <= 1 /\
    count is_CallValidContent evs <= 1 /\
    count is_CallOcr evs <= 1.
Proof.
  rewrite process_run.
  destruct (path_exists b (Path path)) as [[|]|e0].
  2,3: eexists _, []; rewrite app_nil_r; split; [reflexivity|];
       repeat split; apply Nat.le_0_l.
  destruct (st_size b (Path path)) as [size|e0].
  2: eexists _, []; rewrite app_nil_r; split; [reflexivity|];
     repeat split; apply Nat.le_0_l.
  destruct (size >? MAX_FILE_SIZE cfg)%Z.
  { eexists _, []. rewrite app_nil_r. split; [reflexivity|].
    repeat split; apply Nat.le_0_l. }
  destruct (pymupdf_open b (Path path)) as [doc|e].
  2:{ eexists _, [CallOpen (Path path)].
      split; [reflexivity|]. repeat split; simpl; auto. }
  destruct (Z.of_nat (length doc) >? MAX_FILE_PAGE cfg)%Z.
  { eexists _, [CallOpen (Path path); Log ERROR _].
    split; [reflexivity|]. repeat split; simpl; auto. }
  rewrite (for_page_in_framed b doc "" []).
  pose proof (for_page_in_events b doc "" []) as F.
  set (loop := events (for_page_in b doc "" [])) in *.
  assert (C1 : count (fun ev => match ev with CallOpen _ => true | _ => false end) loop = 0).
  { apply page_events_no_call; [|exact F].
    intros [] H; simpl in *; (reflexivity || contradiction). }
  assert (C2 : count is_CallValidContent loop = 0).
  { apply page_events_no_call; [|exact F].
    intros [] H; simpl in *; (reflexivity || contradiction). }
  assert (C3 : count is_CallOcr loop = 0).
  { apply page_events_no_call; [|exact F].
    intros [] H; simpl in *; (reflexivity || contradiction). }
  destruct (outcome (for_page_in b doc "" [])) as [[text images]|e].
  - unfold after_pages.
    destruct (String.eqb (strip text) "");
      [|destruct (validate b text) as [[|]|e]];
      try destruct (ocr b (Path path));
      (eexists _, _; split; [rewrite <- ?app_assoc; reflexivity|];
       rewrite ?count_app, C1, C2, C3; simpl; repeat split; auto).
  - eexists _, _. split; [rewrite <- ?app_assoc; reflexivity|].
    rewrite ?count_app, C1, C2, C3. simpl. repeat split; auto.
Qed.

(** X9: for a document whose pages all extract and render, the readability
    classifier is left uncalled exactly when the text of every page is
    whitespace only. *)
Theorem classifier_skipped_iff_blank (cfg : AppConfig) (b : Backend) (path : string)
    (doc : Document) (raws : list string) (imgs : list Image) :
  path_exists b (Path path) = Return true ->
  (exists size, st_size b (Path path) = Return size /\ (size <= MAX_FILE_SIZE cfg)%Z) ->
  pymupdf_open b (Path path) = Return doc ->
  (Z.of_nat (length doc) <= MAX_FILE_PAGE cfg)%Z ->
  Forall2 (fun p raw => get_text p = Return raw) doc raws ->
  Forall2 (renders b) doc imgs ->
  count is_CallValidContent (events (process cfg b path)) = 0
  <-> Forall (fun raw => all_space raw = true) raws.
Proof.
  intros Hex Hsz Hop Hlen Ht Hi.
  rewrite <- native_text_blank_iff.
  unfold events.
  rewrite (process_from_loop cfg b path doc [] Hex Hsz Hop Hlen).
  rewrite (for_page_in_ok_framed b doc raws imgs "" [] _ Ht Hi).
  change ("" ++ native_text raws)%string with (native_text raws).
  pose proof (for_page_in_events b doc "" []) as F.
  set (loop := events (for_page_in b doc "" [])) in *.
  assert (C : count is_CallValidContent loop = 0).
  { apply page_events_no_call; [|exact F].
    intros [] H; simpl in *; (reflexivity || contradiction). }
  unfold after_pages.
  destruct (String.eqb (strip (native_text raws)) "") eqn:Hempty.
  - apply String.eqb_eq in Hempty.
    split; [intros _; exact Hempty|]. intros _.
    destruct (ocr b (Path path)); simpl snd;
      repeat (rewrite count_app || rewrite count_cons); rewrite C; reflexivity.
  - apply String.eqb_neq in Hempty.
    split; [|intros H; contradiction]. intros H. exfalso.
    destruct (validate b (native_text raws)) as [[|]|e]; try destruct (ocr b (Path path));
      simpl snd in H; repeat (rewrite count_app in H || rewrite count_cons in H);
      rewrite C in H; simpl in H; discriminate.
Qed.

Lemma classifier_skipped_iff_blank_witness :
  count is_CallValidContent
    (events (process default_config
               (backend_of [page_of 0 " "; page_of 1 ""] readable (Return "Scanned"))
               "scan.pdf")) = 0
  <-> Forall (fun raw => all_space raw = true) [" "; ""].
Proof.
  apply (classifier_skipped_iff_blank default_config
           (backend_of [page_of 0 " "; page_of 1 ""] readable (Return "Scanned"))
           "scan.pdf" [page_of 0 " "; page_of 1 ""] [" "; ""] [white_image; white_image]).
  - reflexivity.
  - size_ok.
  - reflexivity.
  - vm_compute. discriminate.
  - repeat constructor.
  - repeat constructor; exists white_pixel; split; reflexivity.
Defined.

End ProcessCalls.

(** ** The analysis pipeline, step by step *)

Section AnalyzerSteps.
Import DocumentAnalyzer.
Local Arguments String.append : simpl never.

Variable lm : LM.

Lemma _analyze_text_run (text : string) tr :
  _analyze_text lm text tr
  = match analyze_text lm text with
    | Return r =>
        (Return r,
         tr ++ [Log INFO [Text "Starting analysis from text modality..."];
                CallAnalyzeText text])
    | Raise e =>
        (Return {| text_quality := "unusable"; text_fields := unknown_prediction |},
         tr ++ [Log INFO [Text "Starting analysis from text modality..."];
                CallAnalyzeText text;
                Log ERROR [Text ("Text analysis failed: " ++ exn_msg e)%string]])
    end.
Proof.
  unfold _analyze_text. run.
  destruct (analyze_text lm text); now rewrite <- !app_assoc.
Qed.

(** The list comprehension over images that all convert. *)
Lemma from_PIL_each_ok (images : list Image) :
  forall ds tr,
    Forall2 (fun img d => from_PIL lm img = Return d) images ds ->
    from_PIL_each lm images tr = (Return ds, tr ++ map CallFromPIL images).
Proof.
  induction images as [|img images IH]; intros ds tr H; inversion H; subst; simpl.
  - unfold ret. now rewrite app_nil_r.
  - run. match goal with Hd : from_PIL lm img = _ |- _ => rewrite Hd end.
    fold (bind (A:=list dspy_Image) (B:=list dspy_Image)).
    match goal with Hr : Forall2 _ images _ |- _ =>
      pose proof (IH _ (tr ++ [CallFromPIL img]) Hr) as E end.
    unfold bind. rewrite E. now rewrite <- app_assoc.
Qed.

(** The list comprehension stops at the first image that does not convert. *)
Lemma from_PIL_each_fail (pre : list Image) (img : Image) (post : list Image) (e : exn) :
  forall ds tr,
    Forall2 (fun img d => from_PIL lm img = Return d) pre ds ->
    from_PIL lm img = Raise e ->
    from_PIL_each lm (pre ++ img :: post) tr
    = (Raise e, tr ++ map CallFromPIL pre ++ [CallFromPIL img]).
Proof.
  induction pre as [|x pre IH]; intros ds tr H He; inversion H; subst; simpl.
  - run. now rewrite He.
  - run. match goal with Hd : from_PIL lm x = _ |- _ => rewrite Hd end.
    match goal with Hr : Forall2 _ pre _ |- _ =>
      pose proof (IH _ (tr ++ [CallFromPIL x]) Hr He) as E end.
    unfold bind, call, ret in E. rewrite E. now rewrite <- app_assoc.
Qed.

Lemma _combine_results_run (r_text : TextPrediction) (r_images : Prediction) tr :
  _combine_results lm r_text r_images tr
  = if String.eqb (text_quality r_text) "unusable"
    then (Return r_images,
          tr ++ [Log INFO [Text "Combining analysis results..."];
                 Log WARNING [Text "Extracted text unsusable, only using visual analysis results."]])
    else
      let results_from_text := PyDict [
        ("text_quality", PyStr (text_quality r_text));
        ("description", PyStr (description r_text));
        ("summary", PyStr (summary r_text));
        ("notable_info", py_strs (notable_info r_text)) ] in
      let results_from_images := analysis_dict r_images in
      match combine lm results_from_text results_from_images with
      | Return c =>
          (Return c,
           tr ++ [Log INFO [Text "Combining analysis results..."];
                  CallCombine results_from_text results_from_images])
      | Raise e =>
          (Return unknown_prediction,
           tr ++ [Log INFO [Text "Combining analysis results..."];
                  CallCombine results_from_text results_from_images;
                  Log ERROR [Text "Combining analysis results failed: {e}"]])
      end.
Proof.
  unfold _combine_results, analysis_dict. run.
  destruct (String.eqb (text_quality r_text) "unusable").
  - now rewrite <- !app_assoc.
  - cbv zeta. destruct (combine lm _ _); now rewrite <- !app_assoc.
Qed.

Lemma _validate_results_run (text : string) (images : list Image) (c : Prediction) tr :
  _validate_results lm text images c tr
  = match validate lm text images (analysis_dict c) with
    | Return v => (Return v, tr ++ [CallValidate text images (analysis_dict c)])
    | Raise e =>
        (Return no_validation,
         tr ++ [CallValidate text images (analysis_dict c);
                Log WARNING [Text "Results validation failed: {e}"]])
    end.
Proof.
  unfold _validate_results, analysis_dict, no_validation. run.
  destruct (validate lm text images _); [reflexivity | now rewrite <- !app_assoc].
Qed.

End AnalyzerSteps.

(** ** The image stage *)

Section ImageStage.
Import DocumentAnalyzer AnalyzerFixtures MoreAnalyzerFixtures.
Local Arguments String.append : simpl never.

(** Either every image converts, or there is a first one that does not. *)
Lemma from_PIL_cases (lm : LM) (images : list Image) :
  (exists ds, Forall2 (fun img d => from_PIL lm img = Return d) images ds)
  \/ (exists pre img post ds e,
        images = pre ++ img :: post /\
        Forall2 (fun img d => from_PIL lm img = Return d) pre ds /\
        from_PIL lm img = Raise e).
Proof.
  induction images as [|img images IH].
  - left. exists []. constructor.
  - destruct (from_PIL lm img) as [d|e] eqn:E.
    + destruct IH as [(ds & H) | (pre & x & post & ds & e & -> & H & He)].
      * left. exists (d :: ds). now constructor.
      * right. exists (img :: pre), x, post, (d :: ds), e.
        split; [reflexivity|]. split; [now constructor | exact He].
    + right. exists [], img, images, [], e. split; [reflexivity|]. split; [constructor | exact E].
Qed.

(** X10: when the conversion [dspy.Image.from_PIL] fails on an image, after
    the images before it converted, the image stage returns the placeholder
    (description "unknown", summary "Text analysis unavailable", no notable
    facts); the images after it are not converted and the image predictor is
    not called. *)
Theorem image_conversion_failure (lm : LM) (pre : list Image) (img : Image)
    (post : list Image) (ds : list dspy_Image) (e : exn) tr :
  Forall2 (fun img d => from_PIL lm img = Return d) pre ds ->
  from_PIL lm img = Raise e ->
  _analyze_images lm (pre ++ img :: post) tr
  = (Return unknown_prediction,
     tr ++ Log INFO [Text "Starting analysis from image modality..."]
        :: map CallFromPIL pre
        ++ [CallFromPIL img;
            Log ERROR [Text ("Image analysis failed: " ++ exn_msg e)%string]]).
Proof.
  intros H He. unfold _analyze_images, try_except.
  unfold bind at 1, log at 1, emit at 1. unfold bind at 1.
  rewrite (from_PIL_each_fail lm pre img post e ds _ H He).
  unfold bind, log, emit, ret. now rewrite <- !app_assoc.
Qed.

Lemma image_conversion_failure_witness :
  _analyze_images (lm_without_conversion (Return invoice))
    ([] ++ Fixtures.white_image :: [Fixtures.white_image]) []
  = (Return unknown_prediction,
     [] ++ Log INFO [Text "Starting analysis from image modality..."]
        :: map CallFromPIL []
        ++ [CallFromPIL Fixtures.white_image;
            Log ERROR [Text "Image analysis failed: connection refused"]]).
Proof.
  apply (image_conversion_failure (lm_without_conversion (Return invoice)) []
           Fixtures.white_image [Fixtures.white_image] []
           (Exn (OtherException "RuntimeError") "connection refused") []).
  - constructor.
  - reflexivity.
Defined.

(** X11: when every image converts, the image stage converts them in order
    and calls the image predictor once, with the converted images in the
    order of the pages (with the empty list when there is no image); the
    stage returns the predictor's answer as it is, or the placeholder when the
    predictor fails. *)
Theorem image_stage_runs_predictor (lm : LM) (images : list Image)
    (ds : list dspy_Image) tr :
  Forall2 (fun img d => from_PIL lm img = Return d) images ds ->
  _analyze_images lm images tr
  = match analyze_images lm ds with
    | Return r =>
        (Return r,
         tr ++ Log INFO [Text "Starting analysis from image modality..."]
            :: map CallFromPIL images ++ [CallAnalyzeImages ds])
    | Raise e =>
        (Return unknown_prediction,
         tr ++ Log INFO [Text "Starting analysis from image modality..."]
            :: map CallFromPIL images
            ++ [CallAnalyzeImages ds;
                Log ERROR [Text ("Image analysis failed: " ++ exn_msg e)%string]])
    end.
Proof.
  intros H. unfold _analyze_images, try_except.
  unfold bind at 1, log at 1, emit at 1. unfold bind at 1.
  rewrite (from_PIL_each_ok lm images ds _ H).
  unfold bind, call, log, emit, ret.
  destruct (analyze_images lm ds); now rewrite <- !app_assoc.
Qed.

Lemma image_stage_runs_predictor_witness :
  _analyze_images (lm_of down (Return invoice) down down)
    [Fixtures.white_image; Fixtures.white_image] []
  = (Return invoice,
     [] ++ Log INFO [Text "Starting analysis from image modality..."]
        :: map CallFromPIL [Fixtures.white_image; Fixtures.white_image]
        ++ [CallAnalyzeImages [encoded; encoded]]).
Proof.
  apply (image_stage_runs_predictor (lm_of down (Return invoice) down down)
           [Fixtures.white_image; Fixtures.white_image] [encoded; encoded] []).
  repeat constructor.
Defined.

Lemma filter_predictor_FromPIL (images : list Image) :
  filter is_predictor_call (map CallFromPIL images) = [].
Proof. induction images; simpl; auto. Qed.

(** The predictor calls of the image stage: none, or one call of the image
    predictor. *)
Lemma _analyze_images_calls (lm : LM) (images : list Image) tr :
  exists r evs,
    _analyze_images lm images tr = (Return r, tr ++ evs) /\
    (filter is_predictor_call evs = []
     \/ exists ds, filter is_predictor_call evs = [CallAnalyzeImages ds]).
Proof.
  destruct (from_PIL_cases lm images)
    as [(ds & H) | (pre & img & post & ds & e & -> & H & He)].
  - unfold _analyze_images, try_except.
    unfold bind at 1, log at 1, emit at 1. unfold bind at 1.
    rewrite (from_PIL_each_ok lm images ds _ H).
    unfold bind, call, log, emit, ret.
    destruct (analyze_images lm ds); eexists _, _;
      (split; [rewrite <- !app_assoc; reflexivity|]);
      right; exists ds; simpl;
      rewrite filter_app, filter_predictor_FromPIL; reflexivity.
  - unfold _analyze_images, try_except.
    unfold bind at 1, log at 1, emit at 1. unfold bind at 1.
    rewrite (from_PIL_each_fail lm pre img post e ds _ H He).
    unfold bind, log, emit, ret.
    eexists _, _. split; [rewrite <- !app_assoc; reflexivity|]. left. simpl.
    now rewrite filter_app, filter_predictor_FromPIL.
Qed.

End ImageStage.

(** ** Whole runs of the pipeline *)

Section ForwardRuns.
Import DocumentAnalyzer AnalyzerFixtures MoreAnalyzerFixtures.
Local Arguments String.append : simpl never.

Ltac forward_step :=
  unfold bind at 1;
  first [ rewrite _analyze_text_run | rewrite _combine_results_run
        | rewrite _validate_results_run ].

Ltac finish :=
  split; [rewrite <- !app_assoc; reflexivity|];
  simpl; rewrite !filter_app;
  match goal with H : filter is_predictor_call _ = _ |- _ => rewrite H end;
  simpl; split; [reflexivity|]; eauto 10.

(** X12: the predictor calls of any run of [forward] are, in this order: one
    call of the text predictor on the text given; then at most one call of the
    image predictor and at most one call of the fusion predictor; and last one
    call of the validation predictor, on the original text and images and the
    three analysis fields that [forward] returns.  No predictor is called
    twice, and there are at most four calls. *)
Theorem forward_predictor_calls (cfg : AppConfig) (lm : LM) (text : string)
    (images : list Image) tr :
  exists c v evs mid,
    forward cfg lm text images tr = (Return (_format_output c v), tr ++ evs) /\
    filter is_predictor_call evs
    = CallAnalyzeText text :: mid ++ [CallValidate text images (analysis_dict c)] /\
    (mid = []
     \/ (exists ds, mid = [CallAnalyzeImages ds])
     \/ (exists d1 d2, mid = [CallCombine d1 d2])
     \/ (exists ds d1 d2, mid = [CallAnalyzeImages ds; CallCombine d1 d2])).
Proof.
  unfold forward. forward_step.
  destruct (analyze_text lm text) as [rt|e1];
    unfold bind at 1;
    match goal with
    | |- context [_analyze_images lm images ?tr0] =>
        destruct (_analyze_images_calls lm images tr0) as (ri & evi & Ei & Hi); rewrite Ei
    end;
    forward_step;
    [destruct (String.eqb (text_quality rt) "unusable");
       [|cbv zeta; destruct (combine lm _ _)]
    | simpl String.eqb; cbv iota];
    forward_step;
    match goal with
    | |- context [validate lm text images ?d] => destruct (validate lm text images d)
    end;
    unfold bind, log, emit, ret;
    match goal with
    | |- context [PrimFloat.ltb ?x ?y] => destruct (PrimFloat.ltb x y)
    end;
    destruct Hi as [Hi | (ds & Hi)];
    eexists _, _, _;
    first
      [ exists []; solve [finish]
      | eexists [CallAnalyzeImages _]; solve [finish]
      | eexists [CallCombine _ _]; solve [finish]
      | eexists [CallAnalyzeImages _; CallCombine _ _]; solve [finish] ].
Qed.

(** X13: for a text result of any tier other than "unusable", the fusion
    predictor is called once, with the dict of the four text fields and the
    dict of the three image fields.  The fused result is its answer; when it
    fails the fused result is the placeholder "unknown", so that neither the
    text result nor the image result survives a failed fusion. *)
Theorem fusion_stage (lm : LM) (r_text : TextPrediction) (r_images : Prediction) tr :
  text_quality r_text <> "unusable" ->
  exists tr',
    _combine_results lm r_text r_images tr
    = (Return match combine lm
                      (PyDict [("text_quality", PyStr (text_quality r_text));
                               ("description", PyStr (description r_text));
                               ("summary", PyStr (summary r_text));
                               ("notable_info", py_strs (notable_info r_text))])
                      (PyDict [("description", PyStr (description r_images));
                               ("summary", PyStr (summary r_images));
                               ("notable_info", py_strs (notable_info r_images))]) with
              | Return c => c
              | Raise _ => unknown_prediction
              end,
       tr') /\
    exists evs, tr' = tr ++ evs /\ count is_CallCombine evs = 1.
Proof.
  intros Hq. rewrite _combine_results_run.
  apply String.eqb_neq in Hq. rewrite Hq. cbv zeta. unfold analysis_dict.
  destruct (combine lm _ _); eexists; (split; [reflexivity|]);
    eexists; (split; [reflexivity|]); reflexivity.
Qed.

Lemma fusion_stage_witness :
  exists tr',
    _combine_results (lm_of (Return letter) (Return invoice) down down) letter invoice []
    = (Return unknown_prediction, tr') /\
    exists evs, tr' = [] ++ evs /\ count is_CallCombine evs = 1.
Proof.
  apply (fusion_stage (lm_of (Return letter) (Return invoice) down down) letter invoice []).
  discriminate.
Defined.

Lemma _analyze_images_no_fusion (lm : LM) (images : list Image) :
  emits_only (fun ev => is_CallCombine ev = false /\ is_CallValidate ev = false)
    (_analyze_images lm images).
Proof.
  unfold _analyze_images. apply emits_only_try.
  - apply emits_only_bind; [now apply emits_only_log|]. intros _.
    apply emits_only_bind.
    + induction images as [|img images IH]; simpl.
      * apply emits_only_ret.
      * apply emits_only_bind; [now apply emits_only_call|]. intros d.
        apply emits_only_bind; [exact IH|]. intros ds. apply emits_only_ret.
    + intros ds. apply emits_only_bind; [now apply emits_only_call|].
      intros r. apply emits_only_ret.
  - intros e. apply emits_only_bind; [now apply emits_only_log|].
    intros _. apply emits_only_ret.
Qed.

Lemma _analyze_images_framed (lm : LM) (images : list Image) :
  framed (_analyze_images lm images).
Proof.
  unfold _analyze_images. apply framed_try.
  - apply framed_bind; [apply framed_log|]. intros _.
    apply framed_bind.
    + induction images as [|img images IH]; simpl.
      * apply framed_ret.
      * apply framed_bind; [apply framed_call|]. intros d.
        apply framed_bind; [exact IH|]. intros ds. apply framed_ret.
    + intros ds. apply framed_bind; [apply framed_call|].
      intros r. apply framed_ret.
  - intros e. apply framed_bind; [apply framed_log|].
    intros _. apply framed_ret.
Qed.

Lemma _analyze_images_run (lm : LM) (images : list Image) tr :
  exists r evs,
    _analyze_images lm images tr = (Return r, tr ++ evs) /\
    count is_CallCombine evs = 0 /\
    ((forall ds, exists e, analyze_images lm ds = Raise e) -> r = unknown_prediction) /\
    outcome (_analyze_images lm images) = Return r.
Proof.
  destruct (_analyze_images_returns lm images tr) as (r & tr' & E).
  destruct (emits_only_run _ _ _ _ _ (_analyze_images_no_fusion lm images) E) as (evs & -> & F).
  exists r, evs. split; [exact E|]. split; [|split].
  - apply (count_none _ _ _ (fun ev H => proj1 H) F).
  - intros Hfail. revert E. unfold _analyze_images, try_except.
    unfold bind at 1, log at 1, emit at 1. unfold bind at 1.
    destruct (from_PIL_each lm images _) as [[ds|e] tr1].
    + unfold bind at 1, call at 1. destruct (Hfail ds) as (e & ->).
      unfold bind, log, emit, ret. now inversion 1.
    + unfold bind, log, emit, ret. now inversion 1.
  - rewrite (_analyze_images_framed lm images tr) in E. now inversion E.
Qed.

Lemma validation_failure_trace (tr a evi b : list event) (cv w1 w2 : event) :
  ((((tr ++ a) ++ evi) ++ b) ++ [cv; w1]) ++ [w2]
  = tr ++ (a ++ evi ++ b ++ [cv]) ++ [w1; w2].
Proof. repeat rewrite <- app_assoc. reflexivity. Qed.

(** X14: when the validation predictor fails, [forward] still returns the
    fused analysis, with the score 0.0 and no notes; and whenever the threshold
    is above zero, as the 0.6 of [config.py] is, the run ends with two WARNING
    records: the failed validation (logged with the literal text "{e}") and
    the low confidence. *)
Theorem validation_failure_scores_zero (cfg : AppConfig) (lm : LM) (text : string)
    (images : list Image) tr :
  (forall t i d, exists e, validate lm t i d = Raise e) ->
  PrimFloat.ltb 0 (MIN_CONFIDENCE cfg) = true ->
  exists c evs,
    forward cfg lm text images tr
    = (Return (PyDict [("description", PyStr (description c));
                       ("summary", PyStr (summary c));
                       ("notable_info", py_strs (notable_info c));
                       ("confidence", PyDict [("score", PyFloat 0); ("notes", PyList [])])]),
       tr ++ evs
          ++ [Log WARNING [Text "Results validation failed: {e}"];
              Log WARNING [Text "Confidence score "; Num 0;
                           Text " lower than threshhold "; Num (MIN_CONFIDENCE cfg)]]).
Proof.
  intros Hfail Hmin. unfold forward. forward_step.
  destruct (analyze_text lm text) as [rt|e1];
    unfold bind at 1;
    match goal with
    | |- context [_analyze_images lm images ?tr0] =>
        destruct (_analyze_images_run lm images tr0) as (ri & evi & Ei & _); rewrite Ei
    end;
    forward_step;
    [destruct (String.eqb (text_quality rt) "unusable");
       [|cbv zeta; destruct (combine lm _ _)]
    | simpl String.eqb; cbv iota];
    forward_step;
    match goal with
    | |- context [validate lm text images ?d] => destruct (Hfail text images d) as (? & ->)
    end;
    unfold bind, log, emit, ret, no_validation; cbn [confidence_score]; rewrite Hmin;
    eexists _, _; rewrite validation_failure_trace; reflexivity.
Qed.

Lemma validation_failure_scores_zero_witness :
  exists c evs,
    forward default_config (lm_of (Return letter) (Return invoice) (Return fused) down)
      "Dear Sir" [Fixtures.white_image] []
    = (Return (PyDict [("description", PyStr (description c));
                       ("summary", PyStr (summary c));
                       ("notable_info", py_strs (notable_info c));
                       ("confidence", PyDict [("score", PyFloat 0); ("notes", PyList [])])]),
       [] ++ evs
          ++ [Log WARNING [Text "Results validation failed: {e}"];
              Log WARNING [Text "Confidence score "; Num 0;
                           Text " lower than threshhold ";
                           Num (MIN_CONFIDENCE default_config)]]).
Proof.
  apply (validation_failure_scores_zero default_config
           (lm_of (Return letter) (Return invoice) (Return fused) down)
           "Dear Sir" [Fixtures.white_image] []).
  - intros t i d. eexists. reflexivity.
  - reflexivity.
Defined.

(** X15: when the text predictor, the image predictor and the validation
    predictor all fail, [forward] returns one fixed dict, whatever the text,
    the images and the exceptions: description "unknown", summary "Text
    analysis unavailable", no notable facts, score 0.0 and no notes.  The
    fusion predictor plays no part: it is not called. *)
Theorem forward_all_down (cfg : AppConfig) (lm : LM) (text : string)
    (images : list Image) tr :
  (forall t, exists e, analyze_text lm t = Raise e) ->
  (forall ds, exists e, analyze_images lm ds = Raise e) ->
  (forall t i d, exists e, validate lm t i d = Raise e) ->
  exists evs,
    forward cfg lm text images tr
    = (Return (PyDict [("description", PyStr "unknown");
                       ("summary", PyStr "Text analysis unavailable");
                       ("notable_info", PyList []);
                       ("confidence", PyDict [("score", PyFloat 0); ("notes", PyList [])])]),
       tr ++ evs)
    /\ count is_CallCombine evs = 0.
Proof.
  intros Ht Hi Hv. unfold forward. forward_step.
  destruct (Ht text) as (e1 & ->).
  unfold bind at 1.
  match goal with
  | |- context [_analyze_images lm images ?tr0] =>
      destruct (_analyze_images_run lm images tr0) as (ri & evi & Ei & Ci & Hu & _);
      rewrite Ei
  end.
  rewrite (Hu Hi). forward_step. simpl String.eqb. cbv iota. forward_step.
  match goal with
  | |- context [validate lm text images ?d] => destruct (Hv text images d) as (? & ->)
  end.
  unfold bind, log, emit, ret, no_validation. cbn [confidence_score].
  destruct (PrimFloat.ltb 0 (MIN_CONFIDENCE cfg));
    (eexists; split; [rewrite <- !app_assoc; reflexivity|];
     repeat (rewrite count_app || rewrite count_cons); rewrite Ci; reflexivity).
Qed.

Lemma forward_all_down_witness :
  exists evs,
    forward default_config (lm_of down down (Return fused) down) "Dear Sir"
      [Fixtures.white_image] []
    = (Return (PyDict [("description", PyStr "unknown");
                       ("summary", PyStr "Text analysis unavailable");
                       ("notable_info", PyList []);
                       ("confidence", PyDict [("score", PyFloat 0); ("notes", PyList [])])]),
       [] ++ evs)
    /\ count is_CallCombine evs = 0.
Proof.
  apply (forward_all_down default_config (lm_of down down (Return fused) down) "Dear Sir"
           [Fixtures.white_image] []).
  - intros t. eexists. reflexivity.
  - intros ds. eexists. reflexivity.
  - intros t i d. eexists. reflexivity.
Defined.

(** X16: in a whole run where the text stage ends unusable, the description,
    summary and notable facts of the dict returned are those of the image
    stage's result, and the run holds no call of the fusion predictor. *)
Theorem forward_unusable_text (cfg : AppConfig) (lm : LM) (text : string)
    (images : list Image) tr :
  text_stage_unusable lm text ->
  exists r_images out evs,
    outcome (_analyze_images lm images) = Return r_images /\
    forward cfg lm text images tr = (Return out, tr ++ evs) /\
    dict_get "description" out = Some (PyStr (description r_images)) /\
    dict_get "summary" out = Some (PyStr (summary r_images)) /\
    dict_get "notable_info" out = Some (py_strs (notable_info r_images)) /\
    count is_CallCombine evs = 0.
Proof.
  unfold text_stage_unusable. intros Hu. unfold forward. forward_step.
  destruct (analyze_text lm text) as [rt|e1];
    unfold bind at 1;
    match goal with
    | |- context [_analyze_images lm images ?tr0] =>
        destruct (_analyze_images_run lm images tr0) as (ri & evi & Ei & Ci & _ & Ho);
        rewrite Ei
    end;
    forward_step;
    [rewrite Hu | ]; simpl String.eqb; cbv iota;
    forward_step;
    match goal with
    | |- context [validate lm text images ?d] => destruct (validate lm text images d)
    end;
    unfold bind, log, emit, ret;
    match goal with
    | |- context [PrimFloat.ltb ?x ?y] => destruct (PrimFloat.ltb x y)
    end;
    (exists ri; eexists _, _; split; [exact Ho|];
     split; [rewrite <- !app_assoc; reflexivity|];
     repeat split;
     repeat (rewrite count_app || rewrite count_cons); rewrite Ci; reflexivity).
Qed.

Lemma forward_unusable_text_witness :
  exists r_images out evs,
    outcome (_analyze_images (lm_of down (Return invoice) (Return fused) down)
               [Fixtures.white_image]) = Return r_images /\
    forward default_config (lm_of down (Return invoice) (Return fused) down) "garbled"
      [Fixtures.white_image] [] = (Return out, [] ++ evs) /\
    dict_get "description" out = Some (PyStr (description r_images)) /\
    dict_get "summary" out = Some (PyStr (summary r_images)) /\
    dict_get "notable_info" out = Some (py_strs (notable_info r_images)) /\
    count is_CallCombine evs = 0.
Proof.
  exact (forward_unusable_text default_config
           (lm_of down (Return invoice) (Return fused) down) "garbled"
           [Fixtures.white_image] [] I).
Defined.

(** X17: when all four predictors answer and the text tier is not
    "unusable", the dict [forward] returns carries the three fields of the
    fusion's answer (not those of the text or of the image result) and the
    score and notes of the validation as they are: the score is not clamped to
    the unit interval.  The trace is that of the four stages in order, with
    the low-confidence record last when the score is below the threshold. *)
Theorem forward_all_up (cfg : AppConfig) (lm : LM) (text : string)
    (images : list Image) (ds : list dspy_Image) (r_text : TextPrediction)
    (r_images c : Prediction) (v : Validation) tr :
  analyze_text lm text = Return r_text ->
  text_quality r_text <> "unusable" ->
  Forall2 (fun img d => from_PIL lm img = Return d) images ds ->
  analyze_images lm ds = Return r_images ->
  combine lm
    (PyDict [("text_quality", PyStr (text_quality r_text));
             ("description", PyStr (description r_text));
             ("summary", PyStr (summary r_text));
             ("notable_info", py_strs (notable_info r_text))])
    (analysis_dict r_images) = Return c ->
  validate lm text images (analysis_dict c) = Return v ->
  forward cfg lm text images tr
  = (Return (PyDict [("description", PyStr (description c));
                     ("summary", PyStr (summary c));
                     ("notable_info", py_strs (notable_info c));
                     ("confidence",
                      PyDict [("score", PyFloat (confidence_score v));
                              ("notes", py_strs (validation_notes v))])]),
     tr ++ [Log INFO [Text "Starting analysis from text modality..."];
            CallAnalyzeText text;
            Log INFO [Text "Starting analysis from image modality..."]]
        ++ map CallFromPIL images
        ++ [CallAnalyzeImages ds;
            Log INFO [Text "Combining analysis results..."];
            CallCombine
              (PyDict [("text_quality", PyStr (text_quality r_text));
                       ("description", PyStr (description r_text));
                       ("summary", PyStr (summary r_text));
                       ("notable_info", py_strs (notable_info r_text))])
              (analysis_dict r_images);
            CallValidate text images (analysis_dict c)]
        ++ low_confidence_warning cfg (confidence_score v)).
Proof.
  intros Ht Hq Hd Hi Hc Hv. unfold forward. forward_step. rewrite Ht.
  unfold bind at 1. unfold _analyze_images, try_except.
  unfold bind at 1, log at 1, emit at 1. unfold bind at 1.
  rewrite (from_PIL_each_ok lm images ds _ Hd).
  unfold bind at 1, call at 1. rewrite Hi. unfold ret at 1.
  forward_step. apply String.eqb_neq in Hq. rewrite Hq. cbv zeta. rewrite Hc.
  forward_step. rewrite Hv.
  unfold bind, log, emit, ret, low_confidence_warning, _format_output.
  destruct (PrimFloat.ltb (confidence_score v) (MIN_CONFIDENCE cfg));
    rewrite <- ?app_assoc; simpl; rewrite <- ?app_assoc; simpl;
    rewrite ?app_nil_r; reflexivity.
Qed.

Lemma forward_all_up_witness :
  forward default_config
    (lm_of (Return letter) (Return invoice) (Return fused) (Return overconfident))
    "Dear Sir" [Fixtures.white_image] []
  = (Return (PyDict [("description", PyStr "An invoice with a cover letter.");
                     ("summary", PyStr "Invoice 42, sent with a short letter.");
                     ("notable_info", PyList [PyStr "Number: 42"]);
                     ("confidence",
                      PyDict [("score", PyFloat 1.5); ("notes", PyList [PyStr "none"])])]),
     [] ++ [Log INFO [Text "Starting analysis from text modality..."];
            CallAnalyzeText "Dear Sir";
            Log INFO [Text "Starting analysis from image modality..."]]
        ++ map CallFromPIL [Fixtures.white_image]
        ++ [CallAnalyzeImages [encoded];
            Log INFO [Text "Combining analysis results..."];
            CallCombine
              (PyDict [("text_quality", PyStr "good");
                       ("description", PyStr "A letter.");
                       ("summary", PyStr "A short letter.");
                       ("notable_info", PyList [])])
              (analysis_dict invoice);
            CallValidate "Dear Sir" [Fixtures.white_image] (analysis_dict fused)]
        ++ low_confidence_warning default_config 1.5).
Proof.
  apply (forward_all_up default_config
           (lm_of (Return letter) (Return invoice) (Return fused) (Return overconfident))
           "Dear Sir" [Fixtures.white_image] [encoded] letter invoice fused overconfident []).
  - reflexivity.
  - discriminate.
  - repeat constructor.
  - reflexivity.
  - reflexivity.
  - reflexivity.
Defined.

End ForwardRuns.


(** ** config.py at import *)

Section ConfigImport.
Import Callers CallerFixtures.
Local Arguments String.append : simpl never.
Local Open Scope Z_scope.

Ltac io_run :=
  unfold Callers.bind, Callers.try_except, Callers.call, Callers.throw, Callers.ret,
    Callers.emit, Callers.log.

Lemma getenv_int_run (h : Host) (name : string) (default : Z) tr :
  getenv_int h name default tr
  = (match getenv h name with
     | Some v => match int_of_str h v with Return n => Done n | Raise e => Failed (Exc e) end
     | None => Done default
     end, tr).
Proof. unfold getenv_int. now destruct (getenv h name). Qed.

(** An import that succeeds found an API key that is not empty. *)
Lemma import_config_settings_key (h : Host) tr (cls : Settings) tr' :
  import_config h tr = (Done cls, tr') -> truthy (API_KEY cls) = true.
Proof.
  unfold import_config, AppConfig_validate. intros H.
  unfold Callers.bind at 1 in H. rewrite getenv_int_run in H.
  destruct (match getenv h "MAX_FILE_SIZE_MB" with
            | Some v => match int_of_str h v with
                        | Return n => Done n
                        | Raise e => Failed (Exc e)
                        end
            | None => Done 2
            end) as [mb|f]; [|discriminate].
  unfold Callers.bind at 1 in H. rewrite getenv_int_run in H.
  destruct (match getenv h "MAX_FILE_PAGE" with
            | Some v => match int_of_str h v with
                        | Return n => Done n
                        | Raise e => Failed (Exc e)
                        end
            | None => Done 10
            end) as [pg|f]; [|discriminate].
  revert H. io_run. cbn [API_KEY TEMP_DIR].
  destruct (truthy (getenv h "OPENAI_API_KEY")) eqn:Hkey; simpl; [|discriminate].
  destruct (path_mkdir h (DocumentProcessor.Path (getenv_or h "TEMP_DIR" "temp"))) as [[]|e]; simpl.
  - intros H. inversion H; subst. exact Hkey.
  - destruct e as [[] msg]; simpl; try discriminate.
    destruct (String.eqb name "ValueError"); discriminate.
Qed.

(** X18: the settings of an import that succeeds.  The API key is set and
    not empty; the size ceiling is a whole number of MiB, the number read from
    MAX_FILE_SIZE_MB or 2 when it is unset; the page ceiling is the number
    read from MAX_FILE_PAGE or 10 when it is unset; the threshold is 0.6; and
    the temporary directory was created, which is the only effect. *)
Theorem import_config_settings (h : Host) tr (cls : Settings) tr' :
  import_config h tr = (Done cls, tr') ->
  truthy (API_KEY cls) = true /\
  API_KEY cls = getenv h "OPENAI_API_KEY" /\
  (exists mb,
      MAX_FILE_SIZE (limits cls) = mb * 1048576 /\
      match getenv h "MAX_FILE_SIZE_MB" with
      | Some v => int_of_str h v = Return mb
      | None => mb = 2
      end) /\
  match getenv h "MAX_FILE_PAGE" with
  | Some v => int_of_str h v = Return (MAX_FILE_PAGE (limits cls))
  | None => MAX_FILE_PAGE (limits cls) = 10
  end /\
  MIN_CONFIDENCE (limits cls) = MIN_CONFIDENCE default_config /\
  path_mkdir h (TEMP_DIR cls) = Return tt /\
  tr' = tr ++ [Mkdir (TEMP_DIR cls)].
Proof.
  unfold import_config, AppConfig_validate. intros H.
  unfold Callers.bind at 1 in H. rewrite getenv_int_run in H.
  assert (Hmb : exists mb,
             match getenv h "MAX_FILE_SIZE_MB" with
             | Some v => match int_of_str h v with
                         | Return n => Done n
                         | Raise e => Failed (Exc e)
                         end
             | None => Done 2
             end = Done mb /\
             match getenv h "MAX_FILE_SIZE_MB" with
             | Some v => int_of_str h v = Return mb
             | None => mb = 2
             end).
  { destruct (getenv h "MAX_FILE_SIZE_MB") as [v|].
    - destruct (int_of_str h v) as [mb|e]; [now exists mb | discriminate].
    - now exists 2. }
  destruct Hmb as (mb & Emb & Hmb). rewrite Emb in H.
  unfold Callers.bind at 1 in H. rewrite getenv_int_run in H.
  assert (Hpg : exists pg,
             match getenv h "MAX_FILE_PAGE" with
             | Some v => match int_of_str h v with
                         | Return n => Done n
                         | Raise e => Failed (Exc e)
                         end
             | None => Done 10
             end = Done pg /\
             match getenv h "MAX_FILE_PAGE" with
             | Some v => int_of_str h v = Return pg
             | None => pg = 10
             end).
  { destruct (getenv h "MAX_FILE_PAGE") as [v|].
    - destruct (int_of_str h v) as [pg|e]; [now exists pg | discriminate].
    - now exists 10. }
  destruct Hpg as (pg & Epg & Hpg). rewrite Epg in H.
  revert H. io_run. cbn [API_KEY TEMP_DIR].
  destruct (truthy (getenv h "OPENAI_API_KEY")) eqn:Hkey; simpl; [|discriminate].
  destruct (path_mkdir h (DocumentProcessor.Path (getenv_or h "TEMP_DIR" "temp"))) as [[]|e] eqn:Hmk; simpl.
  2:{ destruct e as [[] msg]; simpl; try discriminate.
      destruct (String.eqb name "ValueError"); discriminate. }
  intros H. inversion H; subst. cbn.
  split; [exact Hkey|]. split; [reflexivity|]. split.
  { exists mb. split; [lia | exact Hmb]. }
  split.
  { destruct (getenv h "MAX_FILE_PAGE"); [exact Hpg | now subst]. }
  split; [reflexivity|]. split; [exact Hmk | reflexivity].
Qed.

Lemma import_config_settings_witness :
  truthy (Some "sk-test") = true /\
  Some "sk-test" = getenv (host_of [("OPENAI_API_KEY", "sk-test"); ("MAX_FILE_SIZE_MB", "5")])
                     "OPENAI_API_KEY" /\
  (exists mb,
      5242880 = mb * 1048576 /\
      match getenv (host_of [("OPENAI_API_KEY", "sk-test"); ("MAX_FILE_SIZE_MB", "5")])
              "MAX_FILE_SIZE_MB" with
      | Some v => int_examples v = Return mb
      | None => mb = 2
      end) /\
  match getenv (host_of [("OPENAI_API_KEY", "sk-test"); ("MAX_FILE_SIZE_MB", "5")])
          "MAX_FILE_PAGE" with
  | Some v => int_examples v = Return 10
  | None => 10 = 10
  end /\
  MIN_CONFIDENCE default_config = MIN_CONFIDENCE default_config /\
  Return tt = Return tt /\
  [Mkdir "temp"] = [] ++ [Mkdir "temp"].
Proof.
  apply (import_config_settings
           (host_of [("OPENAI_API_KEY", "sk-test"); ("MAX_FILE_SIZE_MB", "5")]) []
           {| API_KEY := Some "sk-test";
              MODEL_NAME := "openai/gpt-4o-mini";
              TEMP_DIR := "temp";
              limits := {| MAX_FILE_SIZE := 5242880; MAX_FILE_PAGE := 10;
                           MIN_CONFIDENCE := MIN_CONFIDENCE default_config |};
              LOG_LEVEL := "INFO";
              LOG_FILE := "app.log" |}
           [Mkdir "temp"]).
  vm_compute. reflexivity.
Defined.

(** X19: with OPENAI_API_KEY unset or empty, and ceilings that are unset or
    that [int] accepts, the import fails with RuntimeError "Invalid
    configuration: OPENAI_API_KEY environment variable must be set" (the
    ValueError of [validate], wrapped), and the temporary directory is not
    created. *)
Theorem import_config_without_key (h : Host) tr :
  truthy (getenv h "OPENAI_API_KEY") = false ->
  (forall v, getenv h "MAX_FILE_SIZE_MB" = Some v -> exists n, int_of_str h v = Return n) ->
  (forall v, getenv h "MAX_FILE_PAGE" = Some v -> exists n, int_of_str h v = Return n) ->
  import_config h tr
  = (Failed (Exc (RuntimeError
                    "Invalid configuration: OPENAI_API_KEY environment variable must be set")),
     tr).
Proof.
  intros Hkey Hint1 Hint2. unfold import_config, AppConfig_validate.
  unfold Callers.bind at 1. rewrite getenv_int_run.
  assert (Hmb : exists mb,
             match getenv h "MAX_FILE_SIZE_MB" with
             | Some v => match int_of_str h v with
                         | Return n => Done n
                         | Raise e => Failed (Exc e)
                         end
             | None => Done 2
             end = Done mb).
  { destruct (getenv h "MAX_FILE_SIZE_MB") as [v|] eqn:E; [|now exists 2].
    destruct (Hint1 _ eq_refl) as (n & ->). now exists n. }
  destruct Hmb as (mb & ->).
  unfold Callers.bind at 1. rewrite getenv_int_run.
  assert (Hpg : exists pg,
             match getenv h "MAX_FILE_PAGE" with
             | Some v => match int_of_str h v with
                         | Return n => Done n
                         | Raise e => Failed (Exc e)
                         end
             | None => Done 10
             end = Done pg).
  { destruct (getenv h "MAX_FILE_PAGE") as [v|] eqn:E; [|now exists 10].
    destruct (Hint2 _ eq_refl) as (n & ->). now exists n. }
  destruct Hpg as (pg & ->).
  io_run. cbn [API_KEY TEMP_DIR]. rewrite Hkey. reflexivity.
Qed.

Lemma import_config_without_key_witness :
  import_config (host_of [("OPENAI_API_KEY", ""); ("MAX_FILE_PAGE", "25")]) []
  = (Failed (Exc (RuntimeError
                    "Invalid configuration: OPENAI_API_KEY environment variable must be set")),
     []).
Proof.
  apply (import_config_without_key
           (host_of [("OPENAI_API_KEY", ""); ("MAX_FILE_PAGE", "25")]) []).
  - reflexivity.
  - intros v H. discriminate.
  - intros v H. inversion H. now exists 25.
Defined.

(** X20: a ceiling that [int] rejects fails the import with the exception
    of [int] itself, not wrapped into RuntimeError, before the API key is
    looked at and before the temporary directory is created; the size ceiling
    is read first. *)
Theorem import_config_bad_ceiling (h : Host) (v : string) (e : exn) tr :
  (getenv h "MAX_FILE_SIZE_MB" = Some v /\ int_of_str h v = Raise e)
  \/ ((forall w, getenv h "MAX_FILE_SIZE_MB" = Some w -> exists n, int_of_str h w = Return n)
      /\ getenv h "MAX_FILE_PAGE" = Some v /\ int_of_str h v = Raise e) ->
  import_config h tr = (Failed (Exc e), tr).
Proof.
  intros [(Hmb & He) | (Hmb & Hpg & He)]; unfold import_config;
    unfold Callers.bind at 1; rewrite getenv_int_run.
  - now rewrite Hmb, He.
  - assert (H : exists mb,
               match getenv h "MAX_FILE_SIZE_MB" with
               | Some v => match int_of_str h v with
                           | Return n => Done n
                           | Raise e => Failed (Exc e)
                           end
               | None => Done 2
               end = Done mb).
    { destruct (getenv h "MAX_FILE_SIZE_MB") as [w|] eqn:E; [|now exists 2].
      destruct (Hmb _ eq_refl) as (n & ->). now exists n. }
    destruct H as (mb & ->).
    unfold Callers.bind at 1. rewrite getenv_int_run. now rewrite Hpg, He.
Qed.

Lemma import_config_bad_ceiling_witness :
  import_config (host_of [("MAX_FILE_PAGE", "ten")]) []
  = (Failed (Exc (ValueError "invalid literal for int() with base 10: 'ten'")), []).
Proof.
  apply (import_config_bad_ceiling (host_of [("MAX_FILE_PAGE", "ten")]) "ten"
           (ValueError "invalid literal for int() with base 10: 'ten'") []).
  right. split; [|split; reflexivity].
  intros w H. discriminate.
Defined.

(** X21: on the settings of an import that succeeded, the key test of
    [configure_dspy] always passes: [configure_dspy] exports the key, and it
    fails only when [dspy.LM] or [dspy.settings.configure] does, with their
    exception. *)
Theorem configure_dspy_after_import (h : Host) (d : Dspy) tr0 (cls : Settings) tr1 tr :
  import_config h tr0 = (Done cls, tr1) ->
  exists key,
    API_KEY cls = Some key /\ key <> "" /\
    configure_dspy cls d tr
    = match new_LM d (MODEL_NAME cls) with
      | Raise e =>
          (Failed (Exc e),
           tr ++ [SetEnviron "OPENAI_API_KEY" key; NewLM (MODEL_NAME cls)])
      | Return _ =>
          (match settings_configure d with
           | Return _ => Done tt
           | Raise e => Failed (Exc e)
           end,
           tr ++ [SetEnviron "OPENAI_API_KEY" key; NewLM (MODEL_NAME cls); ConfigureLM])
      end.
Proof.
  intros H. apply import_config_settings_key in H.
  destruct (API_KEY cls) as [key|] eqn:Hk; [|discriminate].
  exists key. split; [reflexivity|]. split.
  { intros ->. discriminate. }
  unfold configure_dspy. rewrite Hk, H. io_run. simpl.
  destruct (new_LM d (MODEL_NAME cls)); [|now rewrite <- app_assoc].
  destruct (settings_configure d) as [[]|e]; now rewrite <- !app_assoc.
Qed.

Lemma configure_dspy_after_import_witness :
  exists key,
    API_KEY settings_default = Some key /\ key <> "" /\
    configure_dspy settings_default dspy_up []
    = match new_LM dspy_up (MODEL_NAME settings_default) with
      | Raise e =>
          (Failed (Exc e),
           [] ++ [SetEnviron "OPENAI_API_KEY" key; NewLM (MODEL_NAME settings_default)])
      | Return _ =>
          (match settings_configure dspy_up with
           | Return _ => Done tt
           | Raise e => Failed (Exc e)
           end,
           [] ++ [SetEnviron "OPENAI_API_KEY" key; NewLM (MODEL_NAME settings_default);
                  ConfigureLM])
      end.
Proof.
  apply (configure_dspy_after_import (host_of [("OPENAI_API_KEY", "sk-test")]) dspy_up
           [] settings_default [Mkdir "temp"] []).
  vm_compute. reflexivity.
Defined.

End ConfigImport.

(** ** main.py *)

Section MainRuns.
Import Callers CallerFixtures.
Local Arguments String.append : simpl never.

Ltac io_run :=
  unfold Callers.bind, Callers.try_except, Callers.call, Callers.throw, Callers.ret,
    Callers.emit, Callers.log, Callers.lift.

Lemma count_io_app (p : io -> bool) (l1 l2 : list io) :
  count_io p (l1 ++ l2) = count_io p l1 + count_io p l2.
Proof. unfold count_io. now rewrite filter_app, length_app. Qed.

Lemma count_io_cons (p : io -> bool) (ev : io) (l : list io) :
  count_io p (ev :: l) = (if p ev then 1 else 0) + count_io p l.
Proof. unfold count_io. simpl. now destruct (p ev). Qed.

Lemma count_io_Core (p : io -> bool) (evs : list event) :
  (forall ev, p (Core ev) = false) -> count_io p (map Core evs) = 0.
Proof.
  intros H. unfold count_io. induction evs as [|ev evs IH]; [reflexivity|].
  simpl. now rewrite H.
Qed.

Ltac count_io_simpl :=
  repeat (rewrite count_io_app || rewrite count_io_cons
          || rewrite (count_io_Core is_Print) by reflexivity
          || rewrite (count_io_Core is_Remove) by reflexivity);
  simpl.

(** X22: [main] lets no exception escape.  Whatever the arguments and
    whatever the collaborators do, it either ends normally, having printed
    exactly twice (the banner and the result), or exits with status 1 having
    printed nothing. *)
Theorem main_exits_or_prints (cls : Settings) (d : Dspy) (b : DocumentProcessor.Backend)
    (lm : DocumentAnalyzer.LM) (argv : list string) tr :
  exists r evs,
    main cls d b lm argv tr = (r, tr ++ evs) /\
    ((r = Done tt /\ count_io is_Print evs = 2)
     \/ (r = Failed (SystemExit 1) /\ count_io is_Print evs = 0)).
Proof.
  unfold main, configure_dspy. io_run.
  destruct (length argv <? 2)%nat.
  { eexists _, _. split; [reflexivity|]. right. split; reflexivity. }
  destruct (new_DocumentProcessor d) as [[]|e0]; simpl.
  2:{ eexists _, _. split; [rewrite <- !app_assoc; reflexivity|]. right.
      split; reflexivity. }
  destruct (DocumentProcessor.process (limits cls) b (nth 1 argv "") [])
    as [[[text images]|e] pevs]; simpl.
  2:{ eexists _, _. split; [rewrite <- !app_assoc; reflexivity|]. right.
      split; [reflexivity|]. now count_io_simpl. }
  destruct (truthy (API_KEY cls)); simpl.
  2:{ eexists _, _. split; [rewrite <- !app_assoc; reflexivity|]. right.
      split; [reflexivity|]. now count_io_simpl. }
  destruct (new_LM d (MODEL_NAME cls)) as [[]|e1]; simpl.
  2:{ eexists _, _. split; [rewrite <- !app_assoc; reflexivity|]. right.
      split; [reflexivity|]. now count_io_simpl. }
  destruct (settings_configure d) as [[]|e2]; simpl.
  2:{ eexists _, _. split; [rewrite <- !app_assoc; reflexivity|]. right.
      split; [reflexivity|]. now count_io_simpl. }
  destruct (new_DocumentAnalyzer d) as [[]|e3]; simpl.
  2:{ eexists _, _. split; [rewrite <- !app_assoc; reflexivity|]. right.
      split; [reflexivity|]. now count_io_simpl. }
  destruct (forward_shape lm text images []) as (c & v & tr1 & _ & H).
  rewrite (H (limits cls)). simpl.
  eexists _, _. split; [rewrite <- !app_assoc; reflexivity|]. left.
  split; [reflexivity|]. now count_io_simpl.
Qed.

(** X23: when extraction fails, whatever the exception, [main] logs it and
    exits with status 1 at once: dspy is not configured, no analyzer is built
    and no predictor of the analysis is called. *)
Theorem main_extraction_failure (cls : Settings) (d : Dspy)
    (b : DocumentProcessor.Backend) (lm : DocumentAnalyzer.LM) (argv : list string)
    (e : exn) (pevs : list event) tr :
  (2 <= length argv)%nat ->
  new_DocumentProcessor d = Return tt ->
  DocumentProcessor.process (limits cls) b (nth 1 argv "") [] = (Raise e, pevs) ->
  main cls d b lm argv tr
  = (Failed (SystemExit 1),
     tr ++ [Core (Log INFO [Text ("Loading document: " ++ nth 1 argv "")%string]);
            NewDocumentProcessor]
        ++ map Core pevs
        ++ [Core (Log ERROR [Text ("Failed to process document '" ++ nth 1 argv "" ++ "': "
                                   ++ exn_msg e)%string])]).
Proof.
  intros Hlen Hnew Hp. unfold main. io_run.
  apply Nat.ltb_ge in Hlen. rewrite Hlen, Hnew. simpl. rewrite Hp. simpl.
  now rewrite <- !app_assoc.
Qed.

Lemma main_extraction_failure_witness :
  main settings_default dspy_up Fixtures.backend_missing lm_up ["main.py"; "missing.pdf"] []
  = (Failed (SystemExit 1),
     [] ++ [Core (Log INFO [Text "Loading document: missing.pdf"]); NewDocumentProcessor]
        ++ map Core []
        ++ [Core (Log ERROR [Text "Failed to process document 'missing.pdf': File not found: missing.pdf"])]).
Proof.
  apply (main_extraction_failure settings_default dspy_up Fixtures.backend_missing lm_up
           ["main.py"; "missing.pdf"]
           (Exn FileNotFoundError "File not found: missing.pdf") [] []).
  - simpl. apply Nat.le_refl.
  - reflexivity.
  - reflexivity.
Defined.

(** X24: when extraction returns, dspy configures and the analyzer is built,
    [main] ends normally whatever the four predictors do: it prints the banner
    and then the dict that [forward] returns for the extracted text and
    images, as JSON with indent 2. *)
Theorem main_prints_result (cls : Settings) (d : Dspy)
    (b : DocumentProcessor.Backend) (lm : DocumentAnalyzer.LM) (argv : list string)
    (text : string) (images : list Image) (pevs : list event) tr :
  (2 <= length argv)%nat ->
  new_DocumentProcessor d = Return tt ->
  DocumentProcessor.process (limits cls) b (nth 1 argv "") [] = (Return (text, images), pevs) ->
  truthy (API_KEY cls) = true ->
  new_LM d (MODEL_NAME cls) = Return tt ->
  settings_configure d = Return tt ->
  new_DocumentAnalyzer d = Return tt ->
  exists out aevs evs,
    DocumentAnalyzer.forward (limits cls) lm text images [] = (Return out, aevs) /\
    main cls d b lm argv tr
    = (Done tt,
       tr ++ evs
          ++ [Print (Line (PyStr.newline ++ "---------- Results ----------"
                           ++ PyStr.newline)%string);
              Print (JsonDump out 2)]) /\
    count_io is_Print evs = 0.
Proof.
  intros Hlen Hnew Hp Hkey Hlm Hconf Han.
  destruct (forward_shape lm text images []) as (c & v & tr1 & _ & H).
  exists (DocumentAnalyzer._format_output c v),
    (tr1 ++ low_confidence_warning (limits cls) (DocumentAnalyzer.confidence_score v)),
    ([Core (Log INFO [Text ("Loading document: " ++ nth 1 argv "")%string]);
      NewDocumentProcessor]
       ++ map Core pevs
       ++ [Core (Log INFO [Text "Analyzing document content with LLM..."]);
           SetEnviron "OPENAI_API_KEY" (match API_KEY cls with Some k => k | None => "" end);
           NewLM (MODEL_NAME cls); ConfigureLM; NewDocumentAnalyzer]
       ++ map Core (tr1 ++ low_confidence_warning (limits cls)
                                (DocumentAnalyzer.confidence_score v))).
  split; [apply H|]. split.
  - unfold main, configure_dspy. io_run.
    apply Nat.ltb_ge in Hlen. rewrite Hlen, Hnew. simpl. rewrite Hp. simpl.
    rewrite Hkey. simpl. rewrite Hlm. simpl. rewrite Hconf. simpl. rewrite Han. simpl.
    rewrite (H (limits cls)). rewrite !map_app.
    repeat first [rewrite <- app_assoc | progress simpl]. reflexivity.
  - now count_io_simpl.
Qed.

Lemma main_prints_result_witness :
  exists out aevs evs,
    DocumentAnalyzer.forward (limits settings_default) lm_up "Invoice 42" [Fixtures.white_image] []
    = (Return out, aevs) /\
    main settings_default dspy_up
      (Fixtures.backend_of [Fixtures.page_of 0 "#"] Fixtures.unreadable (Return "Invoice 42"))
      lm_up ["main.py"; "scan.pdf"] []
    = (Done tt,
       [] ++ evs
          ++ [Print (Line (PyStr.newline ++ "---------- Results ----------"
                           ++ PyStr.newline)%string);
              Print (JsonDump out 2)]) /\
    count_io is_Print evs = 0.
Proof.
  apply (main_prints_result settings_default dspy_up
           (Fixtures.backend_of [Fixtures.page_of 0 "#"] Fixtures.unreadable (Return "Invoice 42"))
           lm_up ["main.py"; "scan.pdf"] "Invoice 42" [Fixtures.white_image]
           (snd (DocumentProcessor.process (limits settings_default)
                   (Fixtures.backend_of [Fixtures.page_of 0 "#"] Fixtures.unreadable
                                        (Return "Invoice 42"))
                   "scan.pdf" [])) []).
  - simpl. apply Nat.le_refl.
  - reflexivity.
  - vm_compute. reflexivity.
  - reflexivity.
  - reflexivity.
  - reflexivity.
  - reflexivity.
Defined.

End MainRuns.

(** ** app.py *)

Section EndpointRuns.
Import Callers CallerFixtures.
Local Arguments String.append : simpl never.

Ltac io_run :=
  unfold Callers.bind, Callers.try_except, Callers.call, Callers.throw, Callers.ret,
    Callers.emit, Callers.log, Callers.lift.

Ltac norm_app := repeat first [rewrite <- app_assoc | progress simpl].

(** The handler, case by case. *)
Lemma analyze_document_run (cls : Settings) (os : OS) (b : DocumentProcessor.Backend)
    (lm : DocumentAnalyzer.LM) (file : UploadFile) tr :
  analyze_document cls os b lm file tr
  = if negb (endswith (filename file) ".pdf")
    then (Failed (HTTPException 400 "Only PDF files are accepted."), tr)
    else
      let path := os_path_join (TEMP_DIR cls) (filename file) in
      match makedirs os (TEMP_DIR cls) with
      | Raise e => (Failed (Exc e), tr ++ [Makedirs (TEMP_DIR cls)])
      | Return _ =>
        match open_wb os path with
        | Raise _ =>
            (Failed (HTTPException 500 "Failed to save file."),
             tr ++ [Makedirs (TEMP_DIR cls); OpenWb path])
        | Return _ =>
          match read file with
          | Raise _ =>
              (Failed (HTTPException 500 "Failed to save file."),
               tr ++ [Makedirs (TEMP_DIR cls); OpenWb path; ReadUpload])
          | Return data =>
            match write os path data with
            | Raise _ =>
                (Failed (HTTPException 500 "Failed to save file."),
                 tr ++ [Makedirs (TEMP_DIR cls); OpenWb path; ReadUpload; Write path data])
            | Return _ =>
              let saved :=
                tr ++ [Makedirs (TEMP_DIR cls); OpenWb path; ReadUpload; Write path data;
                       Core (Log INFO [Text ("Loading document: " ++ filename file)%string])] in
              match DocumentProcessor.process (limits cls) b path [] with
              | (Raise e, pevs) =>
                  (Failed (HTTPException 500 ("Text extraction error: " ++ exn_msg e)%string),
                   saved ++ map Core pevs)
              | (Return (text, images), pevs) =>
                let analysing :=
                  saved ++ map Core pevs
                    ++ [Core (Log INFO [Text "Analyzing document content with LLM..."])] in
                match DocumentAnalyzer.forward (limits cls) lm text images [] with
                | (Raise e, aevs) =>
                    (Failed (HTTPException 500 ("Analysis error: " ++ exn_msg e)%string),
                     analysing ++ map Core aevs)
                | (Return out, aevs) =>
                    (Done out,
                     analysing ++ map Core aevs
                       ++ Remove path
                       :: match remove os path with
                          | Return _ => []
                          | Raise e =>
                              [Core (Log WARNING
                                       [Text ("Could not remove temporary file: "
                                              ++ exn_msg e)%string])]
                          end
                       ++ [Print (Line (PyStr.newline ++ "---------- Results ----------"
                                        ++ PyStr.newline)%string);
                           Print (JsonDump out 2)])
                end
              end
            end
          end
        end
      end.
Proof.
  unfold analyze_document. io_run.
  destruct (endswith (filename file) ".pdf"); simpl; [|reflexivity].
  destruct (makedirs os (TEMP_DIR cls)) as [[]|e0]; simpl; [|reflexivity].
  destruct (open_wb os _) as [[]|e1]; simpl; [|now norm_app].
  destruct (read file) as [data|e2]; simpl; [|now norm_app].
  destruct (write os _ data) as [[]|e3]; simpl; [|now norm_app].
  destruct (DocumentProcessor.process (limits cls) b _ []) as [[[text images]|e] pevs]; simpl;
    [|now norm_app].
  destruct (DocumentAnalyzer.forward (limits cls) lm text images []) as [[out|e] aevs]; simpl;
    [|now norm_app].
  destruct (remove os _) as [[]|e4]; simpl; now norm_app.
Qed.

(** X25: the failures of the handler function [analyze_document].  A call
    of the function ends with an exception in one of four ways only: it raises
    [HTTPException] with status 400 when the file name does not end in ".pdf"
    (nothing is then touched); the exception of [os.makedirs] escapes it; it
    raises [HTTPException] with status 500 "Failed to save file." when the
    upload could not be saved; it raises [HTTPException] with status 500
    "Text extraction error: " and the message of the exception when [process]
    raised.  In particular the function never raises "Analysis error":
    [forward] cannot raise. *)
Theorem analyze_document_failures (cls : Settings) (os : OS)
    (b : DocumentProcessor.Backend) (lm : DocumentAnalyzer.LM) (file : UploadFile)
    tr (f : failure) tr' :
  analyze_document cls os b lm file tr = (Failed f, tr') ->
  (f = HTTPException 400 "Only PDF files are accepted."
   /\ endswith (filename file) ".pdf" = false /\ tr' = tr)
  \/ (exists e, f = Exc e /\ makedirs os (TEMP_DIR cls) = Raise e)
  \/ (f = HTTPException 500 "Failed to save file."
      /\ ~ saves os file (os_path_join (TEMP_DIR cls) (filename file)))
  \/ (exists e,
        f = HTTPException 500 ("Text extraction error: " ++ exn_msg e)%string
        /\ outcome (DocumentProcessor.process (limits cls) b
                      (os_path_join (TEMP_DIR cls) (filename file))) = Raise e).
Proof.
  rewrite analyze_document_run. intros H.
  destruct (endswith (filename file) ".pdf") eqn:Hpdf; simpl in H.
  2:{ inversion H; subst. left. now repeat split. }
  right.
  destruct (makedirs os (TEMP_DIR cls)) as [[]|e0] eqn:Hmk.
  2:{ inversion H; subst. left. now exists e0. }
  right.
  destruct (open_wb os _) as [[]|e1] eqn:Hop.
  2:{ inversion H; subst. left. split; [reflexivity|].
      intros (data & Ho & _). congruence. }
  destruct (read file) as [data|e2] eqn:Hrd.
  2:{ inversion H; subst. left. split; [reflexivity|].
      intros (data & _ & Hr & _). congruence. }
  destruct (write os _ data) as [[]|e3] eqn:Hwr.
  2:{ inversion H; subst. left. split; [reflexivity|].
      intros (data' & _ & Hr & Hw). congruence. }
  right. unfold outcome.
  destruct (DocumentProcessor.process (limits cls) b _ []) as [[[text images]|e] pevs].
  2:{ inversion H; subst. now exists e. }
  exfalso.
  destruct (forward_shape lm text images []) as (c & v & tr1 & _ & Hf).
  rewrite (Hf (limits cls)) in H. discriminate.
Qed.

Lemma analyze_document_failures_witness :
  (HTTPException 400 "Only PDF files are accepted."
   = HTTPException 400 "Only PDF files are accepted."
   /\ endswith (filename (upload "REPORT.PDF")) ".pdf" = false /\ @nil io = [])
  \/ (exists e, HTTPException 400 "Only PDF files are accepted." = Exc e
                /\ makedirs os_up (TEMP_DIR settings_default) = Raise e)
  \/ (HTTPException 400 "Only PDF files are accepted."
      = HTTPException 500 "Failed to save file."
      /\ ~ saves os_up (upload "REPORT.PDF")
            (os_path_join (TEMP_DIR settings_default) (filename (upload "REPORT.PDF"))))
  \/ (exists e,
        HTTPException 400 "Only PDF files are accepted."
        = HTTPException 500 ("Text extraction error: " ++ exn_msg e)%string
        /\ outcome (DocumentProcessor.process (limits settings_default)
                      (Fixtures.backend_of (Fixtures.pages 1) Fixtures.readable (Return ""))
                      (os_path_join (TEMP_DIR settings_default)
                                    (filename (upload "REPORT.PDF")))) = Raise e).
Proof.
  apply (analyze_document_failures settings_default os_up
           (Fixtures.backend_of (Fixtures.pages 1) Fixtures.readable (Return ""))
           lm_up (upload "REPORT.PDF") []
           (HTTPException 400 "Only PDF files are accepted.") []).
  reflexivity.
Defined.

(** X26: the handler function returns whenever extraction does.  When the
    name ends in ".pdf", the directory exists or is created, the upload is
    saved and [process] returns text and images, the function
    [analyze_document] returns the dict that [forward] returns for them,
    whatever the predictors do and whether or not the temporary file can be
    removed afterwards. *)
Theorem analyze_document_success (cls : Settings) (os : OS)
    (b : DocumentProcessor.Backend) (lm : DocumentAnalyzer.LM) (file : UploadFile)
    (text : string) (images : list Image) tr :
  endswith (filename file) ".pdf" = true ->
  makedirs os (TEMP_DIR cls) = Return tt ->
  saves os file (os_path_join (TEMP_DIR cls) (filename file)) ->
  outcome (DocumentProcessor.process (limits cls) b
             (os_path_join (TEMP_DIR cls) (filename file))) = Return (text, images) ->
  exists out,
    outcome (DocumentAnalyzer.forward (limits cls) lm text images) = Return out /\
    fst (analyze_document cls os b lm file tr) = Done out.
Proof.
  intros Hpdf Hmk (data & Hop & Hrd & Hwr) Hp.
  destruct (forward_shape lm text images []) as (c & v & tr1 & _ & Hf).
  exists (DocumentAnalyzer._format_output c v).
  unfold outcome in *. split; [now rewrite (Hf (limits cls))|].
  rewrite analyze_document_run, Hpdf, Hmk. cbv zeta. rewrite Hop, Hrd, Hwr. simpl negb. cbv iota.
  destruct (DocumentProcessor.process (limits cls) b _ []) as [r pevs].
  simpl in Hp. subst r. now rewrite (Hf (limits cls)).
Qed.

Lemma analyze_document_success_witness :
  exists out,
    outcome (DocumentAnalyzer.forward (limits settings_default) lm_up
               (native_text ["page"]) [Fixtures.white_image]) = Return out /\
    fst (analyze_document settings_default os_sticky
           (Fixtures.backend_of (Fixtures.pages 1) Fixtures.readable (Return ""))
           lm_up (upload "report.pdf") []) = Done out.
Proof.
  apply (analyze_document_success settings_default os_sticky
           (Fixtures.backend_of (Fixtures.pages 1) Fixtures.readable (Return ""))
           lm_up (upload "report.pdf") (native_text ["page"]) [Fixtures.white_image] []).
  - reflexivity.
  - reflexivity.
  - exists [37; 80; 68; 70]%Z. repeat split.
  - vm_compute. reflexivity.
Defined.

(** X27: the call of [os.remove].  A run of the handler function
    [analyze_document] calls [os.remove] exactly once when the function
    returns, and not at all when it ends with an exception. *)
Theorem analyze_document_removal (cls : Settings) (os : OS)
    (b : DocumentProcessor.Backend) (lm : DocumentAnalyzer.LM) (file : UploadFile) tr :
  exists r evs,
    analyze_document cls os b lm file tr = (r, tr ++ evs) /\
    count_io is_Remove evs = match r with Done _ => 1 | Failed _ => 0 end.
Proof.
  rewrite analyze_document_run.
  destruct (endswith (filename file) ".pdf"); simpl.
  2:{ exists (Failed (HTTPException 400 "Only PDF files are accepted.")), [].
      now rewrite app_nil_r. }
  destruct (makedirs os (TEMP_DIR cls)) as [[]|e0];
    [|eexists _, _; split; [reflexivity|]; reflexivity].
  destruct (open_wb os _) as [[]|e1];
    [|eexists _, _; split; [reflexivity|]; reflexivity].
  destruct (read file) as [data|e2];
    [|eexists _, _; split; [reflexivity|]; reflexivity].
  destruct (write os _ data) as [[]|e3];
    [|eexists _, _; split; [reflexivity|]; reflexivity].
  destruct (DocumentProcessor.process (limits cls) b _ []) as [[[text images]|e] pevs].
  2:{ eexists _, _. split; [rewrite <- !app_assoc; reflexivity|].
      repeat (rewrite count_io_app || rewrite count_io_cons
              || rewrite (count_io_Core is_Remove) by reflexivity). reflexivity. }
  destruct (forward_shape lm text images []) as (c & v & tr1 & _ & Hf).
  rewrite (Hf (limits cls)).
  destruct (remove os _) as [[]|e4];
    (eexists _, _; split; [rewrite <- !app_assoc; reflexivity|];
     repeat (rewrite count_io_app || rewrite count_io_cons
             || rewrite (count_io_Core is_Remove) by reflexivity); reflexivity).
Qed.

(** X28: where the upload is written.  The path is [os.path.join(TEMP_DIR,
    filename)] with the name as the client sent it, and a name that starts
    with "/" is the whole path: the endpoint then opens that very path for
    writing, outside the temporary directory it has just created. *)
Theorem analyze_document_writes_at (cls : Settings) (os : OS)
    (b : DocumentProcessor.Backend) (lm : DocumentAnalyzer.LM) (file : UploadFile) tr :
  endswith (filename file) ".pdf" = true ->
  startswith (filename file) "/" = true ->
  makedirs os (TEMP_DIR cls) = Return tt ->
  exists r evs,
    analyze_document cls os b lm file tr
    = (r, tr ++ Makedirs (TEMP_DIR cls) :: OpenWb (filename file) :: evs).
Proof.
  intros Hpdf Habs Hmk. rewrite analyze_document_run, Hpdf, Hmk. cbv zeta. simpl negb. cbv iota.
  assert (Hpath : os_path_join (TEMP_DIR cls) (filename file) = filename file).
  { unfold os_path_join. now rewrite Habs. }
  rewrite !Hpath.
  destruct (open_wb os _) as [[]|e1]; [|now eexists _, _].
  destruct (read file) as [data|e2]; [|now eexists _, _].
  destruct (write os _ data) as [[]|e3]; [|now eexists _, _].
  destruct (DocumentProcessor.process (limits cls) b _ []) as [[[text images]|e] pevs];
    [|eexists _, _; rewrite <- !app_assoc; reflexivity].
  destruct (DocumentAnalyzer.forward (limits cls) lm text images []) as [[out|e] aevs];
    eexists _, _; rewrite <- !app_assoc; reflexivity.
Qed.

Lemma analyze_document_writes_at_witness :
  exists r evs,
    analyze_document settings_default os_up
      (Fixtures.backend_of (Fixtures.pages 1) Fixtures.readable (Return ""))
      lm_up (upload "/etc/cron.d/job.pdf") []
    = (r, [] ++ Makedirs "temp" :: OpenWb "/etc/cron.d/job.pdf" :: evs).
Proof.
  apply (analyze_document_writes_at settings_default os_up
           (Fixtures.backend_of (Fixtures.pages 1) Fixtures.readable (Return ""))
           lm_up (upload "/etc/cron.d/job.pdf") []); reflexivity.
Defined.

End EndpointRuns.
